(** * Bluetooth LE battery server: GATT request handling, connection state,
      OTA control point and battery notifier

    A shallow embedding of [ble_gatt.cpp], [ble_context.cpp] / [ble_context.hpp]
    and [battery_service_task.cpp].  Machine integers are [Z] with the
    wrap-around of their C++ type written out where the source has one;
    pointers are addresses into a flat byte memory; calls into the Bluetooth
    stack, the OTA library, the C library and the LED driver are recorded in a
    trace, and what those calls return is supplied by interfaces the
    development is parametric in. *)

From Stdlib Require Import ZArith List Bool Lia.
Import ListNotations.
Open Scope Z_scope.

(* ===================================================================== *)
(** ** Machine integers and memory *)
(* ===================================================================== *)

Definition to_uint8 (x : Z) : Z := x mod 256.
Definition to_uint16 (x : Z) : Z := x mod 65536.

(** [MIN] of the platform headers: [(((a) < (b)) ? (a) : (b))]. *)
Definition MIN (a b : Z) : Z := if a <? b then a else b.

Definition address := Z.
Definition nullptr : address := 0.

(** Byte-addressed memory. *)
Definition memory := address -> Z.

(** [std::memcpy(dst, src, n)]: the [n] bytes at [src] (as they are before
    the call) land at [dst]. *)
Definition memcpy (m : memory) (dst src : address) (n : Z) : memory :=
  fun a => if (dst <=? a) && (a <? dst + n) then m (src + (a - dst)) else m a.

(** [std::memset(dst, c, n)]. *)
Definition memset (m : memory) (dst : address) (c : Z) (n : Z) : memory :=
  fun a => if (dst <=? a) && (a <? dst + n) then c else m a.

Definition store8 (m : memory) (p : address) (v : Z) : memory :=
  fun a => if a =? p then v else m a.

(** The [n] bytes found at [p]. *)
Fixpoint load_bytes (m : memory) (p : address) (n : nat) : list Z :=
  match n with
  | O => []
  | S n' => m p :: load_bytes m (p + 1) n'
  end.

(** Memory holding the given bytes from [p] on, [rest] elsewhere. *)
Fixpoint with_bytes (rest : memory) (p : address) (bs : list Z) : memory :=
  match bs with
  | [] => rest
  | b :: bs' => store8 (with_bytes rest (p + 1) bs') p b
  end.

(* ===================================================================== *)
(** ** Status codes, opcodes and request records of the stack's headers *)
(* ===================================================================== *)

(** [wiced_bt_gatt_status_t] is an 8-bit integer; the enumerators of
    [wiced_bt_gatt_status_e] used by the application carry the ATT error
    codes.  [wiced_bt_gatt_status_t{}] is the value 0.  Of
    [WICED_BT_GATT_ERROR], a code of the stack's own, only its not being 0 is
    used. *)
Definition wiced_bt_gatt_status_t := Z.
Definition WICED_BT_GATT_SUCCESS : wiced_bt_gatt_status_t := 0x00.
Definition WICED_BT_GATT_INVALID_HANDLE : wiced_bt_gatt_status_t := 0x01.
Definition WICED_BT_GATT_INVALID_PDU : wiced_bt_gatt_status_t := 0x04.
Definition WICED_BT_GATT_REQ_NOT_SUPPORTED : wiced_bt_gatt_status_t := 0x06.
Definition WICED_BT_GATT_INVALID_OFFSET : wiced_bt_gatt_status_t := 0x07.
Definition WICED_BT_GATT_INVALID_ATTR_LEN : wiced_bt_gatt_status_t := 0x0D.
Definition WICED_BT_GATT_ERR_UNLIKELY : wiced_bt_gatt_status_t := 0x0E.
Definition WICED_BT_GATT_INSUF_RESOURCE : wiced_bt_gatt_status_t := 0x11.
Definition WICED_BT_GATT_ERROR : wiced_bt_gatt_status_t := 0x85.

(** [wiced_result_t] and [cy_rslt_t]: only success (0) is told apart. *)
Definition wiced_result_t := Z.
Definition WICED_BT_SUCCESS : wiced_result_t := 0.
Definition cy_rslt_t := Z.
Definition CY_RSLT_SUCCESS : cy_rslt_t := 0.
Definition CY_RSLT_TYPE_ERROR : cy_rslt_t := 2.

(** [wiced_bt_gatt_opcode_e]. *)
Inductive wiced_bt_gatt_opcode_t : Type :=
| GATT_RSP_ERROR
| GATT_REQ_MTU
| GATT_RSP_MTU
| GATT_REQ_FIND_INFO
| GATT_RSP_FIND_INFO
| GATT_REQ_FIND_TYPE_VALUE
| GATT_RSP_FIND_TYPE_VALUE
| GATT_REQ_READ_BY_TYPE
| GATT_RSP_READ_BY_TYPE
| GATT_REQ_READ
| GATT_RSP_READ
| GATT_REQ_READ_BLOB
| GATT_RSP_READ_BLOB
| GATT_REQ_READ_MULTI
| GATT_RSP_READ_MULTI
| GATT_REQ_READ_BY_GRP_TYPE
| GATT_RSP_READ_BY_GRP_TYPE
| GATT_REQ_WRITE
| GATT_RSP_WRITE
| GATT_REQ_PREPARE_WRITE
| GATT_RSP_PREPARE_WRITE
| GATT_REQ_EXECUTE_WRITE
| GATT_RSP_EXECUTE_WRITE
| GATT_HANDLE_VALUE_NOTIF
| GATT_HANDLE_VALUE_IND
| GATT_HANDLE_VALUE_CONF
| GATT_REQ_READ_MULTI_VAR_LENGTH
| GATT_RSP_READ_MULTI_VAR_LENGTH
| GATT_HANDLE_VALUE_MULTI_NOTIF
| GATT_CMD_WRITE
| GATT_CMD_SIGNED_WRITE.

Definition wiced_bt_uuid_t := Z.

Record wiced_bt_gatt_read_t := {
  read_handle : Z;
  read_offset : Z
}.

Record wiced_bt_gatt_read_by_type_t := {
  s_handle : Z;
  e_handle : Z;
  uuid : wiced_bt_uuid_t
}.

Record wiced_bt_gatt_read_multiple_req_t := {
  num_handles : Z;
  p_handle_stream : address
}.

Record wiced_bt_gatt_write_req_t := {
  write_handle : Z;
  p_val : address;
  val_len : Z
}.

(** [wiced_bt_gatt_attribute_request_t]; the members of its [data] union are
    kept side by side. *)
Record wiced_bt_gatt_attribute_request_t := {
  conn_id : Z;
  opcode : wiced_bt_gatt_opcode_t;
  len_requested : Z;
  read_req : wiced_bt_gatt_read_t;
  read_by_type : wiced_bt_gatt_read_by_type_t;
  read_multiple_req : wiced_bt_gatt_read_multiple_req_t;
  write_req : wiced_bt_gatt_write_req_t;
  remote_mtu : Z
}.

Record wiced_bt_gatt_connection_status_t := {
  bd_addr : list Z;
  cs_conn_id : Z;
  connected : bool
}.

Definition BD_ADDR_LEN : nat := 6.

Inductive wiced_bt_ble_advert_mode_t : Type :=
| BTM_BLE_ADVERT_OFF
| BTM_BLE_ADVERT_DIRECTED_HIGH
| BTM_BLE_ADVERT_DIRECTED_LOW
| BTM_BLE_ADVERT_UNDIRECTED_HIGH
| BTM_BLE_ADVERT_UNDIRECTED_LOW
| BTM_BLE_ADVERT_NONCONN_HIGH
| BTM_BLE_ADVERT_NONCONN_LOW.

(** The application context handed to the stack with a response buffer: the
    function the stack is to call on the buffer once it has been sent. *)
Inductive app_ctxt : Type :=
| ctxt_nullptr
| ctxt_std_free.

(** Events of [ble_gatt_event_callback]. *)
Inductive wiced_bt_gatt_evt : Type :=
| GATT_CONNECTION_STATUS_EVT (connection_status : wiced_bt_gatt_connection_status_t)
| GATT_ATTRIBUTE_REQUEST_EVT (attribute_request : wiced_bt_gatt_attribute_request_t)
| GATT_GET_RESPONSE_BUFFER_EVT (buffer_len_requested : Z)
| GATT_APP_BUFFER_TRANSMITTED_EVT (p_app_ctxt : app_ctxt) (p_app_data : address)
| GATT_OPERATION_CPLT_EVT
| GATT_DISCOVERY_RESULT_EVT
| GATT_DISCOVERY_CPLT_EVT
| GATT_CONGESTION_EVT.

(* ===================================================================== *)
(** ** The attribute table and the application state *)
(* ===================================================================== *)

(** [gatt_db_lookup_table_t] of the generated [cycfg_gatt_db.h]. *)
Record gatt_db_lookup_table_t := {
  handle : Z;
  max_len : Z;
  cur_len : Z;
  p_data : address
}.

Definition set_cur_len (entry : gatt_db_lookup_table_t) (n : Z) :=
  {| handle := handle entry; max_len := max_len entry;
     cur_len := n; p_data := p_data entry |}.

(** [ble_context::state]. *)
Inductive state : Type :=
| disconnected_not_advertising
| disconnected_and_advertising
| state_connected.

(** [led_pwm::duty_cycle]. *)
Inductive duty_cycle : Type :=
| duty_off
| duty_blinking
| duty_on.

Definition duty_to_underlying (d : duty_cycle) : Z :=
  match d with duty_off => 0 | duty_blinking => 50 | duty_on => 100 end.

Definition ADVERTISING_LED_PWM_FREQUENCY : Z := 4.

(** The members of [ble_context] that the modelled functions touch. *)
Record ble_context := {
  m_tag : Z;
  m_connection_id : Z;
  m_peer_address : list Z;
  m_connection_state : state;
  m_ota_context : address;
  m_reboot_at_end : bool;
  m_ota_config_descriptor : Z
}.

Definition OTA_APP_TAG_VALID : Z := 0x51EDBA15.
Definition BLE_CONTEXT_TAG_VALID : Z := 0x51EDBA15.
Definition BLE_CONTEXT_TAG_INVALID : Z := 0xDEADBEEF.

(** Calls that leave the application, in the order they are made. *)
Inductive event : Type :=
| E_malloc (size : Z) (ret : address)
| E_free (p : address)
| E_send_error_rsp (conn : Z) (op : wiced_bt_gatt_opcode_t) (h : Z)
    (status : wiced_bt_gatt_status_t)
| E_send_read_handle_rsp (conn : Z) (op : wiced_bt_gatt_opcode_t) (len : Z)
    (p : address) (payload : list Z) (ctxt : app_ctxt)
| E_send_read_by_type_rsp (conn : Z) (op : wiced_bt_gatt_opcode_t)
    (pair_len : Z) (len : Z) (p : address) (payload : list Z) (ctxt : app_ctxt)
| E_send_read_multiple_rsp (conn : Z) (op : wiced_bt_gatt_opcode_t) (len : Z)
    (p : address) (payload : list Z) (ctxt : app_ctxt)
| E_send_write_rsp (conn : Z) (op : wiced_bt_gatt_opcode_t) (h : Z)
| E_send_execute_write_rsp (conn : Z) (op : wiced_bt_gatt_opcode_t)
| E_send_mtu_rsp (conn : Z) (remote : Z) (mine : Z)
| E_send_notification (conn : Z) (h : Z) (len : Z) (p : address)
    (payload : list Z)
| E_start_advertisements (mode : wiced_bt_ble_advert_mode_t)
| E_led_stop
| E_led_set_duty_cycle (duty : Z) (frequency : Z)
| E_led_start
| E_cy_ota_agent_start
| E_cy_ota_ble_download_prepare (ctx : address) (conn : Z) (descriptor : Z)
| E_cy_ota_ble_download (ctx : address) (conn : Z) (descriptor : Z)
| E_cy_ota_ble_download_verify (ctx : address) (conn : Z)
| E_cy_ota_ble_download_abort (ctx : address)
| E_cy_ota_ble_download_write (ctx : address)
| E_cy_ota_get_state (ctx : address)
| E_cy_ota_agent_stop (ctx : address)
| E_cy_rtos_delay_milliseconds (ms : Z)
| E_NVIC_SystemReset.

Record app_state := {
  app_gatt_db_ext_attr_tbl : list gatt_db_lookup_table_t;
  ram : memory;
  heap : list address;            (* blocks from malloc not yet freed *)
  ble_context_object : ble_context;
  trace : list event
}.

Definition set_tbl (s : app_state) (t : list gatt_db_lookup_table_t) :=
  {| app_gatt_db_ext_attr_tbl := t; ram := ram s; heap := heap s;
     ble_context_object := ble_context_object s; trace := trace s |}.

Definition set_ram (s : app_state) (m : memory) :=
  {| app_gatt_db_ext_attr_tbl := app_gatt_db_ext_attr_tbl s; ram := m;
     heap := heap s; ble_context_object := ble_context_object s;
     trace := trace s |}.

Definition set_heap (s : app_state) (h : list address) :=
  {| app_gatt_db_ext_attr_tbl := app_gatt_db_ext_attr_tbl s; ram := ram s;
     heap := h; ble_context_object := ble_context_object s;
     trace := trace s |}.

Definition set_ctx (s : app_state) (c : ble_context) :=
  {| app_gatt_db_ext_attr_tbl := app_gatt_db_ext_attr_tbl s; ram := ram s;
     heap := heap s; ble_context_object := c; trace := trace s |}.

Definition log (s : app_state) (e : event) :=
  {| app_gatt_db_ext_attr_tbl := app_gatt_db_ext_attr_tbl s; ram := ram s;
     heap := heap s; ble_context_object := ble_context_object s;
     trace := trace s ++ [e] |}.

(* ===================================================================== *)
(** ** Computations: state, and the ways a call does not come back *)
(* ===================================================================== *)

Inductive halt_reason : Type :=
| assertion_failed      (* CY_ASSERT of a false condition, assertions on *)
| spins_forever         (* [while (true) { delay }] *)
| system_reset.         (* NVIC_SystemReset *)

(** [OutOfFuel] is the model's own: a loop was cut at the bound it was run
    with.  It stands for no behaviour of the program. *)
Inductive outcome (A : Type) : Type :=
| Returned (a : A) (s : app_state)
| Halted (why : halt_reason) (s : app_state)
| OutOfFuel.

Arguments Returned {A} a s.
Arguments Halted {A} why s.
Arguments OutOfFuel {A}.

Definition M (A : Type) : Type := app_state -> outcome A.

Definition ret {A} (a : A) : M A := fun s => Returned a s.

Definition bind {A B} (c : M A) (k : A -> M B) : M B :=
  fun s =>
    match c s with
    | Returned a s' => k a s'
    | Halted why s' => Halted why s'
    | OutOfFuel => OutOfFuel
    end.

Declare Scope m_scope.
Delimit Scope m_scope with M.
Notation "x <- c ;; k" := (bind c (fun x => k))
  (at level 61, c at next level, right associativity) : m_scope.
Notation "' pat <- c ;; k" := (bind c (fun x => match x with pat => k end))
  (at level 61, pat pattern, c at next level, right associativity) : m_scope.
Notation "c ;;; k" := (bind c (fun _ => k))
  (at level 61, right associativity) : m_scope.
Open Scope m_scope.

Definition get : M app_state := fun s => Returned s s.
Definition put (s : app_state) : M unit := fun _ => Returned tt s.
Definition emit (e : event) : M unit := fun s => Returned tt (log s e).
Definition halt {A} (why : halt_reason) : M A := fun s => Halted why s.
Definition out_of_fuel {A} : M A := fun _ => OutOfFuel.
Definition update_ctx (f : ble_context -> ble_context) : M unit :=
  fun s => Returned tt (set_ctx s (f (ble_context_object s))).

(* ===================================================================== *)
(** ** What the application is linked against *)
(* ===================================================================== *)

(** The C library's allocator and the build's assertion switch. *)
Class Platform := {
  (** [CY_ASSERT(x)] halts on a false [x]; with [NDEBUG] it expands to
      nothing. *)
  cy_assert_enabled : bool;
  (** What [std::malloc(size)] returns given the blocks in use; [nullptr]
      when it fails. *)
  std_malloc : list address -> Z -> address;
  (** What [cyhal_pwm_start] returns. *)
  cyhal_pwm_start : cy_rslt_t
}.

(** The Bluetooth stack, as far as the handlers look at what it returns. *)
Class BtStack := {
  wiced_bt_gatt_find_handle_by_type : Z -> Z -> wiced_bt_uuid_t -> Z;
  wiced_bt_gatt_get_handle_from_stream : memory -> address -> Z -> Z;
  (** stream, room, [*p_pair_len] on entry, handle, length and data of the
      attribute; gives the bytes filled, [*p_pair_len] on exit and memory. *)
  wiced_bt_gatt_put_read_by_type_rsp_in_stream :
    memory -> address -> Z -> Z -> Z -> Z -> address -> Z * Z * memory;
  wiced_bt_gatt_put_read_multi_rsp_in_stream :
    wiced_bt_gatt_opcode_t -> memory -> address -> Z -> Z -> Z -> address ->
    Z * memory;
  wiced_bt_gatt_server_send_read_handle_rsp :
    Z -> wiced_bt_gatt_opcode_t -> Z -> address -> wiced_bt_gatt_status_t;
  wiced_bt_gatt_server_send_mtu_rsp : Z -> Z -> Z -> wiced_bt_gatt_status_t;
  wiced_bt_start_advertisements : wiced_bt_ble_advert_mode_t -> wiced_result_t;
  ble_max_rx_pdu_size : Z
}.

Inductive cy_ota_agent_state_t : Type :=
| CY_OTA_STATE_NOT_INITIALIZED
| CY_OTA_STATE_AGENT_WAITING
| CY_OTA_STATE_DATA_DOWNLOAD
| CY_OTA_STATE_VERIFY
| CY_OTA_STATE_OTA_COMPLETE
| CY_OTA_STATE_EXITING.

(** The OTA library. *)
Class OtaAgent := {
  CY_RSLT_OTA_ERROR_BADARG : cy_rslt_t;
  (** result, and the context pointer written through the third argument *)
  cy_ota_agent_start : cy_rslt_t * address;
  cy_ota_ble_download_prepare : address -> Z -> Z -> cy_rslt_t;
  cy_ota_ble_download :
    address -> wiced_bt_gatt_write_req_t -> Z -> Z -> cy_rslt_t;
  cy_ota_ble_download_verify :
    address -> wiced_bt_gatt_write_req_t -> Z -> cy_rslt_t;
  cy_ota_ble_download_abort : address -> cy_rslt_t;
  cy_ota_ble_download_write : address -> wiced_bt_gatt_write_req_t -> cy_rslt_t;
  cy_ota_get_state : address -> cy_ota_agent_state_t
}.

Definition CY_OTA_UPGRADE_COMMAND_PREPARE_DOWNLOAD : Z := 1.
Definition CY_OTA_UPGRADE_COMMAND_DOWNLOAD : Z := 2.
Definition CY_OTA_UPGRADE_COMMAND_VERIFY : Z := 3.
Definition CY_OTA_UPGRADE_COMMAND_ABORT : Z := 7.

(** Handles and buffers of the generated [cycfg_gatt_db.h]. *)
Class CycfgGattDb := {
  HDLC_BAS_BATTERY_LEVEL_VALUE : Z;
  HDLD_BAS_BATTERY_LEVEL_CLIENT_CHAR_CONFIG : Z;
  HDLC_OTA_FW_UPGRADE_SERVICE_OTA_UPGRADE_CONTROL_POINT_VALUE : Z;
  HDLD_OTA_FW_UPGRADE_SERVICE_OTA_UPGRADE_CONTROL_POINT_CLIENT_CHAR_CONFIG : Z;
  HDLC_OTA_FW_UPGRADE_SERVICE_OTA_UPGRADE_DATA_VALUE : Z;
  app_bas_battery_level : address;
  app_bas_battery_level_len : Z;
  app_bas_battery_level_client_char_config : address
}.

Definition GATT_CLIENT_CONFIG_NOTIFICATION : Z := 0x0001.

Section Application.

Context {platform : Platform} {stack : BtStack} {ota : OtaAgent}
        {cycfg : CycfgGattDb}.

Definition CY_ASSERT (x : bool) : M unit :=
  if cy_assert_enabled && negb x then halt assertion_failed else ret tt.

Definition malloc (size : Z) : M address :=
  fun s =>
    let p := std_malloc (heap s) size in
    Returned p
      (log (set_heap s (if p =? nullptr then heap s else p :: heap s))
           (E_malloc size p)).

Definition free (p : address) : M unit :=
  fun s =>
    Returned tt (log (set_heap s (remove Z.eq_dec p (heap s))) (E_free p)).

(* ===================================================================== *)
(** ** ble_gatt.cpp: the attribute store *)
(* ===================================================================== *)

(** The [for] loop of [ble_gatt_db_set_value] over the table from the entry
    in front on: status, table and memory when the loop is left. *)
Fixpoint set_value_scan (tbl : list gatt_db_lookup_table_t) (m : memory)
    (attr_handle : Z) (value : address) (length : Z)
    : wiced_bt_gatt_status_t * list gatt_db_lookup_table_t * memory :=
  match tbl with
  | [] => (WICED_BT_GATT_INVALID_HANDLE, [], m)
  | entry :: rest =>
      if negb (handle entry =? attr_handle) then
        let '(status, rest', m') :=
          set_value_scan rest m attr_handle value length in
        (status, entry :: rest', m')
      else if max_len entry <? length then
        (WICED_BT_GATT_INVALID_ATTR_LEN, entry :: rest, m)
      else if p_data entry =? nullptr then
        (WICED_BT_GATT_ERROR, entry :: rest, m)
      else
        let entry := set_cur_len entry length in
        let m := memcpy m (p_data entry) value (cur_len entry) in
        let m :=
          if max_len entry >? cur_len entry then
            memset m (p_data entry + cur_len entry) 0
                   (max_len entry - cur_len entry)
          else m in
        (WICED_BT_GATT_SUCCESS, entry :: rest, m)
  end.

Definition ble_gatt_db_set_value (attr_handle : Z) (value : address)
    (length : Z) : M wiced_bt_gatt_status_t :=
  if (length >? 0) && (value =? nullptr) then
    ret WICED_BT_GATT_INVALID_PDU
  else
    s <- get ;;
    let '(status, tbl, m) :=
      set_value_scan (app_gatt_db_ext_attr_tbl s) (ram s)
                     attr_handle value length in
    put (set_ram (set_tbl s tbl) m) ;;;
    ret status.

Definition ble_gatt_db_find_by_handle (h : Z)
    (tbl : list gatt_db_lookup_table_t) : option gatt_db_lookup_table_t :=
  find (fun entry => handle entry =? h) tbl.

(* ===================================================================== *)
(** ** ble_context.hpp / ble_context.cpp *)
(* ===================================================================== *)

Definition with_connection (c : ble_context) (id : Z) (peer : list Z)
    (st : state) : ble_context :=
  {| m_tag := m_tag c; m_connection_id := id; m_peer_address := peer;
     m_connection_state := st; m_ota_context := m_ota_context c;
     m_reboot_at_end := m_reboot_at_end c;
     m_ota_config_descriptor := m_ota_config_descriptor c |}.

Definition with_ota (c : ble_context) (context : address) (reboot : bool)
    (descriptor : Z) : ble_context :=
  {| m_tag := m_tag c; m_connection_id := m_connection_id c;
     m_peer_address := m_peer_address c;
     m_connection_state := m_connection_state c; m_ota_context := context;
     m_reboot_at_end := reboot; m_ota_config_descriptor := descriptor |}.

(** [ble_context::default_value_initialize]. *)
Definition default_value_initialize (c : ble_context) : ble_context :=
  {| m_tag := BLE_CONTEXT_TAG_VALID; m_connection_id := 0;
     m_peer_address := m_peer_address c;
     m_connection_state := disconnected_not_advertising;
     m_ota_context := m_ota_context c; m_reboot_at_end := m_reboot_at_end c;
     m_ota_config_descriptor := m_ota_config_descriptor c |}.

(** [ble_context::ota_value_initialize]. *)
Definition ota_value_initialize (c : ble_context) : ble_context :=
  with_ota c nullptr true 0.

(** [ble_context::set_advertising_mode]. *)
Definition set_advertising_mode (advertisement_mode : wiced_bt_ble_advert_mode_t)
    (c : ble_context) : ble_context :=
  with_connection c (m_connection_id c) (m_peer_address c)
    (match advertisement_mode with
     | BTM_BLE_ADVERT_OFF =>
         if m_connection_id c =? 0 then disconnected_not_advertising
         else state_connected
     | _ => disconnected_and_advertising
     end).

Definition update_advertising_led : M cy_rslt_t :=
  s <- get ;;
  let duty :=
    match m_connection_state (ble_context_object s) with
    | disconnected_not_advertising => duty_off
    | disconnected_and_advertising => duty_blinking
    | state_connected => duty_on
    end in
  emit E_led_stop ;;;
  emit (E_led_set_duty_cycle (duty_to_underlying duty)
                             ADVERTISING_LED_PWM_FREQUENCY) ;;;
  emit E_led_start ;;;
  ret cyhal_pwm_start.

(** [connection_status] is a pointer in the source: [None] is [nullptr]. *)
Definition connection_event_handler
    (connection_status : option wiced_bt_gatt_connection_status_t)
    : M wiced_bt_gatt_status_t :=
  match connection_status with
  | None => ret WICED_BT_GATT_ERROR
  | Some cs =>
      (if connected cs then
         update_ctx (fun c =>
           with_connection c (cs_conn_id cs) (firstn BD_ADDR_LEN (bd_addr cs))
                           state_connected)
       else
         update_ctx (fun c =>
           with_connection c 0 (m_peer_address c) (m_connection_state c)) ;;;
         emit (E_start_advertisements BTM_BLE_ADVERT_UNDIRECTED_HIGH) ;;;
         let result :=
           wiced_bt_start_advertisements BTM_BLE_ADVERT_UNDIRECTED_HIGH in
         (if negb (result =? WICED_BT_SUCCESS) then CY_ASSERT false
          else ret tt) ;;;
         update_ctx (fun c =>
           with_connection c (m_connection_id c) (m_peer_address c)
                           disconnected_and_advertising)) ;;;
      update_advertising_led ;;;
      ret WICED_BT_GATT_SUCCESS
  end.

Definition ota_agent_initialize : M cy_rslt_t :=
  s <- get ;;
  if negb (m_tag (ble_context_object s) =? OTA_APP_TAG_VALID) then
    ret CY_RSLT_OTA_ERROR_BADARG
  else
    update_ctx ota_value_initialize ;;;
    emit E_cy_ota_agent_start ;;;
    let '(result, context) := cy_ota_agent_start in
    update_ctx (fun c =>
      with_ota c context (m_reboot_at_end c) (m_ota_config_descriptor c)) ;;;
    if negb (result =? CY_RSLT_SUCCESS) then
      emit (E_cy_rtos_delay_milliseconds 10) ;;;
      halt spins_forever
    else ret result.

(** Status and [*error_handle]. *)
Definition ota_agent_write_handler (write_request : wiced_bt_gatt_write_req_t)
    : M (wiced_bt_gatt_status_t * Z) :=
  let gatt_status := WICED_BT_GATT_SUCCESS in
  let error_handle := write_handle write_request in
  s <- get ;;
  let c := ble_context_object s in
  if write_handle write_request =?
       HDLD_OTA_FW_UPGRADE_SERVICE_OTA_UPGRADE_CONTROL_POINT_CLIENT_CHAR_CONFIG
  then
    update_ctx (fun c =>
      with_ota c (m_ota_context c) (m_reboot_at_end c)
               (ram s (p_val write_request))) ;;;
    ret (WICED_BT_GATT_SUCCESS, error_handle)
  else if write_handle write_request =?
            HDLC_OTA_FW_UPGRADE_SERVICE_OTA_UPGRADE_CONTROL_POINT_VALUE
  then
    let command := ram s (p_val write_request) in
    if command =? CY_OTA_UPGRADE_COMMAND_PREPARE_DOWNLOAD then
      result <- ota_agent_initialize ;;
      if negb (result =? CY_RSLT_SUCCESS) then
        ret (WICED_BT_GATT_ERROR, error_handle)
      else
        s <- get ;;
        let c := ble_context_object s in
        emit (E_cy_ota_ble_download_prepare (m_ota_context c)
                (m_connection_id c) (m_ota_config_descriptor c)) ;;;
        let result :=
          cy_ota_ble_download_prepare (m_ota_context c) (m_connection_id c)
                                      (m_ota_config_descriptor c) in
        if negb (result =? CY_RSLT_SUCCESS) then
          ret (WICED_BT_GATT_ERROR, error_handle)
        else ret (WICED_BT_GATT_SUCCESS, error_handle)
    else if command =? CY_OTA_UPGRADE_COMMAND_DOWNLOAD then
      emit (E_cy_ota_ble_download (m_ota_context c) (m_connection_id c)
              (m_ota_config_descriptor c)) ;;;
      let result :=
        cy_ota_ble_download (m_ota_context c) write_request
                            (m_connection_id c) (m_ota_config_descriptor c) in
      if negb (result =? CY_RSLT_SUCCESS) then
        ret (WICED_BT_GATT_ERROR, error_handle)
      else ret (WICED_BT_GATT_SUCCESS, error_handle)
    else if command =? CY_OTA_UPGRADE_COMMAND_VERIFY then
      emit (E_cy_ota_ble_download_verify (m_ota_context c)
              (m_connection_id c)) ;;;
      let result :=
        cy_ota_ble_download_verify (m_ota_context c) write_request
                                   (m_connection_id c) in
      if negb (result =? CY_RSLT_SUCCESS) then
        ret (WICED_BT_GATT_ERROR, error_handle)
      else ret (gatt_status, error_handle)
    else if command =? CY_OTA_UPGRADE_COMMAND_ABORT then
      emit (E_cy_ota_ble_download_abort (m_ota_context c)) ;;;
      ret (WICED_BT_GATT_SUCCESS, error_handle)
    else ret (WICED_BT_GATT_REQ_NOT_SUPPORTED, error_handle)
  else if write_handle write_request =?
            HDLC_OTA_FW_UPGRADE_SERVICE_OTA_UPGRADE_DATA_VALUE
  then
    emit (E_cy_ota_ble_download_write (m_ota_context c)) ;;;
    let result := cy_ota_ble_download_write (m_ota_context c) write_request in
    ret (if result =? CY_RSLT_SUCCESS then WICED_BT_GATT_SUCCESS
         else WICED_BT_GATT_ERROR, error_handle)
  else ret (WICED_BT_GATT_REQ_NOT_SUPPORTED, error_handle).

Definition ota_agent_confirmation_handler : M unit :=
  s <- get ;;
  let c := ble_context_object s in
  emit (E_cy_ota_get_state (m_ota_context c)) ;;;
  let ota_lib_state := cy_ota_get_state (m_ota_context c) in
  match ota_lib_state, m_reboot_at_end c with
  | CY_OTA_STATE_OTA_COMPLETE, true =>
      emit (E_cy_rtos_delay_milliseconds 1000) ;;;
      emit E_NVIC_SystemReset ;;;
      halt system_reset
  | _, _ =>
      emit (E_cy_ota_agent_stop (m_ota_context c)) ;;;
      (* cy_ota_agent_stop is handed [&m_ota_context] and clears it *)
      update_ctx (fun c =>
        with_ota c nullptr (m_reboot_at_end c) (m_ota_config_descriptor c))
  end.

(* ===================================================================== *)
(** ** ble_gatt.cpp: the request handlers *)
(* ===================================================================== *)

(** Every handler gives its status and the value left in [*error_handle];
    [error_handle] on the left of a handler is what the caller put there. *)
Definition ble_gatt_request_read_handler (connection_id : Z)
    (opcode : wiced_bt_gatt_opcode_t) (read_request : wiced_bt_gatt_read_t)
    (length_requested : Z) : M (wiced_bt_gatt_status_t * Z) :=
  let error_handle := read_handle read_request in
  s <- get ;;
  match ble_gatt_db_find_by_handle (read_handle read_request)
                                   (app_gatt_db_ext_attr_tbl s) with
  | None => ret (WICED_BT_GATT_INVALID_HANDLE, error_handle)
  | Some attribute =>
      let attr_length_to_copy := cur_len attribute in
      if read_offset read_request >=? cur_len attribute then
        ret (WICED_BT_GATT_INVALID_OFFSET, error_handle)
      else
        let length_to_send :=
          to_uint16 (MIN length_requested
                         (attr_length_to_copy - read_offset read_request)) in
        let attribute_data := p_data attribute + read_offset read_request in
        emit (E_send_read_handle_rsp connection_id opcode length_to_send
                attribute_data
                (load_bytes (ram s) attribute_data (Z.to_nat length_to_send))
                ctxt_nullptr) ;;;
        ret (wiced_bt_gatt_server_send_read_handle_rsp
               connection_id opcode length_to_send attribute_data,
             error_handle)
  end.

(** How a loop of a handler is left: by running off its condition, by
    [break], or by a [return] from inside it. *)
Inductive loop_exit : Type :=
| exit_done
| exit_break
| exit_return (status : wiced_bt_gatt_status_t).

Record read_by_type_vars := {
  rbt_exit : loop_exit;
  rbt_error_handle : Z;
  rbt_used : Z;
  rbt_pair_length : Z
}.

(** The [while (true)] loop of [ble_gatt_request_read_by_type_handler],
    entered with the given values of its variables and cut after [fuel]
    iterations. *)
Fixpoint read_by_type_loop (fuel : nat)
    (read_request : wiced_bt_gatt_read_by_type_t) (length_requested : Z)
    (response : address) (attr_handle used pair_length : Z)
    : M read_by_type_vars :=
  match fuel with
  | O => out_of_fuel
  | S fuel' =>
      let error_handle := attr_handle in
      let attr_handle :=
        wiced_bt_gatt_find_handle_by_type attr_handle (e_handle read_request)
                                          (uuid read_request) in
      if attr_handle =? 0 then
        ret {| rbt_exit := exit_break; rbt_error_handle := error_handle;
               rbt_used := used; rbt_pair_length := pair_length |}
      else
        s <- get ;;
        match ble_gatt_db_find_by_handle attr_handle
                                         (app_gatt_db_ext_attr_tbl s) with
        | None =>
            free response ;;;
            ret {| rbt_exit := exit_return WICED_BT_GATT_INVALID_HANDLE;
                   rbt_error_handle := error_handle;
                   rbt_used := used; rbt_pair_length := pair_length |}
        | Some attribute =>
            let '(filled, pair_length, m) :=
              wiced_bt_gatt_put_read_by_type_rsp_in_stream
                (ram s) (response + used) (length_requested - used)
                pair_length attr_handle (cur_len attribute)
                (p_data attribute) in
            put (set_ram s m) ;;;
            if filled =? 0 then
              ret {| rbt_exit := exit_break; rbt_error_handle := error_handle;
                     rbt_used := used; rbt_pair_length := pair_length |}
            else
              read_by_type_loop fuel' read_request length_requested response
                (to_uint16 (attr_handle + 1)) (used + filled) pair_length
        end
  end.

Definition ble_gatt_request_read_by_type_handler (fuel : nat)
    (connection_id : Z) (opcode : wiced_bt_gatt_opcode_t)
    (read_request : wiced_bt_gatt_read_by_type_t) (length_requested : Z)
    (error_handle : Z) : M (wiced_bt_gatt_status_t * Z) :=
  let attr_handle := s_handle read_request in
  response <- malloc length_requested ;;
  let pair_length := 0 in
  let used := 0 in
  if response =? nullptr then
    ret (WICED_BT_GATT_INSUF_RESOURCE, error_handle)
  else
    v <- read_by_type_loop fuel read_request length_requested response
                           attr_handle used pair_length ;;
    match rbt_exit v with
    | exit_return status => ret (status, rbt_error_handle v)
    | _ =>
        if rbt_used v =? 0 then
          free response ;;;
          ret (WICED_BT_GATT_INVALID_HANDLE, rbt_error_handle v)
        else
          s <- get ;;
          emit (E_send_read_by_type_rsp connection_id opcode
                  (rbt_pair_length v) (rbt_used v) response
                  (load_bytes (ram s) response (Z.to_nat (rbt_used v)))
                  ctxt_std_free) ;;;
          ret (WICED_BT_GATT_SUCCESS, rbt_error_handle v)
    end.

Record read_multi_vars := {
  rm_exit : loop_exit;
  rm_error_handle : Z;
  rm_used : Z
}.

(** The [for] loop of [ble_gatt_request_read_multi_handler] from index [i]
    on, with [n] handles still to go. *)
Fixpoint read_multi_loop (n : nat) (i : Z) (opcode : wiced_bt_gatt_opcode_t)
    (read_multiple_request : wiced_bt_gatt_read_multiple_req_t)
    (length_requested : Z) (response : address) (used error_handle : Z)
    : M read_multi_vars :=
  match n with
  | O => ret {| rm_exit := exit_done; rm_error_handle := error_handle;
                rm_used := used |}
  | S n' =>
      s <- get ;;
      let handle_i :=
        wiced_bt_gatt_get_handle_from_stream
          (ram s) (p_handle_stream read_multiple_request) i in
      let error_handle := handle_i in
      match ble_gatt_db_find_by_handle handle_i
                                       (app_gatt_db_ext_attr_tbl s) with
      | None =>
          free response ;;;
          ret {| rm_exit := exit_return WICED_BT_GATT_ERR_UNLIKELY;
                 rm_error_handle := error_handle; rm_used := used |}
      | Some attribute =>
          let '(filled, m) :=
            wiced_bt_gatt_put_read_multi_rsp_in_stream
              opcode (ram s) (response + used) (length_requested - used)
              (handle attribute) (cur_len attribute) (p_data attribute) in
          put (set_ram s m) ;;;
          if filled =? 0 then
            ret {| rm_exit := exit_break; rm_error_handle := error_handle;
                   rm_used := used |}
          else
            read_multi_loop n' (i + 1) opcode read_multiple_request
              length_requested response (used + filled) error_handle
      end
  end.

Definition ble_gatt_request_read_multi_handler (connection_id : Z)
    (opcode : wiced_bt_gatt_opcode_t)
    (read_multiple_request : wiced_bt_gatt_read_multiple_req_t)
    (length_requested : Z) : M (wiced_bt_gatt_status_t * Z) :=
  response <- malloc length_requested ;;
  s <- get ;;
  let handle_0 :=
    wiced_bt_gatt_get_handle_from_stream
      (ram s) (p_handle_stream read_multiple_request) 0 in
  let used := 0 in
  let error_handle := handle_0 in
  if response =? nullptr then
    ret (WICED_BT_GATT_INVALID_HANDLE, error_handle)
  else
    v <- read_multi_loop (Z.to_nat (num_handles read_multiple_request)) 0
           opcode read_multiple_request length_requested response used
           error_handle ;;
    match rm_exit v with
    | exit_return status => ret (status, rm_error_handle v)
    | _ =>
        if rm_used v =? 0 then
          ret (WICED_BT_GATT_INVALID_HANDLE, rm_error_handle v)
        else
          s <- get ;;
          emit (E_send_read_multiple_rsp connection_id opcode (rm_used v)
                  response
                  (load_bytes (ram s) response (Z.to_nat (rm_used v)))
                  ctxt_std_free) ;;;
          ret (WICED_BT_GATT_SUCCESS, rm_error_handle v)
    end.

(** The [CY_ASSERT] at the head of the source function names [p_data] and
    [p_write_req], which are not in scope there: the function compiles only
    where [CY_ASSERT] drops its argument, so it is no step here. *)
Definition ble_gatt_command_write_handler
    (write_request : wiced_bt_gatt_write_req_t)
    : M (wiced_bt_gatt_status_t * Z) :=
  let error_handle := write_handle write_request in
  if (write_handle write_request =?
        HDLD_OTA_FW_UPGRADE_SERVICE_OTA_UPGRADE_CONTROL_POINT_CLIENT_CHAR_CONFIG)
     || (write_handle write_request =?
           HDLC_OTA_FW_UPGRADE_SERVICE_OTA_UPGRADE_CONTROL_POINT_VALUE)
     || (write_handle write_request =?
           HDLC_OTA_FW_UPGRADE_SERVICE_OTA_UPGRADE_DATA_VALUE)
  then ota_agent_write_handler write_request
  else
    status <- ble_gatt_db_set_value (write_handle write_request)
                (p_val write_request) (val_len write_request) ;;
    ret (status, error_handle).

(** The dispatcher on the opcode of an attribute request. *)
Definition ble_gatt_event_handler (fuel : nat)
    (attr_request : wiced_bt_gatt_attribute_request_t) (error_handle : Z)
    : M (wiced_bt_gatt_status_t * Z) :=
  let status : wiced_bt_gatt_status_t := 0 in
  match opcode attr_request with
  | GATT_REQ_READ
  | GATT_REQ_READ_BLOB =>
      ble_gatt_request_read_handler (conn_id attr_request)
        (opcode attr_request) (read_req attr_request)
        (len_requested attr_request)
  | GATT_REQ_READ_BY_TYPE =>
      ble_gatt_request_read_by_type_handler fuel (conn_id attr_request)
        (opcode attr_request) (read_by_type attr_request)
        (len_requested attr_request) error_handle
  | GATT_REQ_READ_MULTI
  | GATT_REQ_READ_MULTI_VAR_LENGTH =>
      ble_gatt_request_read_multi_handler (conn_id attr_request)
        (opcode attr_request) (read_multiple_req attr_request)
        (len_requested attr_request)
  | GATT_REQ_WRITE
  | GATT_CMD_WRITE
  | GATT_CMD_SIGNED_WRITE =>
      '(status, error_handle) <-
        ble_gatt_command_write_handler (write_req attr_request) ;;
      (match opcode attr_request with
       | GATT_REQ_WRITE =>
           if status =? WICED_BT_GATT_SUCCESS then
             emit (E_send_write_rsp (conn_id attr_request)
                     (opcode attr_request)
                     (write_handle (write_req attr_request)))
           else ret tt
       | _ => ret tt
       end) ;;;
      ret (status, error_handle)
  | GATT_REQ_PREPARE_WRITE => ret (WICED_BT_GATT_SUCCESS, error_handle)
  | GATT_REQ_EXECUTE_WRITE =>
      emit (E_send_execute_write_rsp (conn_id attr_request)
              (opcode attr_request)) ;;;
      ret (WICED_BT_GATT_SUCCESS, error_handle)
  | GATT_REQ_MTU =>
      emit (E_send_mtu_rsp (conn_id attr_request) (remote_mtu attr_request)
              ble_max_rx_pdu_size) ;;;
      ret (wiced_bt_gatt_server_send_mtu_rsp (conn_id attr_request)
             (remote_mtu attr_request) ble_max_rx_pdu_size,
           error_handle)
  | GATT_HANDLE_VALUE_CONF =>
      ota_agent_confirmation_handler ;;;
      ret (WICED_BT_GATT_SUCCESS, error_handle)
  | GATT_HANDLE_VALUE_NOTIF => ret (WICED_BT_GATT_SUCCESS, error_handle)
  | _ => ret (status, error_handle)
  end.

Definition ble_gatt_event_callback (fuel : nat) (event : wiced_bt_gatt_evt)
    : M wiced_bt_gatt_status_t :=
  let error_handle := 0 in
  match event with
  | GATT_CONNECTION_STATUS_EVT connection_status =>
      connection_event_handler (Some connection_status)
  | GATT_ATTRIBUTE_REQUEST_EVT attr_request =>
      '(status, error_handle) <-
        ble_gatt_event_handler fuel attr_request error_handle ;;
      (if negb (status =? WICED_BT_GATT_SUCCESS) then
         emit (E_send_error_rsp (conn_id attr_request) (opcode attr_request)
                 error_handle status)
       else ret tt) ;;;
      ret status
  | GATT_GET_RESPONSE_BUFFER_EVT len =>
      (* the block and [std::free] go back to the stack in [event_data] *)
      malloc len ;;;
      ret WICED_BT_GATT_SUCCESS
  | GATT_APP_BUFFER_TRANSMITTED_EVT free_fn p_app_data =>
      (match free_fn with
       | ctxt_std_free => free p_app_data
       | ctxt_nullptr => ret tt
       end) ;;;
      ret WICED_BT_GATT_SUCCESS
  | _ => ret WICED_BT_GATT_SUCCESS
  end.

(* ===================================================================== *)
(** ** battery_service_task.cpp *)
(* ===================================================================== *)

Definition BATTERY_LEVEL_CHANGE : Z := 2.

(** The value [battery_service_update_percentage] stores in the 8-bit
    [app_bas_battery_level[0]] when it holds [level]. *)
Definition battery_level_after (decrease_interval level : Z) : Z :=
  to_uint8 (if level =? 0 then 100 else level - decrease_interval).

Definition battery_service_update_percentage (decrease_interval : Z)
    : M unit :=
  s <- get ;;
  put (set_ram s
         (store8 (ram s) app_bas_battery_level
            (battery_level_after decrease_interval
               (ram s app_bas_battery_level)))).

(** One turn of the task's loop, after [ulTaskNotifyTake] has returned. *)
Definition battery_service_task_iteration : M unit :=
  s <- get ;;
  if m_connection_id (ble_context_object s) =? 0 then ret tt
  else if Z.land (ram s app_bas_battery_level_client_char_config)
                 GATT_CLIENT_CONFIG_NOTIFICATION =? 0 then ret tt
  else
    battery_service_update_percentage (to_uint8 BATTERY_LEVEL_CHANGE) ;;;
    s <- get ;;
    emit (E_send_notification (m_connection_id (ble_context_object s))
            HDLC_BAS_BATTERY_LEVEL_VALUE app_bas_battery_level_len
            app_bas_battery_level
            (load_bytes (ram s) app_bas_battery_level
                        (Z.to_nat app_bas_battery_level_len))).

End Application.

(* ===================================================================== *)
(** ** ble_context.cpp: stack management and initialisation *)
(* ===================================================================== *)

Definition WICED_BT_ERROR : wiced_result_t := 4.

(** Events of [stack_management_callback], with the part of the event data
    the callback reads.  The enumerators the callback names are all here;
    of those it leaves to its [default] case, which it treats alike, some
    are. *)
Inductive wiced_bt_management_evt : Type :=
| BTM_ENABLED_EVT (status : wiced_result_t)
| BTM_DISABLED_EVT
| BTM_POWER_MANAGEMENT_STATUS_EVT
| BTM_PIN_REQUEST_EVT
| BTM_USER_CONFIRMATION_REQUEST_EVT (peer : list Z)
| BTM_PASSKEY_NOTIFICATION_EVT
| BTM_PASSKEY_REQUEST_EVT
| BTM_PAIRING_IO_CAPABILITIES_BLE_REQUEST_EVT
| BTM_PAIRING_COMPLETE_EVT
| BTM_ENCRYPTION_STATUS_EVT
| BTM_SECURITY_REQUEST_EVT (peer : list Z)
| BTM_SECURITY_FAILED_EVT
| BTM_LOCAL_IDENTITY_KEYS_UPDATE_EVT
| BTM_LOCAL_IDENTITY_KEYS_REQUEST_EVT
| BTM_PAIRED_DEVICE_LINK_KEYS_UPDATE_EVT
| BTM_PAIRED_DEVICE_LINK_KEYS_REQUEST_EVT
| BTM_BLE_SCAN_STATE_CHANGED_EVT
| BTM_BLE_ADVERT_STATE_CHANGED_EVT (mode : wiced_bt_ble_advert_mode_t)
| BTM_BLE_CONNECTION_PARAM_UPDATE.

Inductive wiced_bt_dev_io_cap_t : Type :=
| BTM_IO_CAPABILITIES_DISPLAY_ONLY
| BTM_IO_CAPABILITIES_DISPLAY_AND_YES_NO_INPUT
| BTM_IO_CAPABILITIES_KEYBOARD_ONLY
| BTM_IO_CAPABILITIES_NONE
| BTM_IO_CAPABILITIES_BLE_DISPLAY_AND_KEYBOARD_INPUT.

Inductive wiced_bt_dev_oob_data_t : Type :=
| BTM_OOB_NONE
| BTM_OOB_PRESENT_192
| BTM_OOB_PRESENT_256
| BTM_OOB_PRESENT_192_256.

Inductive wiced_bt_dev_le_auth_req_flag : Type :=
| BTM_LE_AUTH_REQ_BOND
| BTM_LE_AUTH_REQ_MITM
| BTM_LE_AUTH_REQ_SC.

Inductive wiced_bt_dev_le_key_type_flag : Type :=
| BTM_LE_KEY_PENC
| BTM_LE_KEY_PID
| BTM_LE_KEY_PCSRK
| BTM_LE_KEY_LENC.

(** What the callback writes into [pairing_io_capabilities_ble_request];
    a list of flags is their bitwise or. *)
Record pairing_io_capabilities_ble_request := {
  local_io_cap : wiced_bt_dev_io_cap_t;
  oob_data : wiced_bt_dev_oob_data_t;
  auth_req : list wiced_bt_dev_le_auth_req_flag;
  max_key_size : Z;
  init_keys : list wiced_bt_dev_le_key_type_flag;
  resp_keys : list wiced_bt_dev_le_key_type_flag
}.

(** Calls into the stack made on the management side, in the order they are
    made.  [wiced_bt_start_advertisements] is made on the GATT side too and
    is on [trace] wherever it is made; when the management side makes it, it
    is entered here as well, so that its place among the other calls is
    kept. *)
Inductive management_call : Type :=
| M_cybt_platform_config_init
| M_wiced_bt_stack_init
| M_wiced_bt_set_local_bdaddr
| M_wiced_bt_dev_read_local_addr
| M_wiced_bt_set_pairable_mode (allow_pairing : bool)
| M_wiced_bt_ble_set_raw_advertisement_data
| M_wiced_bt_gatt_register
| M_wiced_bt_gatt_db_init
| M_wiced_bt_start_advertisements (mode : wiced_bt_ble_advert_mode_t)
| M_wiced_bt_dev_confirm_req_reply (result : wiced_result_t) (peer : list Z)
| M_wiced_bt_ble_security_grant (peer : list Z) (result : wiced_result_t).

(** What the management calls return. *)
Class BtManagement := {
  wiced_bt_stack_init : wiced_result_t;
  wiced_bt_gatt_register : wiced_bt_gatt_status_t;
  wiced_bt_gatt_db_init : wiced_bt_gatt_status_t
}.

(** The application state together with the management calls made so far;
    these are logged apart from [trace]. *)
Record system_state := {
  application : app_state;
  management_calls : list management_call
}.

Inductive system_outcome (A : Type) : Type :=
| SReturned (a : A) (s : system_state)
| SHalted (why : halt_reason) (s : system_state)
| SOutOfFuel.

Arguments SReturned {A} a s.
Arguments SHalted {A} why s.
Arguments SOutOfFuel {A}.

Definition SM (A : Type) : Type := system_state -> system_outcome A.

Definition sret {A} (a : A) : SM A := fun s => SReturned a s.

Definition sbind {A B} (c : SM A) (k : A -> SM B) : SM B :=
  fun s =>
    match c s with
    | SReturned a s' => k a s'
    | SHalted why s' => SHalted why s'
    | SOutOfFuel => SOutOfFuel
    end.

(** A computation of the application run inside the system. *)
Definition lift {A} (c : M A) : SM A :=
  fun s =>
    match c (application s) with
    | Returned a s' =>
        SReturned a {| application := s';
                       management_calls := management_calls s |}
    | Halted why s' =>
        SHalted why {| application := s';
                       management_calls := management_calls s |}
    | OutOfFuel => SOutOfFuel
    end.

Definition call (c : management_call) : SM unit :=
  fun s =>
    SReturned tt {| application := application s;
                    management_calls := management_calls s ++ [c] |}.

Declare Scope sm_scope.
Delimit Scope sm_scope with SM.
Notation "x <- c ;; k" := (sbind c (fun x => k))
  (at level 61, c at next level, right associativity) : sm_scope.
Notation "c ;;; k" := (sbind c (fun _ => k))
  (at level 61, right associativity) : sm_scope.

Section Management.

Context {platform : Platform} {stack : BtStack} {management : BtManagement}.

Definition ble_start_advertising : SM wiced_bt_gatt_status_t :=
  (call (M_wiced_bt_set_pairable_mode true) ;;;
   call M_wiced_bt_ble_set_raw_advertisement_data ;;;
   call M_wiced_bt_gatt_register ;;;
   let gatt_status := wiced_bt_gatt_register in
   call M_wiced_bt_gatt_db_init ;;;
   let gatt_status := wiced_bt_gatt_db_init in
   call (M_wiced_bt_start_advertisements BTM_BLE_ADVERT_UNDIRECTED_HIGH) ;;;
   lift (emit (E_start_advertisements BTM_BLE_ADVERT_UNDIRECTED_HIGH)) ;;;
   let wiced_result :=
     wiced_bt_start_advertisements BTM_BLE_ADVERT_UNDIRECTED_HIGH in
   (if negb (wiced_result =? WICED_BT_SUCCESS) then lift (CY_ASSERT false)
    else sret tt) ;;;
   sret gatt_status)%SM.

Definition stack_initialize : SM wiced_result_t :=
  (lift (update_ctx default_value_initialize) ;;;
   call M_cybt_platform_config_init ;;;
   call M_wiced_bt_stack_init ;;;
   let result := wiced_bt_stack_init in
   (if negb (result =? WICED_BT_SUCCESS) then lift (CY_ASSERT false)
    else sret tt) ;;;
   sret result)%SM.

(** The result, and what was written into the event data of a pairing
    capabilities request. *)
Definition stack_management_callback (event : wiced_bt_management_evt)
    : SM (wiced_result_t * option pairing_io_capabilities_ble_request) :=
  let result := WICED_BT_ERROR in
  (match event with
   | BTM_ENABLED_EVT status =>
       if status =? WICED_BT_SUCCESS then
         call M_wiced_bt_set_local_bdaddr ;;;
         call M_wiced_bt_dev_read_local_addr ;;;
         gatt_status <- ble_start_advertising ;;
         (if negb (gatt_status =? WICED_BT_SUCCESS) then
            lift (CY_ASSERT false)
          else sret tt) ;;;
         sret (WICED_BT_SUCCESS, None)
       else sret (result, None)
   | BTM_USER_CONFIRMATION_REQUEST_EVT peer =>
       call (M_wiced_bt_dev_confirm_req_reply WICED_BT_SUCCESS peer) ;;;
       sret (WICED_BT_SUCCESS, None)
   | BTM_PASSKEY_NOTIFICATION_EVT => sret (WICED_BT_SUCCESS, None)
   | BTM_PAIRING_IO_CAPABILITIES_BLE_REQUEST_EVT =>
       sret (WICED_BT_SUCCESS,
             Some {| local_io_cap := BTM_IO_CAPABILITIES_NONE;
                     oob_data := BTM_OOB_NONE;
                     auth_req := [BTM_LE_AUTH_REQ_BOND; BTM_LE_AUTH_REQ_MITM];
                     max_key_size := 0x10;
                     init_keys := [BTM_LE_KEY_PENC; BTM_LE_KEY_PID];
                     resp_keys := [BTM_LE_KEY_PENC; BTM_LE_KEY_PID] |})
   | BTM_PAIRING_COMPLETE_EVT => sret (WICED_BT_SUCCESS, None)
   | BTM_LOCAL_IDENTITY_KEYS_UPDATE_EVT => sret (WICED_BT_SUCCESS, None)
   | BTM_LOCAL_IDENTITY_KEYS_REQUEST_EVT => sret (WICED_BT_ERROR, None)
   | BTM_PAIRED_DEVICE_LINK_KEYS_UPDATE_EVT => sret (WICED_BT_SUCCESS, None)
   | BTM_PAIRED_DEVICE_LINK_KEYS_REQUEST_EVT => sret (WICED_BT_ERROR, None)
   | BTM_ENCRYPTION_STATUS_EVT => sret (WICED_BT_SUCCESS, None)
   | BTM_SECURITY_REQUEST_EVT peer =>
       call (M_wiced_bt_ble_security_grant peer WICED_BT_SUCCESS) ;;;
       sret (WICED_BT_SUCCESS, None)
   | BTM_BLE_CONNECTION_PARAM_UPDATE => sret (WICED_BT_SUCCESS, None)
   | BTM_BLE_ADVERT_STATE_CHANGED_EVT advertisement_mode =>
       lift (update_ctx (set_advertising_mode advertisement_mode)) ;;;
       lift update_advertising_led ;;;
       sret (WICED_BT_SUCCESS, None)
   | _ => sret (result, None)
   end)%SM.

End Management.

(* ===================================================================== *)
(** ** cyhal_pwm_signal.hpp and led_pwm.hpp *)
(* ===================================================================== *)

(** [static_cast<float>(n)] of an unsigned integer, as the value of the
    [float]: binary32 has 24 significant bits, so an integer below 2^24 is
    kept and a larger one is rounded to the nearest multiple of its unit in
    the last place, a tie going to the even significand. *)
Definition static_cast_float (n : Z) : Z :=
  if n <? 16777216 then n
  else
    let ulp := 2 ^ (Z.log2 n - 23) in
    let q := n / ulp in
    let r := n mod ulp in
    if 2 * r <? ulp then q * ulp
    else if ulp <? 2 * r then (q + 1) * ulp
    else if Z.even q then q * ulp else (q + 1) * ulp.

(** What [cyhal_pwm_set_duty_cycle] and [cyhal_pwm_stop] return.  The duty
    and the frequency reach the HAL as [float]s, given here by their
    values. *)
Class CyhalPwm := {
  cyhal_pwm_set_duty_cycle : Z -> Z -> cy_rslt_t;
  cyhal_pwm_stop : cy_rslt_t
}.

Inductive pwm_call : Type :=
| P_cyhal_pwm_set_duty_cycle (hw_duty : Z) (hw_freq : Z)
| P_cyhal_pwm_start
| P_cyhal_pwm_stop.

Module cyhal_pwm_signal.

(** The members of the class but the HAL object it points to. *)
Record t := {
  m_active_low : bool;
  m_last_duty : Z;
  m_last_freq : Z
}.

(** The constructor: duty and frequency start at 0. *)
Definition make (active_low : bool) : t :=
  {| m_active_low := active_low; m_last_duty := 0; m_last_freq := 0 |}.

Definition clamp_pct (p : Z) : Z := if p >? 100 then 100 else p.

Definition hardware_duty_cycle (self : t) (logical_pct : Z) : Z :=
  if m_active_low self then to_uint8 (100 - logical_pct) else logical_pct.

Section Methods.

Context {platform : Platform} {hal : CyhalPwm}.

(** Each method gives its result, the object afterwards and the HAL calls it
    made. *)
Definition set_duty_cycle (self : t) (duty_cycle_pct frequency_hz : Z)
    : cy_rslt_t * t * list pwm_call :=
  let hw_duty :=
    static_cast_float (hardware_duty_cycle self (clamp_pct duty_cycle_pct)) in
  let hw_freq := static_cast_float frequency_hz in
  let result := cyhal_pwm_set_duty_cycle hw_duty hw_freq in
  (result,
   (if result =? CY_RSLT_SUCCESS then
      {| m_active_low := m_active_low self;
         m_last_duty := clamp_pct duty_cycle_pct;
         m_last_freq := frequency_hz |}
    else self),
   [P_cyhal_pwm_set_duty_cycle hw_duty hw_freq]).

Definition configure (self : t) (duty_cycle_pct frequency_hz : Z) :=
  set_duty_cycle self duty_cycle_pct frequency_hz.

Definition start (self : t) : cy_rslt_t * t * list pwm_call :=
  (cyhal_pwm_start, self, [P_cyhal_pwm_start]).

Definition stop (self : t) : cy_rslt_t * t * list pwm_call :=
  (cyhal_pwm_stop, self, [P_cyhal_pwm_stop]).

Definition set_frequency (self : t) (frequency_hz : Z) :=
  set_duty_cycle self (m_last_duty self) frequency_hz.

End Methods.

Definition duty (self : t) : Z := m_last_duty self.
Definition frequency (self : t) : Z := m_last_freq self.

Definition set_active_low (self : t) (low : bool) : t :=
  {| m_active_low := low; m_last_duty := m_last_duty self;
     m_last_freq := m_last_freq self |}.

Definition active_low (self : t) : bool := m_active_low self.

End cyhal_pwm_signal.

Module led_pwm.

Section Methods.

Context {platform : Platform} {hal : CyhalPwm}.

Definition set_blink_rate (m_pwm : cyhal_pwm_signal.t) (duty : duty_cycle) :=
  cyhal_pwm_signal.set_duty_cycle m_pwm (duty_to_underlying duty)
                                  ADVERTISING_LED_PWM_FREQUENCY.

Definition start (m_pwm : cyhal_pwm_signal.t) := cyhal_pwm_signal.start m_pwm.

Definition stop (m_pwm : cyhal_pwm_signal.t) := cyhal_pwm_signal.stop m_pwm.

End Methods.

End led_pwm.

(* ===================================================================== *)
(** ** A concrete configuration to run the handlers on *)
(* ===================================================================== *)

(** The handlers are verified against the interfaces above, for every
    implementation of them.  The instances below fix one implementation so
    that the functions can be evaluated on examples. *)

(** A platform whose allocator hands out [block] ([nullptr]: it fails). *)
Definition demo_platform (asserts : bool) (block : address) : Platform :=
  {| cy_assert_enabled := asserts;
     std_malloc := fun _ _ => block;
     cyhal_pwm_start := CY_RSLT_SUCCESS |}.

(** First handle in [[s, e]] of type [u] in a list of (handle, type) pairs. *)
Fixpoint first_of_type (types : list (Z * Z)) (s e u : Z) : Z :=
  match types with
  | [] => 0
  | (h, t) :: rest =>
      if (s <=? h) && (h <=? e) && (t =? u) then h
      else first_of_type rest s e u
  end.

(** A stack that encodes a pair only when all of it fits in the room left,
    and reports 0 bytes filled otherwise. *)
Definition demo_stack (types : list (Z * Z)) (advertising : wiced_result_t)
    : BtStack :=
  {| wiced_bt_gatt_find_handle_by_type := first_of_type types;
     wiced_bt_gatt_get_handle_from_stream :=
       fun m p i => m (p + 2 * i) + 256 * m (p + 2 * i + 1);
     wiced_bt_gatt_put_read_by_type_rsp_in_stream :=
       fun m stream room pair_len h len data =>
         if (len <? 0) || (room <? len + 2)
            || negb ((pair_len =? 0) || (pair_len =? len + 2))
         then (0, pair_len, m)
         else (len + 2, len + 2,
               memcpy (store8 (store8 m stream (h mod 256))
                              (stream + 1) (h / 256))
                      (stream + 2) data len);
     wiced_bt_gatt_put_read_multi_rsp_in_stream :=
       fun op m stream room h len data =>
         match op with
         | GATT_REQ_READ_MULTI_VAR_LENGTH =>
             if (len <? 0) || (room <? len + 2) then (0, m)
             else (len + 2,
                   memcpy (store8 (store8 m stream (len mod 256))
                                  (stream + 1) (len / 256))
                          (stream + 2) data len)
         | _ =>
             if (len <? 0) || (room <? len) then (0, m)
             else (len, memcpy m stream data len)
         end;
     wiced_bt_gatt_server_send_read_handle_rsp :=
       fun _ _ _ _ => WICED_BT_GATT_SUCCESS;
     wiced_bt_gatt_server_send_mtu_rsp := fun _ _ _ => WICED_BT_GATT_SUCCESS;
     wiced_bt_start_advertisements := fun _ => advertising;
     ble_max_rx_pdu_size := 512 |}.

(** An OTA library whose every call succeeds. *)
Definition demo_ota : OtaAgent :=
  {| CY_RSLT_OTA_ERROR_BADARG := 0x08360003;
     cy_ota_agent_start := (CY_RSLT_SUCCESS, 0x4000);
     cy_ota_ble_download_prepare := fun _ _ _ => CY_RSLT_SUCCESS;
     cy_ota_ble_download := fun _ _ _ _ => CY_RSLT_SUCCESS;
     cy_ota_ble_download_verify := fun _ _ _ => CY_RSLT_SUCCESS;
     cy_ota_ble_download_abort := fun _ => CY_RSLT_SUCCESS;
     cy_ota_ble_download_write := fun _ _ => CY_RSLT_SUCCESS;
     cy_ota_get_state := fun _ => CY_OTA_STATE_NOT_INITIALIZED |}.

Definition demo_cycfg : CycfgGattDb :=
  {| HDLC_BAS_BATTERY_LEVEL_VALUE := 0x0009;
     HDLD_BAS_BATTERY_LEVEL_CLIENT_CHAR_CONFIG := 0x000A;
     HDLC_OTA_FW_UPGRADE_SERVICE_OTA_UPGRADE_CONTROL_POINT_VALUE := 0x000D;
     HDLD_OTA_FW_UPGRADE_SERVICE_OTA_UPGRADE_CONTROL_POINT_CLIENT_CHAR_CONFIG :=
       0x000E;
     HDLC_OTA_FW_UPGRADE_SERVICE_OTA_UPGRADE_DATA_VALUE := 0x0010;
     app_bas_battery_level := 0x1000;
     app_bas_battery_level_len := 1;
     app_bas_battery_level_client_char_config := 0x1008 |}.

(** Three attributes: a 6-byte name holding 3 bytes, the battery level and
    its two-byte client configuration. *)
Definition demo_tbl : list gatt_db_lookup_table_t :=
  [ {| handle := 0x0003; max_len := 6; cur_len := 3; p_data := 0x1010 |};
    {| handle := 0x0009; max_len := 1; cur_len := 1; p_data := 0x1000 |};
    {| handle := 0x000A; max_len := 2; cur_len := 2; p_data := 0x1008 |} ].

(** Memory: the three buffers, then request bytes at 0x2000 (a five-byte
    value) and 0x2100 (the handle list 0x0009, 0x0003, 0x0077 of a
    read-multiple request, little-endian) and a command byte at 0x2200. *)
Definition demo_ram : memory :=
  with_bytes (with_bytes (with_bytes (with_bytes (with_bytes (with_bytes
    (fun _ => 0)
    0x1010 [66; 65; 83; 0; 0; 0])
    0x1000 [100])
    0x1008 [1; 0])
    0x2000 [11; 22; 33; 44; 55])
    0x2100 [9; 0; 3; 0; 119; 0])
    0x2200 [1].

Definition demo_context (tag : Z) (id : Z) (st : state) : ble_context :=
  {| m_tag := tag; m_connection_id := id;
     m_peer_address := [0; 0; 0; 0; 0; 0]; m_connection_state := st;
     m_ota_context := nullptr; m_reboot_at_end := false;
     m_ota_config_descriptor := 0 |}.

Definition demo_state (c : ble_context) : app_state :=
  {| app_gatt_db_ext_attr_tbl := demo_tbl; ram := demo_ram; heap := [];
     ble_context_object := c; trace := [] |}.

Definition connected_state : app_state :=
  demo_state (demo_context BLE_CONTEXT_TAG_VALID 1 state_connected).

(** The state a computation comes back with. *)
Definition state_of {A} (o : outcome A) (otherwise : app_state) : app_state :=
  match o with
  | Returned _ s => s
  | Halted _ s => s
  | OutOfFuel => otherwise
  end.

(** A read-by-group-type request, which the dispatcher has no case for. *)
Definition read_by_group_type_request : wiced_bt_gatt_attribute_request_t :=
  {| conn_id := 1; opcode := GATT_REQ_READ_BY_GRP_TYPE; len_requested := 20;
     read_req := {| read_handle := 0; read_offset := 0 |};
     read_by_type := {| s_handle := 1; e_handle := 0xFFFF; uuid := 0x2800 |};
     read_multiple_req := {| num_handles := 0; p_handle_stream := nullptr |};
     write_req := {| write_handle := 0; p_val := nullptr; val_len := 0 |};
     remote_mtu := 0 |}.

(** The state with the battery level at 1 and notifications enabled. *)
Definition battery_at_one : app_state :=
  set_ram connected_state (store8 demo_ram 0x1000 1).

(** A management side whose every call succeeds. *)
Definition demo_management : BtManagement :=
  {| wiced_bt_stack_init := WICED_BT_SUCCESS;
     wiced_bt_gatt_register := WICED_BT_GATT_SUCCESS;
     wiced_bt_gatt_db_init := WICED_BT_GATT_SUCCESS |}.

(** A PWM block that accepts every setting. *)
Definition demo_hal : CyhalPwm :=
  {| cyhal_pwm_set_duty_cycle := fun _ _ => CY_RSLT_SUCCESS;
     cyhal_pwm_stop := CY_RSLT_SUCCESS |}.

(** An attribute request on connection 1 with the given opcode and write
    request. *)
Definition demo_request (op : wiced_bt_gatt_opcode_t)
    (wr : wiced_bt_gatt_write_req_t) : wiced_bt_gatt_attribute_request_t :=
  {| conn_id := 1; opcode := op; len_requested := 20;
     read_req := {| read_handle := 0; read_offset := 0 |};
     read_by_type := {| s_handle := 1; e_handle := 0xFFFF; uuid := 0x2800 |};
     read_multiple_req := {| num_handles := 0; p_handle_stream := nullptr |};
     write_req := wr;
     remote_mtu := 0 |}.

(** [demo_ram] with further command bytes after the one at 0x2200: abort
    (7), an unassigned command (9) and download (2). *)
Definition ota_ram : memory := with_bytes demo_ram 0x2201 [7; 9; 2].

Definition ota_state : app_state := set_ram connected_state ota_ram.

(* ===================================================================== *)
(** ** Statements the handlers are measured against *)
(* ===================================================================== *)

Definition is_read_multiple_rsp (e : event) : bool :=
  match e with
  | E_send_read_multiple_rsp _ _ _ _ _ _ => true
  | _ => false
  end.

(** The opcodes [ble_gatt_event_handler] has a [case] for. *)
Definition has_case (opcode : wiced_bt_gatt_opcode_t) : bool :=
  match opcode with
  | GATT_REQ_READ | GATT_REQ_READ_BLOB | GATT_REQ_READ_BY_TYPE
  | GATT_REQ_READ_MULTI | GATT_REQ_READ_MULTI_VAR_LENGTH
  | GATT_REQ_WRITE | GATT_CMD_WRITE | GATT_CMD_SIGNED_WRITE
  | GATT_REQ_PREPARE_WRITE | GATT_REQ_EXECUTE_WRITE | GATT_REQ_MTU
  | GATT_HANDLE_VALUE_CONF | GATT_HANDLE_VALUE_NOTIF => true
  | _ => false
  end.

Section Statements.

Context {platform : Platform} {stack : BtStack}.

(** What the loop of read-by-type needs of the stack's encoder in order to
    stop: it never reports more bytes than the room it was given. *)
Definition put_read_by_type_within_room : Prop :=
  forall m stream room pair_len h len data,
    let filled :=
      fst (fst (wiced_bt_gatt_put_read_by_type_rsp_in_stream
                  m stream room pair_len h len data)) in
    0 <= filled <= Z.max 0 room.

Definition reports_insufficient_resources
    (o : outcome (wiced_bt_gatt_status_t * Z)) : Prop :=
  exists error_handle s',
    o = Returned (WICED_BT_GATT_INSUF_RESOURCE, error_handle) s'.

(** C4 as the specification has it: both multi-attribute handlers answer a
    failed allocation with [WICED_BT_GATT_INSUF_RESOURCE]. *)
Definition allocation_failure_is_insufficient_resources (fuel : nat)
    (connection_id : Z) (read_request : wiced_bt_gatt_read_by_type_t)
    (read_multiple_request : wiced_bt_gatt_read_multiple_req_t)
    (length_requested error_handle : Z) (s : app_state) : Prop :=
  std_malloc (heap s) length_requested = nullptr ->
  reports_insufficient_resources
    (ble_gatt_request_read_by_type_handler fuel connection_id
       GATT_REQ_READ_BY_TYPE read_request length_requested error_handle s) /\
  reports_insufficient_resources
    (ble_gatt_request_read_multi_handler connection_id GATT_REQ_READ_MULTI
       read_multiple_request length_requested s).

(** C3 as the specification has it: a read-multiple request naming a
    handle that is not in the table is answered with an error and without
    any read-multiple response. *)
Definition read_multi_all_or_nothing (connection_id : Z)
    (opcode : wiced_bt_gatt_opcode_t)
    (read_multiple_request : wiced_bt_gatt_read_multiple_req_t)
    (length_requested : Z) (s : app_state) : Prop :=
  (exists i,
     0 <= i < num_handles read_multiple_request /\
     ble_gatt_db_find_by_handle
       (wiced_bt_gatt_get_handle_from_stream (ram s)
          (p_handle_stream read_multiple_request) i)
       (app_gatt_db_ext_attr_tbl s) = None) ->
  exists status error_handle s',
    ble_gatt_request_read_multi_handler connection_id opcode
      read_multiple_request length_requested s
    = Returned (status, error_handle) s' /\
    status <> WICED_BT_GATT_SUCCESS /\
    filter is_read_multiple_rsp (trace s')
      = filter is_read_multiple_rsp (trace s).

(** C7 as the specification has it: on a disconnect event the connection
    id is cleared and one advertising start is asked of the stack; if the
    stack rejects it the assertion is fatal, and if it accepts the state
    becomes [disconnected_and_advertising] and the LED is updated. *)
Definition disconnect_restart_is_asserted
    (connection_status : wiced_bt_gatt_connection_status_t) (s : app_state)
    : Prop :=
  connected connection_status = false ->
  if wiced_bt_start_advertisements BTM_BLE_ADVERT_UNDIRECTED_HIGH
       =? WICED_BT_SUCCESS
  then
    exists s',
      connection_event_handler (Some connection_status) s
        = Returned WICED_BT_GATT_SUCCESS s' /\
      m_connection_id (ble_context_object s') = 0 /\
      m_connection_state (ble_context_object s')
        = disconnected_and_advertising /\
      trace s' = trace s ++
        [E_start_advertisements BTM_BLE_ADVERT_UNDIRECTED_HIGH;
         E_led_stop; E_led_set_duty_cycle 50 4; E_led_start]
  else
    exists s',
      connection_event_handler (Some connection_status) s
        = Halted assertion_failed s' /\
      m_connection_id (ble_context_object s') = 0 /\
      trace s' = trace s ++
        [E_start_advertisements BTM_BLE_ADVERT_UNDIRECTED_HIGH].

End Statements.

(** The part of an entry that is fixed when the table is generated. *)
Definition layout (entry : gatt_db_lookup_table_t) : Z * Z * address :=
  (handle entry, max_len entry, p_data entry).

Section EncoderStatements.

Context {stack : BtStack}.

(** The same demand on the encoder of read-multiple as on that of
    read-by-type: never more bytes than the room given. *)
Definition put_read_multi_within_room : Prop :=
  forall opcode m stream room h len data,
    let filled :=
      fst (wiced_bt_gatt_put_read_multi_rsp_in_stream
             opcode m stream room h len data) in
    0 <= filled <= Z.max 0 room.



End EncoderStatements.

(** The requests to advertise among the events of a trace. *)
Definition is_start_advertisements (e : event) : bool :=
  match e with
  | E_start_advertisements _ => true
  | _ => false
  end.

(** The duty cycle [update_advertising_led] selects for a state: off,
    blinking, on. *)
Definition state_duty (st : state) : Z :=
  match st with
  | disconnected_not_advertising => 0
  | disconnected_and_advertising => 50
  | state_connected => 100
  end.

(** The management events that neither enable the stack nor report an
    advertising state. *)
Definition leaves_application_alone (event : wiced_bt_management_evt) : bool :=
  match event with
  | BTM_ENABLED_EVT _ | BTM_BLE_ADVERT_STATE_CHANGED_EVT _ => false
  | _ => true
  end.

(** The even levels from 0 to 100. *)
Definition even_levels : list Z := map (fun k => 2 * Z.of_nat k) (seq 0 51).

(* ===================================================================== *)
(** ** Properties of the attribute store *)
(* ===================================================================== *)

Lemma set_state_same (s : app_state) :
  set_ram (set_tbl s (app_gatt_db_ext_attr_tbl s)) (ram s) = s.
Proof. destruct s; reflexivity. Qed.

Lemma memcpy_inside (m : memory) (dst src n k : Z) :
  0 <= k < n -> memcpy m dst src n (dst + k) = m (src + k).
Proof.
  intros Hk. unfold memcpy.
  replace ((dst <=? dst + k) && (dst + k <? dst + n)) with true.
  - f_equal. lia.
  - symmetry. apply andb_true_iff. split; [apply Z.leb_le | apply Z.ltb_lt]; lia.
Qed.

Lemma memset_inside (m : memory) (dst c n a : Z) :
  dst <= a < dst + n -> memset m dst c n a = c.
Proof.
  intros Ha. unfold memset.
  replace ((dst <=? a) && (a <? dst + n)) with true; [reflexivity|].
  symmetry. apply andb_true_iff. split; [apply Z.leb_le | apply Z.ltb_lt]; lia.
Qed.

Lemma memset_outside (m : memory) (dst c n a : Z) :
  a < dst \/ dst + n <= a -> memset m dst c n a = m a.
Proof.
  intros Ha. unfold memset.
  replace ((dst <=? a) && (a <? dst + n)) with false; [reflexivity|].
  symmetry. apply andb_false_iff.
  destruct Ha; [left; apply Z.leb_gt | right; apply Z.ltb_ge]; lia.
Qed.

(** What the scan has done when it leaves with success: it stopped at the
    first entry carrying the handle, changed only that entry's [cur_len], and
    wrote memory by the copy and the fill. *)
Lemma set_value_scan_success tbl : forall m attr_handle value length tbl' m',
  set_value_scan tbl m attr_handle value length
    = (WICED_BT_GATT_SUCCESS, tbl', m') ->
  exists entry,
    ble_gatt_db_find_by_handle attr_handle tbl = Some entry /\
    ble_gatt_db_find_by_handle attr_handle tbl'
      = Some (set_cur_len entry length) /\
    length <= max_len entry /\
    m' = (if max_len entry >? length
          then memset (memcpy m (p_data entry) value length)
                      (p_data entry + length) 0 (max_len entry - length)
          else memcpy m (p_data entry) value length).
Proof.
  induction tbl as [|entry rest IH]; intros m attr_handle value length tbl' m' H.
  - discriminate H.
  - simpl in H. unfold ble_gatt_db_find_by_handle. simpl.
    destruct (handle entry =? attr_handle) eqn:Hh; simpl in H.
    + destruct (max_len entry <? length) eqn:Hmax; [discriminate H|].
      destruct (p_data entry =? nullptr); [discriminate H|].
      injection H as <- <-. exists entry. simpl. rewrite Hh.
      apply Z.ltb_ge in Hmax. repeat split; auto.
    + destruct (set_value_scan rest m attr_handle value length)
        as [[status rest'] m1] eqn:Hscan.
      injection H as -> <- ->.
      destruct (IH _ _ _ _ _ _ Hscan) as (e & Hf & Hf' & Hle & Hm).
      exists e. simpl. rewrite Hh. repeat split; auto.
Qed.

(** Leaving without success, the scan hands back the table and the memory
    it was given. *)
Lemma set_value_scan_failure tbl : forall m attr_handle value length status tbl' m',
  set_value_scan tbl m attr_handle value length = (status, tbl', m') ->
  status <> WICED_BT_GATT_SUCCESS ->
  tbl' = tbl /\ m' = m.
Proof.
  induction tbl as [|entry rest IH];
    intros m attr_handle value length status tbl' m' H Hs.
  - injection H as _ <- <-. auto.
  - simpl in H.
    destruct (handle entry =? attr_handle); simpl in H.
    + destruct (max_len entry <? length); [injection H as _ <- <-; auto|].
      destruct (p_data entry =? nullptr); [injection H as _ <- <-; auto|].
      injection H as <- _ _. contradiction Hs. reflexivity.
    + destruct (set_value_scan rest m attr_handle value length)
        as [[status1 rest'] m1] eqn:Hscan.
      injection H as -> <- ->.
      destruct (IH _ _ _ _ _ _ _ Hscan Hs) as [-> ->]. auto.
Qed.

(** The write always comes back with a status. *)
Lemma ble_gatt_db_set_value_returns attr_handle value length s :
  exists status s',
    ble_gatt_db_set_value attr_handle value length s = Returned status s'.
Proof.
  unfold ble_gatt_db_set_value.
  destruct ((length >? 0) && (value =? nullptr)).
  - eexists _, _. reflexivity.
  - unfold bind, get.
    destruct (set_value_scan _ _ _ _ _) as [[status tbl] m].
    eexists _, _. reflexivity.
Qed.

(** C1.  After a successful [ble_gatt_db_set_value(attr_handle, value,
    length)] the entry found under [attr_handle] is the one found before with
    [cur_len] equal to [length]; the first [length] bytes of its buffer are
    the bytes that were at [value], and every byte of the buffer at positions
    [length] up to [max_len] is zero. *)
Theorem set_value_success_postcondition attr_handle value length s s' :
  ble_gatt_db_set_value attr_handle value length s
    = Returned WICED_BT_GATT_SUCCESS s' ->
  exists entry entry',
    ble_gatt_db_find_by_handle attr_handle (app_gatt_db_ext_attr_tbl s)
      = Some entry /\
    ble_gatt_db_find_by_handle attr_handle (app_gatt_db_ext_attr_tbl s')
      = Some entry' /\
    handle entry' = handle entry /\
    max_len entry' = max_len entry /\
    p_data entry' = p_data entry /\
    cur_len entry' = length /\
    (forall k, 0 <= k < length ->
       ram s' (p_data entry' + k) = ram s (value + k)) /\
    (forall k, length <= k < max_len entry' ->
       ram s' (p_data entry' + k) = 0).
Proof.
  unfold ble_gatt_db_set_value.
  destruct ((length >? 0) && (value =? nullptr)); [discriminate|].
  unfold bind, get.
  destruct (set_value_scan _ _ _ _ _) as [[status tbl] m] eqn:Hscan.
  cbn. intros H. injection H as -> <-.
  destruct (set_value_scan_success _ _ _ _ _ _ _ Hscan)
    as (entry & Hf & Hf' & Hle & Hm).
  exists entry, (set_cur_len entry length). cbn.
  repeat split; auto; intros k Hk; subst m.
  - destruct (max_len entry >? length).
    + rewrite memset_outside by lia. apply memcpy_inside; lia.
    + apply memcpy_inside; lia.
  - replace (max_len entry >? length) with true
      by (symmetry; apply Z.gtb_lt; lia).
    apply memset_inside. lia.
Qed.

(** C10.  A [ble_gatt_db_set_value] that returns anything but success
    leaves the whole state as it was: the table, every [cur_len], and
    memory. *)
Theorem set_value_failure_changes_nothing attr_handle value length s status s' :
  ble_gatt_db_set_value attr_handle value length s = Returned status s' ->
  status <> WICED_BT_GATT_SUCCESS ->
  s' = s.
Proof.
  unfold ble_gatt_db_set_value.
  destruct ((length >? 0) && (value =? nullptr)).
  - intros H _. injection H as _ <-. reflexivity.
  - unfold bind, get.
    destruct (set_value_scan _ _ _ _ _) as [[status1 tbl] m] eqn:Hscan.
    cbn. intros H Hs. injection H as -> <-.
    destruct (set_value_scan_failure _ _ _ _ _ _ _ _ Hscan Hs) as [-> ->].
    apply set_state_same.
Qed.


(** Writing the two bytes at 0x2000 to the name attribute (handle 3). *)
Lemma set_value_success_witness :
  let s := connected_state in
  let s' := state_of (ble_gatt_db_set_value 0x0003 0x2000 2 s) s in
  ble_gatt_db_set_value 0x0003 0x2000 2 s = Returned WICED_BT_GATT_SUCCESS s' /\
  exists entry entry',
    ble_gatt_db_find_by_handle 0x0003 (app_gatt_db_ext_attr_tbl s)
      = Some entry /\
    ble_gatt_db_find_by_handle 0x0003 (app_gatt_db_ext_attr_tbl s')
      = Some entry' /\
    handle entry' = handle entry /\
    max_len entry' = max_len entry /\
    p_data entry' = p_data entry /\
    cur_len entry' = 2 /\
    (forall k, 0 <= k < 2 -> ram s' (p_data entry' + k) = ram s (0x2000 + k)) /\
    (forall k, 2 <= k < max_len entry' -> ram s' (p_data entry' + k) = 0).
Proof.
  intros s s'. split.
  - reflexivity.
  - apply (set_value_success_postcondition 0x0003 0x2000 2 s s').
    reflexivity.
Defined.

(** Writing five bytes to the one-byte battery level is refused. *)
Lemma set_value_failure_witness :
  let s := connected_state in
  let s' := state_of (ble_gatt_db_set_value 0x0009 0x2000 5 s) (demo_state
              (demo_context BLE_CONTEXT_TAG_INVALID 0 state_connected)) in
  ble_gatt_db_set_value 0x0009 0x2000 5 s
    = Returned WICED_BT_GATT_INVALID_ATTR_LEN s' /\
  WICED_BT_GATT_INVALID_ATTR_LEN <> WICED_BT_GATT_SUCCESS /\
  s' = s.
Proof.
  intros s s'. split; [reflexivity|]. split; [discriminate|].
  apply (set_value_failure_changes_nothing 0x0009 0x2000 5 s
           WICED_BT_GATT_INVALID_ATTR_LEN s'); [reflexivity | discriminate].
Defined.

(* ===================================================================== *)
(** ** Properties of the single-attribute read *)
(* ===================================================================== *)

Section SingleRead.

Context {stack : BtStack}.

(** C2.  A read (or read-blob) of a handle that is in the table: an offset
    at or past [cur_len] is answered with [WICED_BT_GATT_INVALID_OFFSET] and
    nothing is sent, whatever [cur_len] is; a smaller offset sends one
    response of [min(length_requested, cur_len - offset)] bytes, the bytes of
    the attribute's buffer from the offset on. *)
Theorem read_handler_offset_and_length connection_id opcode read_request
    length_requested s attribute :
  ble_gatt_db_find_by_handle (read_handle read_request)
                             (app_gatt_db_ext_attr_tbl s) = Some attribute ->
  0 <= length_requested < 65536 ->
  (cur_len attribute <= read_offset read_request ->
     ble_gatt_request_read_handler connection_id opcode read_request
                                   length_requested s
       = Returned (WICED_BT_GATT_INVALID_OFFSET, read_handle read_request) s)
  /\
  (read_offset read_request < cur_len attribute ->
     let n := Z.min length_requested
                    (cur_len attribute - read_offset read_request) in
     let data := p_data attribute + read_offset read_request in
     ble_gatt_request_read_handler connection_id opcode read_request
                                   length_requested s
       = Returned
           (wiced_bt_gatt_server_send_read_handle_rsp connection_id opcode
              n data,
            read_handle read_request)
           (log s (E_send_read_handle_rsp connection_id opcode n data
                     (load_bytes (ram s) data (Z.to_nat n)) ctxt_nullptr))).
Proof.
  intros Hfind Hlen.
  split; [intros Hoff | intros Hoff n data];
    unfold ble_gatt_request_read_handler, bind, get; rewrite Hfind.
  - replace (read_offset read_request >=? cur_len attribute) with true
      by (symmetry; apply Z.geb_le; lia).
    reflexivity.
  - replace (read_offset read_request >=? cur_len attribute) with false
      by (symmetry; rewrite Z.geb_leb; apply Z.leb_gt; lia).
    assert (Hn : to_uint16 (MIN length_requested
                 (cur_len attribute - read_offset read_request)) = n).
    { unfold to_uint16, MIN, n.
      destruct (Z.ltb_spec length_requested
                  (cur_len attribute - read_offset read_request)).
      - rewrite Z.min_l by lia. apply Z.mod_small. lia.
      - rewrite Z.min_r by lia. apply Z.mod_small. lia. }
    rewrite Hn. reflexivity.
Qed.

End SingleRead.

(** Reading the name attribute (3 bytes held) at offset 1 with room for 20
    bytes. *)
Lemma read_handler_witness :
  let stack := demo_stack [] WICED_BT_SUCCESS in
  let s := connected_state in
  let rr := {| read_handle := 0x0003; read_offset := 1 |} in
  let attribute :=
    {| handle := 0x0003; max_len := 6; cur_len := 3; p_data := 0x1010 |} in
  ble_gatt_db_find_by_handle 0x0003 (app_gatt_db_ext_attr_tbl s)
    = Some attribute /\
  ble_gatt_request_read_handler 1 GATT_REQ_READ rr 20 s
    = Returned (WICED_BT_GATT_SUCCESS, 0x0003)
        (log s (E_send_read_handle_rsp 1 GATT_REQ_READ 2 0x1011 [65; 83]
                  ctxt_nullptr)).
Proof.
  intros stack s rr attribute. split; [reflexivity|].
  apply (@read_handler_offset_and_length stack 1 GATT_REQ_READ rr 20 s
           attribute); [reflexivity | lia | reflexivity].
Defined.

(* ===================================================================== *)
(** ** Properties of read-by-type *)
(* ===================================================================== *)

Section ReadByType.

Context {platform : Platform} {stack : BtStack}.

Lemma malloc_state size s :
  malloc size s
    = Returned (std_malloc (heap s) size)
        {| app_gatt_db_ext_attr_tbl := app_gatt_db_ext_attr_tbl s;
           ram := ram s;
           heap := (if std_malloc (heap s) size =? nullptr then heap s
                    else std_malloc (heap s) size :: heap s);
           ble_context_object := ble_context_object s;
           trace := trace s ++ [E_malloc size (std_malloc (heap s) size)] |}.
Proof. reflexivity. Qed.

(** The loop of read-by-type is left by [break] with trace and heap as they
    were on entry, or by the [return] after a failed lookup, and then the
    response buffer has just been freed. *)
Lemma read_by_type_loop_exits fuel read_request length_requested response :
  forall attr_handle used pair_length s v s',
    read_by_type_loop fuel read_request length_requested response
                      attr_handle used pair_length s = Returned v s' ->
    (rbt_exit v = exit_break /\ trace s' = trace s /\ heap s' = heap s) \/
    (rbt_exit v = exit_return WICED_BT_GATT_INVALID_HANDLE /\
     trace s' = trace s ++ [E_free response] /\
     heap s' = remove Z.eq_dec response (heap s)).
Proof.
  induction fuel as [|fuel IH]; intros attr_handle used pair_length s v s' H.
  - discriminate H.
  - cbn [read_by_type_loop] in H.
    destruct (wiced_bt_gatt_find_handle_by_type attr_handle _ _ =? 0).
    + injection H as <- <-. left. auto.
    + unfold bind, get in H.
      destruct (ble_gatt_db_find_by_handle _ _) as [attribute|].
      * destruct (wiced_bt_gatt_put_read_by_type_rsp_in_stream _ _ _ _ _ _ _)
          as [[filled pl] m].
        cbn in H. destruct (filled =? 0).
        -- injection H as <- <-. left. auto.
        -- apply IH in H. exact H.
      * cbn in H. injection H as <- <-. right. auto.
Qed.

(** With such an encoder every iteration that goes round uses up at least
    one byte of the response, so the loop is over within
    [length_requested - used + 1] iterations. *)
Lemma read_by_type_loop_terminates read_request length_requested response :
  put_read_by_type_within_room ->
  forall fuel attr_handle used pair_length s,
    used <= length_requested ->
    (Z.to_nat (length_requested - used) < fuel)%nat ->
    exists v s',
      read_by_type_loop fuel read_request length_requested response
                        attr_handle used pair_length s = Returned v s'.
Proof.
  intros Hput. induction fuel as [|fuel IH];
    intros attr_handle used pair_length s Hused Hfuel; [lia|].
  cbn [read_by_type_loop].
  destruct (wiced_bt_gatt_find_handle_by_type attr_handle _ _ =? 0).
  - eexists _, _. reflexivity.
  - unfold bind, get.
    destruct (ble_gatt_db_find_by_handle _ _) as [attribute|].
    + pose proof (Hput (ram s) (response + used) (length_requested - used)
                    pair_length
                    (wiced_bt_gatt_find_handle_by_type attr_handle
                       (e_handle read_request) (uuid read_request))
                    (cur_len attribute) (p_data attribute)) as Hc.
      cbv zeta in Hc.
      destruct (wiced_bt_gatt_put_read_by_type_rsp_in_stream _ _ _ _ _ _ _)
        as [[filled pl] m].
      cbn in Hc. cbn. destruct (Z.eqb_spec filled 0).
      * eexists _, _. reflexivity.
      * apply IH; lia.
    + eexists _, _. reflexivity.
Qed.

(** The handler comes back, with a status, when run with more fuel than the
    response has bytes. *)
Lemma read_by_type_handler_returns fuel connection_id opcode read_request
    length_requested error_handle s :
  put_read_by_type_within_room ->
  (Z.to_nat length_requested < fuel)%nat ->
  exists r s',
    ble_gatt_request_read_by_type_handler fuel connection_id opcode
      read_request length_requested error_handle s = Returned r s'.
Proof.
  intros Hput Hfuel.
  unfold ble_gatt_request_read_by_type_handler, bind.
  rewrite malloc_state.
  destruct (std_malloc (heap s) length_requested =? nullptr).
  - eexists _, _. reflexivity.
  - destruct (Z.le_gt_cases 0 length_requested) as [Hlen|Hlen].
    + edestruct (read_by_type_loop_terminates read_request length_requested
                   (std_malloc (heap s) length_requested) Hput fuel)
        as (v & s1 & Hloop); [exact Hlen | rewrite Z.sub_0_r; exact Hfuel |].
      rewrite Hloop.
      destruct (rbt_exit v); try (destruct (rbt_used v =? 0));
        eexists _, _; reflexivity.
    + (* a negative length is no uint16_t; the loop still stops, since the
         encoder then has no room at all *)
      destruct fuel as [|fuel]; [lia|].
      cbn [read_by_type_loop].
      destruct (wiced_bt_gatt_find_handle_by_type _ _ _ =? 0).
      * cbn. eexists _, _. reflexivity.
      * unfold bind, get. cbn [app_gatt_db_ext_attr_tbl ram].
        destruct (ble_gatt_db_find_by_handle _ _) as [attribute|].
        -- match goal with
           | |- context [wiced_bt_gatt_put_read_by_type_rsp_in_stream
                           ?m ?st ?room ?pl ?h ?len ?d] =>
               pose proof (Hput m st room pl h len d) as Hc;
               destruct (wiced_bt_gatt_put_read_by_type_rsp_in_stream
                           m st room pl h len d) as [[filled pl'] m']
           end.
           cbn in Hc. rewrite Z.max_l in Hc by lia.
           replace filled with 0 by lia. cbn.
           eexists _, _. reflexivity.
        -- cbn. eexists _, _. reflexivity.
Qed.

(** C5.  With the response buffer allocated: when the scan for the type
    finds no handle at all, the handler frees the buffer, sends nothing and
    returns [WICED_BT_GATT_INVALID_HANDLE]; and however the handler returns,
    either the buffer was freed and the status is that error, or the buffer
    went to the stack in the one response, with [std::free] as the function
    to release it.  The handler does return, within [length_requested + 1]
    turns of its loop, when the stack's encoder keeps to the room it is
    given. *)
Theorem read_by_type_releases_buffer fuel connection_id opcode read_request
    length_requested error_handle s :
  let response := std_malloc (heap s) length_requested in
  response <> nullptr ->
  (wiced_bt_gatt_find_handle_by_type (s_handle read_request)
     (e_handle read_request) (uuid read_request) = 0 ->
   ble_gatt_request_read_by_type_handler (S fuel) connection_id opcode
     read_request length_requested error_handle s
   = Returned (WICED_BT_GATT_INVALID_HANDLE, s_handle read_request)
       {| app_gatt_db_ext_attr_tbl := app_gatt_db_ext_attr_tbl s;
          ram := ram s;
          heap := remove Z.eq_dec response (response :: heap s);
          ble_context_object := ble_context_object s;
          trace := trace s ++ [E_malloc length_requested response;
                               E_free response] |})
  /\
  (forall status error_handle' s',
     ble_gatt_request_read_by_type_handler fuel connection_id opcode
       read_request length_requested error_handle s
     = Returned (status, error_handle') s' ->
     (status = WICED_BT_GATT_INVALID_HANDLE /\
      trace s' = trace s ++ [E_malloc length_requested response;
                             E_free response] /\
      heap s' = remove Z.eq_dec response (response :: heap s))
     \/
     (status = WICED_BT_GATT_SUCCESS /\
      heap s' = response :: heap s /\
      exists pair_length used payload,
        used <> 0 /\
        trace s' = trace s ++ [E_malloc length_requested response;
                               E_send_read_by_type_rsp connection_id opcode
                                 pair_length used response payload
                                 ctxt_std_free]))
  /\
  (put_read_by_type_within_room ->
   (Z.to_nat length_requested < fuel)%nat ->
   exists r s',
     ble_gatt_request_read_by_type_handler fuel connection_id opcode
       read_request length_requested error_handle s = Returned r s').
Proof.
  intros response Hresp.
  assert (Hnz : (response =? nullptr) = false) by (apply Z.eqb_neq; exact Hresp).
  split; [|split].
  - intros Hnone.
    unfold ble_gatt_request_read_by_type_handler, bind.
    rewrite malloc_state. fold response. rewrite Hnz.
    cbn [read_by_type_loop]. rewrite Hnone.
    cbn. unfold ret, log, set_heap. cbn.
    rewrite <- app_assoc. reflexivity.
  - intros status error_handle' s' H.
    unfold ble_gatt_request_read_by_type_handler, bind in H.
    rewrite malloc_state in H. fold response in H. rewrite Hnz in H.
    destruct (read_by_type_loop fuel _ _ _ _ _ _ _) as [v s1| |] eqn:Hloop;
      try discriminate H.
    apply read_by_type_loop_exits in Hloop. cbn in Hloop.
    destruct Hloop as [(Hexit & Htr & Hheap) | (Hexit & Htr & Hheap)];
      rewrite Hexit in H.
    + destruct (rbt_used v =? 0) eqn:Hused.
      * cbn in H. injection H as <- _ <-. left. cbn.
        rewrite Htr, Hheap, <- app_assoc. auto.
      * cbn in H. injection H as <- _ <-. right. cbn.
        rewrite Htr, Hheap, <- app_assoc. repeat split; auto.
        eexists _, _, _. split; [|reflexivity].
        apply Z.eqb_neq. exact Hused.
    + injection H as <- _ <-. left.
      rewrite Htr, Hheap, <- app_assoc. auto.
  - intros Hput Hfuel. apply read_by_type_handler_returns; assumption.
Qed.

End ReadByType.

(** No attribute of the requested type: the buffer at 0x3000 is allocated
    and freed, and nothing is sent. *)
Lemma read_by_type_releases_buffer_witness :
  let platform := demo_platform true 0x3000 in
  let stack := demo_stack [] WICED_BT_SUCCESS in
  let rr := {| s_handle := 1; e_handle := 0xFFFF; uuid := 0x2A19 |} in
  std_malloc (heap connected_state) 20 <> nullptr /\
  wiced_bt_gatt_find_handle_by_type 1 0xFFFF 0x2A19 = 0 /\
  ble_gatt_request_read_by_type_handler 1 1 GATT_REQ_READ_BY_TYPE rr 20 0
    connected_state
  = Returned (WICED_BT_GATT_INVALID_HANDLE, 1)
      {| app_gatt_db_ext_attr_tbl := demo_tbl; ram := demo_ram; heap := [];
         ble_context_object :=
           demo_context BLE_CONTEXT_TAG_VALID 1 state_connected;
         trace := [E_malloc 20 0x3000; E_free 0x3000] |}.
Proof.
  intros platform stack rr.
  assert (H : std_malloc (heap connected_state) 20 <> nullptr)
    by discriminate.
  split; [exact H|]. split; [reflexivity|].
  exact (proj1 (@read_by_type_releases_buffer platform stack 0 1
                  GATT_REQ_READ_BY_TYPE rr 20 0 connected_state H)
               eq_refl).
Defined.

(* ===================================================================== *)
(** ** Allocation failure in the two multi-attribute handlers *)
(* ===================================================================== *)

Section AllocationFailure.

Context {platform : Platform} {stack : BtStack}.

(** C4, as amended.  When [std::malloc] fails, read-by-type returns
    [WICED_BT_GATT_INSUF_RESOURCE] and leaves [*error_handle] alone, and
    read-multiple returns [WICED_BT_GATT_INVALID_HANDLE] with the first handle
    of the request in [*error_handle]; neither sends anything. *)
Theorem allocation_failure_status fuel connection_id opcode opcode_multi
    read_request read_multiple_request length_requested error_handle s :
  std_malloc (heap s) length_requested = nullptr ->
  ble_gatt_request_read_by_type_handler fuel connection_id opcode
    read_request length_requested error_handle s
  = Returned (WICED_BT_GATT_INSUF_RESOURCE, error_handle)
      (log s (E_malloc length_requested nullptr))
  /\
  ble_gatt_request_read_multi_handler connection_id opcode_multi
    read_multiple_request length_requested s
  = Returned (WICED_BT_GATT_INVALID_HANDLE,
              wiced_bt_gatt_get_handle_from_stream (ram s)
                (p_handle_stream read_multiple_request) 0)
      (log s (E_malloc length_requested nullptr)).
Proof.
  intros Hfail.
  unfold ble_gatt_request_read_by_type_handler,
    ble_gatt_request_read_multi_handler, bind, get.
  rewrite malloc_state, Hfail. cbn.
  destruct s; split; reflexivity.
Qed.

End AllocationFailure.

(** A read-multiple request on a platform whose allocator fails. *)
Lemma allocation_failure_witness :
  let platform := demo_platform true nullptr in
  let stack := demo_stack [] WICED_BT_SUCCESS in
  let rr := {| s_handle := 1; e_handle := 0xFFFF; uuid := 0x2A19 |} in
  let rm := {| num_handles := 3; p_handle_stream := 0x2100 |} in
  std_malloc (heap connected_state) 20 = nullptr /\
  ble_gatt_request_read_by_type_handler 5 1 GATT_REQ_READ_BY_TYPE rr 20 0
    connected_state
  = Returned (WICED_BT_GATT_INSUF_RESOURCE, 0)
      (log connected_state (E_malloc 20 nullptr)) /\
  ble_gatt_request_read_multi_handler 1 GATT_REQ_READ_MULTI rm 20
    connected_state
  = Returned (WICED_BT_GATT_INVALID_HANDLE, 0x0009)
      (log connected_state (E_malloc 20 nullptr)).
Proof.
  intros platform stack rr rm. split; [reflexivity|].
  exact (@allocation_failure_status platform stack 5 1 GATT_REQ_READ_BY_TYPE
           GATT_REQ_READ_MULTI rr rm 20 0 connected_state eq_refl).
Defined.

(** With no memory to be had, read-multiple answers
    [WICED_BT_GATT_INVALID_HANDLE], not [WICED_BT_GATT_INSUF_RESOURCE]. *)
Lemma allocation_failure_counterexample :
  ~ @allocation_failure_is_insufficient_resources
      (demo_platform true nullptr) (demo_stack [] WICED_BT_SUCCESS)
      5 1 {| s_handle := 1; e_handle := 0xFFFF; uuid := 0x2A19 |}
      {| num_handles := 3; p_handle_stream := 0x2100 |} 20 0 connected_state.
Proof.
  intros H. destruct (H eq_refl) as [_ (error_handle & s' & Hrun)].
  vm_compute in Hrun. discriminate Hrun.
Qed.

(* ===================================================================== *)
(** ** Properties of read-multiple *)
(* ===================================================================== *)

Section ReadMultiple.

Context {platform : Platform} {stack : BtStack}.

(** One turn of the loop. *)
Lemma read_multi_loop_step opcode read_multiple_request length_requested
    response (n : nat) i used error_handle s :
  read_multi_loop (S n) i opcode read_multiple_request length_requested
                  response used error_handle s
  = let handle_i :=
      wiced_bt_gatt_get_handle_from_stream
        (ram s) (p_handle_stream read_multiple_request) i in
    match ble_gatt_db_find_by_handle handle_i
                                     (app_gatt_db_ext_attr_tbl s) with
    | None =>
        Returned {| rm_exit := exit_return WICED_BT_GATT_ERR_UNLIKELY;
                    rm_error_handle := handle_i; rm_used := used |}
                 (log (set_heap s (remove Z.eq_dec response (heap s)))
                      (E_free response))
    | Some attribute =>
        let r :=
          wiced_bt_gatt_put_read_multi_rsp_in_stream
            opcode (ram s) (response + used) (length_requested - used)
            (handle attribute) (cur_len attribute) (p_data attribute) in
        if fst r =? 0 then
          Returned {| rm_exit := exit_break; rm_error_handle := handle_i;
                      rm_used := used |} (set_ram s (snd r))
        else
          read_multi_loop n (i + 1) opcode read_multiple_request
            length_requested response (used + fst r) handle_i
            (set_ram s (snd r))
    end.
Proof.
  cbn [read_multi_loop]. unfold bind, get. cbv zeta.
  destruct (ble_gatt_db_find_by_handle _ _) as [attribute|]; [|reflexivity].
  destruct (wiced_bt_gatt_put_read_multi_rsp_in_stream _ _ _ _ _ _ _)
    as [filled m].
  cbn. destruct (filled =? 0); reflexivity.
Qed.

(** Running the loop over [a + b] handles is running it over the first [a]
    and, when that part ran to its end, over the next [b]. *)
Lemma read_multi_loop_split opcode read_multiple_request length_requested
    response (a b : nat) :
  forall i used error_handle s,
    read_multi_loop (a + b) i opcode read_multiple_request length_requested
                    response used error_handle s
    = match read_multi_loop a i opcode read_multiple_request
              length_requested response used error_handle s with
      | Returned v s1 =>
          match rm_exit v with
          | exit_done =>
              read_multi_loop b (i + Z.of_nat a) opcode read_multiple_request
                length_requested response (rm_used v) (rm_error_handle v) s1
          | _ => Returned v s1
          end
      | other => other
      end.
Proof.
  induction a as [|a IH]; intros i used error_handle s.
  - cbn. rewrite Z.add_0_r. reflexivity.
  - change (S a + b)%nat with (S (a + b)).
    rewrite !read_multi_loop_step. cbv zeta.
    destruct (ble_gatt_db_find_by_handle _ _) as [attribute|]; [|reflexivity].
    destruct (fst _ =? 0); [reflexivity|].
    rewrite IH. replace (i + 1 + Z.of_nat a) with (i + Z.of_nat (S a)) by lia.
    reflexivity.
Qed.

(** A part of the loop that ran to its end called nothing and left the
    table and the heap alone. *)
Lemma read_multi_loop_done opcode read_multiple_request length_requested
    response (n : nat) :
  forall i used error_handle s v s',
    read_multi_loop n i opcode read_multiple_request length_requested
                    response used error_handle s = Returned v s' ->
    rm_exit v = exit_done ->
    trace s' = trace s /\ heap s' = heap s /\
    app_gatt_db_ext_attr_tbl s' = app_gatt_db_ext_attr_tbl s.
Proof.
  induction n as [|n IH]; intros i used error_handle s v s' H Hdone.
  - injection H as <- <-. auto.
  - rewrite read_multi_loop_step in H. cbv zeta in H.
    destruct (ble_gatt_db_find_by_handle _ _) as [attribute|].
    + destruct (fst _ =? 0).
      * injection H as <- _. discriminate Hdone.
      * apply IH in H; [|exact Hdone]. exact H.
    + injection H as <- _. discriminate Hdone.
Qed.

(** C3, as amended.  With the response buffer allocated, let the handles
    before index [k] each have been found and encoded with a non-zero number
    of bytes (the loop over them ran to its end), and let the handle at index
    [k] be missing from the table.  Then the handler returns
    [WICED_BT_GATT_ERR_UNLIKELY] with that handle in [*error_handle], frees
    the buffer, and sends nothing: what was accumulated is dropped. *)
Theorem read_multi_missing_handle_aborts connection_id opcode
    read_multiple_request length_requested s (k : nat) v s1 :
  let response := std_malloc (heap s) length_requested in
  let stream := p_handle_stream read_multiple_request in
  response <> nullptr ->
  (k < Z.to_nat (num_handles read_multiple_request))%nat ->
  read_multi_loop k 0 opcode read_multiple_request length_requested response
    0 (wiced_bt_gatt_get_handle_from_stream (ram s) stream 0)
    (state_of (malloc length_requested s) s) = Returned v s1 ->
  rm_exit v = exit_done ->
  ble_gatt_db_find_by_handle
    (wiced_bt_gatt_get_handle_from_stream (ram s1) stream (Z.of_nat k))
    (app_gatt_db_ext_attr_tbl s) = None ->
  exists s',
    ble_gatt_request_read_multi_handler connection_id opcode
      read_multiple_request length_requested s
    = Returned (WICED_BT_GATT_ERR_UNLIKELY,
                wiced_bt_gatt_get_handle_from_stream (ram s1) stream
                  (Z.of_nat k)) s' /\
    trace s' = trace s ++ [E_malloc length_requested response;
                           E_free response] /\
    heap s' = remove Z.eq_dec response (response :: heap s) /\
    app_gatt_db_ext_attr_tbl s' = app_gatt_db_ext_attr_tbl s.
Proof.
  intros response stream Hresp Hk Hloop Hdone Hmissing.
  assert (Hnz : (response =? nullptr) = false)
    by (apply Z.eqb_neq; exact Hresp).
  destruct (read_multi_loop_done _ _ _ _ _ _ _ _ _ _ _ Hloop Hdone)
    as (Htr & Hheap & Htbl).
  rewrite malloc_state in Hloop, Htr, Hheap, Htbl.
  fold response in Hloop, Htr, Hheap, Htbl.
  rewrite Hnz in Hloop, Hheap. cbn in Hloop, Htr, Hheap, Htbl.
  unfold ble_gatt_request_read_multi_handler, bind at 1.
  rewrite malloc_state. fold response. rewrite Hnz.
  unfold bind at 1, get. cbn [ram]. fold stream.
  unfold bind at 1.
  replace (Z.to_nat (num_handles read_multiple_request))
    with (k + S (Z.to_nat (num_handles read_multiple_request) - S k))%nat
    by lia.
  rewrite read_multi_loop_split, Hloop, Hdone.
  rewrite read_multi_loop_step. cbv zeta. fold stream.
  rewrite Z.add_0_l, Htbl, Hmissing.
  cbn. eexists. split; [reflexivity|]. cbn.
  rewrite Htr, Hheap, <- app_assoc. auto.
Qed.

End ReadMultiple.

(** The request names the handles 0x0009, 0x0003 and 0x0077, and 0x0077 is
    not in the table.  With room for 20 bytes the first two are encoded and
    the third aborts the request. *)
Lemma read_multi_missing_handle_witness :
  let platform := demo_platform true 0x3000 in
  let stack := demo_stack [] WICED_BT_SUCCESS in
  let rm := {| num_handles := 3; p_handle_stream := 0x2100 |} in
  let s := connected_state in
  exists s',
    ble_gatt_request_read_multi_handler 1 GATT_REQ_READ_MULTI rm 20 s
    = Returned (WICED_BT_GATT_ERR_UNLIKELY, 0x0077) s' /\
    trace s' = [E_malloc 20 0x3000; E_free 0x3000] /\
    heap s' = [] /\
    app_gatt_db_ext_attr_tbl s' = demo_tbl.
Proof.
  intros platform stack rm s.
  pose (run := read_multi_loop 2 0 GATT_REQ_READ_MULTI rm 20 0x3000 0 0x0009
                 (state_of (malloc 20 s) s)).
  assert (Hresp : std_malloc (heap s) 20 <> nullptr) by discriminate.
  assert (Hk : (2 < Z.to_nat (num_handles rm))%nat)
    by (vm_compute; apply le_n).
  exact (@read_multi_missing_handle_aborts platform stack 1
           GATT_REQ_READ_MULTI rm 20 s 2%nat
           {| rm_exit := exit_done; rm_error_handle := 0x0003; rm_used := 4 |}
           (state_of run s) Hresp Hk eq_refl eq_refl eq_refl).
Defined.

(** The same request with room for 2 bytes only: the battery level (one
    byte) is encoded, the name (three bytes) does not fit and ends the loop,
    and the missing third handle is never looked up.  The handler reports
    success and sends the battery level. *)
Lemma read_multi_all_or_nothing_counterexample :
  ~ @read_multi_all_or_nothing
      (demo_platform true 0x3000) (demo_stack [] WICED_BT_SUCCESS)
      1 GATT_REQ_READ_MULTI {| num_handles := 3; p_handle_stream := 0x2100 |}
      2 connected_state.
Proof.
  intros H.
  destruct H as (status & error_handle & s' & Hrun & Hstatus & _).
  - exists 2. split; [cbn; lia | reflexivity].
  - vm_compute in Hrun. injection Hrun as <- _ _. apply Hstatus. reflexivity.
Qed.

(** What that run sends. *)
Example read_multi_partial_response :
  trace (state_of
    (@ble_gatt_request_read_multi_handler
       (demo_platform true 0x3000) (demo_stack [] WICED_BT_SUCCESS)
       1 GATT_REQ_READ_MULTI {| num_handles := 3; p_handle_stream := 0x2100 |}
       2 connected_state) connected_state)
  = [E_malloc 2 0x3000;
     E_send_read_multiple_rsp 1 GATT_REQ_READ_MULTI 1 0x3000 [100]
       ctxt_std_free].
Proof. reflexivity. Qed.

(* ===================================================================== *)
(** ** The dispatcher on opcodes it has no case for *)
(* ===================================================================== *)

Section Dispatcher.

Context {platform : Platform} {stack : BtStack} {ota : OtaAgent}
        {cycfg : CycfgGattDb}.

(** On an opcode without a case the dispatcher hands back the status it
    started with, 0, which is [WICED_BT_GATT_SUCCESS]; the callback then
    sends no error response. *)
Lemma default_case_is_success fuel attr_request error_handle s :
  has_case (opcode attr_request) = false ->
  ble_gatt_event_handler fuel attr_request error_handle s
    = Returned (WICED_BT_GATT_SUCCESS, error_handle) s /\
  ble_gatt_event_callback fuel (GATT_ATTRIBUTE_REQUEST_EVT attr_request) s
    = Returned WICED_BT_GATT_SUCCESS s.
Proof.
  intros H.
  assert (Hh : ble_gatt_event_handler fuel attr_request error_handle s
               = Returned (WICED_BT_GATT_SUCCESS, error_handle) s).
  { unfold ble_gatt_event_handler.
    destruct (opcode attr_request); try discriminate H; reflexivity. }
  split; [exact Hh|].
  unfold ble_gatt_event_callback, bind.
  assert (Hh0 : ble_gatt_event_handler fuel attr_request 0 s
                = Returned (WICED_BT_GATT_SUCCESS, 0) s).
  { unfold ble_gatt_event_handler.
    destruct (opcode attr_request); try discriminate H; reflexivity. }
  rewrite Hh0. reflexivity.
Qed.

(** C6.  An opcode without a case is not reported as unsupported: for a
    read-by-group-type request the dispatcher returns
    [WICED_BT_GATT_SUCCESS], not [WICED_BT_GATT_REQ_NOT_SUPPORTED], and the
    callback returns success with the trace as it was, so no error response
    goes to the peer. *)
Theorem unhandled_opcode_reported_as_success fuel s :
  ble_gatt_event_handler fuel read_by_group_type_request 0 s
    = Returned (WICED_BT_GATT_SUCCESS, 0) s /\
  ble_gatt_event_callback fuel
    (GATT_ATTRIBUTE_REQUEST_EVT read_by_group_type_request) s
    = Returned WICED_BT_GATT_SUCCESS s /\
  WICED_BT_GATT_SUCCESS <> WICED_BT_GATT_REQ_NOT_SUPPORTED.
Proof.
  destruct (default_case_is_success fuel read_by_group_type_request 0 s
              eq_refl) as [Hh Hc].
  split; [exact Hh | split; [exact Hc | discriminate]].
Qed.

End Dispatcher.

(* ===================================================================== *)
(** ** The connection state machine on a disconnect *)
(* ===================================================================== *)

Section Connection.

Context {platform : Platform} {stack : BtStack}.

(** C7.  On a disconnect event [m_connection_id] is set to 0 and one
    advertising start is asked of the stack.  If the stack turns it down and
    assertions are compiled in, [CY_ASSERT(false)] stops the program there.
    Otherwise the state becomes [disconnected_and_advertising], the LED is
    stopped, set to the blinking duty cycle and started again, and the
    handler returns success. *)
Theorem disconnect_restarts_advertising connection_status s :
  connected connection_status = false ->
  let c := ble_context_object s in
  let accepted :=
    wiced_bt_start_advertisements BTM_BLE_ADVERT_UNDIRECTED_HIGH
      =? WICED_BT_SUCCESS in
  connection_event_handler (Some connection_status) s
  = if negb accepted && cy_assert_enabled then
      Halted assertion_failed
        {| app_gatt_db_ext_attr_tbl := app_gatt_db_ext_attr_tbl s;
           ram := ram s; heap := heap s;
           ble_context_object :=
             with_connection c 0 (m_peer_address c) (m_connection_state c);
           trace :=
             trace s ++ [E_start_advertisements
                           BTM_BLE_ADVERT_UNDIRECTED_HIGH] |}
    else
      Returned WICED_BT_GATT_SUCCESS
        {| app_gatt_db_ext_attr_tbl := app_gatt_db_ext_attr_tbl s;
           ram := ram s; heap := heap s;
           ble_context_object :=
             with_connection c 0 (m_peer_address c)
                             disconnected_and_advertising;
           trace :=
             trace s ++ [E_start_advertisements
                           BTM_BLE_ADVERT_UNDIRECTED_HIGH;
                         E_led_stop;
                         E_led_set_duty_cycle 50 4;
                         E_led_start] |}.
Proof.
  intros Hdis c accepted.
  unfold connection_event_handler. rewrite Hdis.
  unfold CY_ASSERT, update_advertising_led, bind, update_ctx, emit, get, ret,
    halt, log, set_ctx.
  fold accepted. cbn.
  destruct accepted; cbn.
  - rewrite <- !app_assoc. reflexivity.
  - destruct cy_assert_enabled; cbn.
    + reflexivity.
    + rewrite <- !app_assoc. reflexivity.
Qed.

End Connection.

(** A disconnect while connected as peer 1, the stack accepting the
    advertising start. *)
Lemma disconnect_restarts_advertising_witness :
  let platform := demo_platform true 0x3000 in
  let stack := demo_stack [] WICED_BT_SUCCESS in
  let cs := {| bd_addr := [1; 2; 3; 4; 5; 6]; cs_conn_id := 1;
               connected := false |} in
  connected cs = false /\
  connection_event_handler (Some cs) connected_state
  = Returned WICED_BT_GATT_SUCCESS
      (log (log (log (log
         (demo_state (demo_context BLE_CONTEXT_TAG_VALID 0
                        disconnected_and_advertising))
         (E_start_advertisements BTM_BLE_ADVERT_UNDIRECTED_HIGH))
         E_led_stop) (E_led_set_duty_cycle 50 4)) E_led_start).
Proof.
  intros platform stack cs. split; [reflexivity|].
  exact (@disconnect_restarts_advertising platform stack cs connected_state
           eq_refl).
Defined.

(** The same disconnect with the stack turning the advertising start down
    and assertions compiled in. *)
Example disconnect_rejected_halts :
  let platform := demo_platform true 0x3000 in
  let stack := demo_stack [] 1 in
  let cs := {| bd_addr := [1; 2; 3; 4; 5; 6]; cs_conn_id := 1;
               connected := false |} in
  connection_event_handler (Some cs) connected_state
  = Halted assertion_failed
      (log (demo_state (demo_context BLE_CONTEXT_TAG_VALID 0 state_connected))
           (E_start_advertisements BTM_BLE_ADVERT_UNDIRECTED_HIGH)).
Proof. reflexivity. Qed.

(** With [CY_ASSERT] compiled out the same rejected start is not fatal: the
    handler goes on to [disconnected_and_advertising] and returns
    success. *)
Lemma disconnect_restart_is_asserted_counterexample :
  ~ @disconnect_restart_is_asserted
      (demo_platform false 0x3000) (demo_stack [] 1)
      {| bd_addr := [1; 2; 3; 4; 5; 6]; cs_conn_id := 1; connected := false |}
      connected_state.
Proof.
  intros H. destruct (H eq_refl) as (s' & Hrun & _).
  vm_compute in Hrun. discriminate Hrun.
Qed.

(* ===================================================================== *)
(** ** The OTA control point with an invalid tag *)
(* ===================================================================== *)

Section OtaControlPoint.

Context {ota : OtaAgent} {cycfg : CycfgGattDb}.

(** C9.  A prepare-download command written to the control point while
    [m_tag] is not [OTA_APP_TAG_VALID]: [ota_agent_initialize] returns
    [CY_RSLT_OTA_ERROR_BADARG] before it gets to [cy_ota_agent_start], and the
    write handler returns [WICED_BT_GATT_ERROR].  The state, and with it the
    trace of calls, is as before, so [cy_ota_agent_start] was not called. *)
Theorem prepare_with_invalid_tag_is_refused write_request s :
  write_handle write_request
    = HDLC_OTA_FW_UPGRADE_SERVICE_OTA_UPGRADE_CONTROL_POINT_VALUE ->
  HDLC_OTA_FW_UPGRADE_SERVICE_OTA_UPGRADE_CONTROL_POINT_VALUE
    <> HDLD_OTA_FW_UPGRADE_SERVICE_OTA_UPGRADE_CONTROL_POINT_CLIENT_CHAR_CONFIG ->
  ram s (p_val write_request) = CY_OTA_UPGRADE_COMMAND_PREPARE_DOWNLOAD ->
  m_tag (ble_context_object s) <> OTA_APP_TAG_VALID ->
  CY_RSLT_OTA_ERROR_BADARG <> CY_RSLT_SUCCESS ->
  ota_agent_initialize s = Returned CY_RSLT_OTA_ERROR_BADARG s /\
  ota_agent_write_handler write_request s
    = Returned (WICED_BT_GATT_ERROR, write_handle write_request) s /\
  ble_gatt_command_write_handler write_request s
    = Returned (WICED_BT_GATT_ERROR, write_handle write_request) s.
Proof.
  intros Hhandle Hdistinct Hcommand Htag Hbadarg.
  assert (Hinit : ota_agent_initialize s = Returned CY_RSLT_OTA_ERROR_BADARG s).
  { unfold ota_agent_initialize, bind, get.
    replace (m_tag (ble_context_object s) =? OTA_APP_TAG_VALID) with false
      by (symmetry; apply Z.eqb_neq; exact Htag).
    reflexivity. }
  assert (Hwrite : ota_agent_write_handler write_request s
            = Returned (WICED_BT_GATT_ERROR, write_handle write_request) s).
  { destruct write_request as [h p l]. cbn [write_handle p_val] in *. subst h.
    unfold ota_agent_write_handler, bind, get. cbn [write_handle p_val].
    rewrite (proj2 (Z.eqb_neq _ _) Hdistinct), Z.eqb_refl, Hcommand.
    cbn [Z.eqb Pos.eqb CY_OTA_UPGRADE_COMMAND_PREPARE_DOWNLOAD].
    rewrite Hinit, (proj2 (Z.eqb_neq _ _) Hbadarg). reflexivity. }
  split; [exact Hinit|]. split; [exact Hwrite|].
  unfold ble_gatt_command_write_handler.
  replace (write_handle write_request =?
           HDLC_OTA_FW_UPGRADE_SERVICE_OTA_UPGRADE_CONTROL_POINT_VALUE)
    with true by (symmetry; apply Z.eqb_eq; exact Hhandle).
  rewrite orb_true_r. exact Hwrite.
Qed.

End OtaControlPoint.

(** The command byte 0x01 at 0x2200 written to the control point (handle
    0x000D) of a context whose tag is [BLE_CONTEXT_TAG_INVALID]. *)
Lemma prepare_with_invalid_tag_witness :
  let ota := demo_ota in
  let cycfg := demo_cycfg in
  let wr := {| write_handle := 0x000D; p_val := 0x2200; val_len := 1 |} in
  let s := demo_state (demo_context BLE_CONTEXT_TAG_INVALID 1 state_connected) in
  ota_agent_initialize s = Returned CY_RSLT_OTA_ERROR_BADARG s /\
  ota_agent_write_handler wr s = Returned (WICED_BT_GATT_ERROR, 0x000D) s /\
  ble_gatt_command_write_handler wr s
    = Returned (WICED_BT_GATT_ERROR, 0x000D) s.
Proof.
  intros ota cycfg wr s.
  apply (@prepare_with_invalid_tag_is_refused ota cycfg wr s);
    [reflexivity | discriminate | reflexivity | discriminate | discriminate].
Defined.

(** With the valid tag the same write starts the agent. *)
Example prepare_with_valid_tag_starts_agent :
  trace (state_of
    (@ota_agent_write_handler demo_ota demo_cycfg
       {| write_handle := 0x000D; p_val := 0x2200; val_len := 1 |}
       connected_state) connected_state)
  = [E_cy_ota_agent_start; E_cy_ota_ble_download_prepare 0x4000 1 0].
Proof. reflexivity. Qed.

(* ===================================================================== *)
(** ** The battery level *)
(* ===================================================================== *)

Lemma battery_level_after_zero decrease_interval :
  battery_level_after decrease_interval 0 = 100.
Proof. reflexivity. Qed.

Lemma battery_level_after_step decrease_interval level :
  0 < level -> 0 <= decrease_interval <= level -> level < 256 ->
  battery_level_after decrease_interval level = level - decrease_interval.
Proof.
  intros Hpos Hd Hlt. unfold battery_level_after, to_uint8.
  replace (level =? 0) with false by (symmetry; apply Z.eqb_neq; lia).
  apply Z.mod_small. lia.
Qed.

(** From an even level between 0 and 100 the step of 2 stays among the even
    levels between 0 and 100. *)
Lemma battery_level_after_even level :
  0 <= level <= 100 -> Z.even level = true ->
  0 <= battery_level_after BATTERY_LEVEL_CHANGE level <= 100 /\
  Z.even (battery_level_after BATTERY_LEVEL_CHANGE level) = true.
Proof.
  intros Hrange Heven.
  destruct (Z.eq_dec level 0) as [->|Hnz]; [split; [cbn; lia | reflexivity]|].
  assert (level <> 1) by (intros ->; discriminate Heven).
  rewrite battery_level_after_step by (unfold BATTERY_LEVEL_CHANGE; lia).
  unfold BATTERY_LEVEL_CHANGE. split; [lia|].
  rewrite Z.even_sub, Heven. reflexivity.
Qed.

(** C8.  The update does not stay within 0..100 from every level in that
    range: from 1 it stores [1 - 2] in the 8-bit level, which is 255, and
    the task then notifies the peer of 255. *)
Theorem battery_level_from_one_is_255 :
  battery_level_after BATTERY_LEVEL_CHANGE 1 = 255 /\
  100 < battery_level_after BATTERY_LEVEL_CHANGE 1 /\
  trace (state_of (@battery_service_task_iteration demo_cycfg battery_at_one)
                  battery_at_one)
  = [E_send_notification 1 0x0009 1 0x1000 [255]].
Proof. split; [reflexivity|]. split; reflexivity. Qed.

(* ===================================================================== *)
(** ** Further facts about the handlers *)
(* ===================================================================== *)

(** The encoder of [demo_stack] keeps to the room it is given. *)
Lemma demo_stack_put_within_room types advertising :
  @put_read_by_type_within_room (demo_stack types advertising).
Proof.
  intros m stream room pair_len h len data. cbn.
  destruct (Z.ltb_spec len 0); cbn; [lia|].
  destruct (Z.ltb_spec room (len + 2)); cbn; [lia|].
  destruct (negb _); cbn; lia.
Qed.

(** A read-by-type that finds the battery level: one pair of handle and
    value is sent, and the buffer goes to the stack with [std::free]. *)
Example read_by_type_success_run :
  @ble_gatt_request_read_by_type_handler
    (demo_platform true 0x3000) (demo_stack [(0x0009, 0x2A19)] WICED_BT_SUCCESS)
    21 1 GATT_REQ_READ_BY_TYPE
    {| s_handle := 1; e_handle := 0xFFFF; uuid := 0x2A19 |} 20 0
    connected_state
  = Returned (WICED_BT_GATT_SUCCESS, 0x000A)
      {| app_gatt_db_ext_attr_tbl := demo_tbl;
         ram := ram (state_of
           (@ble_gatt_request_read_by_type_handler
              (demo_platform true 0x3000)
              (demo_stack [(0x0009, 0x2A19)] WICED_BT_SUCCESS)
              21 1 GATT_REQ_READ_BY_TYPE
              {| s_handle := 1; e_handle := 0xFFFF; uuid := 0x2A19 |} 20 0
              connected_state) connected_state);
         heap := [0x3000];
         ble_context_object :=
           demo_context BLE_CONTEXT_TAG_VALID 1 state_connected;
         trace := [E_malloc 20 0x3000;
                   E_send_read_by_type_rsp 1 GATT_REQ_READ_BY_TYPE 3 3 0x3000
                     [9; 0; 100] ctxt_std_free] |}.
Proof. reflexivity. Qed.

Section FurtherFacts.

Context {platform : Platform} {stack : BtStack} {ota : OtaAgent}
        {cycfg : CycfgGattDb}.

(** The callback hands a connection status event to the state machine. *)
Lemma connection_status_event_is_handled fuel connection_status :
  ble_gatt_event_callback fuel (GATT_CONNECTION_STATUS_EVT connection_status)
  = connection_event_handler (Some connection_status).
Proof. reflexivity. Qed.

(** The dispatcher sends read and read-blob requests to the read handler. *)
Lemma read_opcodes_are_dispatched fuel attr_request error_handle :
  opcode attr_request = GATT_REQ_READ \/
  opcode attr_request = GATT_REQ_READ_BLOB ->
  ble_gatt_event_handler fuel attr_request error_handle
  = ble_gatt_request_read_handler (conn_id attr_request)
      (opcode attr_request) (read_req attr_request)
      (len_requested attr_request).
Proof.
  intros [H|H]; unfold ble_gatt_event_handler; rewrite H; reflexivity.
Qed.

(** The two-handle case: the first handle of a read-multiple request is in
    the table and the second is not.  Whether or not the first attribute
    fits, the handler returns an error and sends no read-multiple
    response. *)
Lemma read_multi_second_handle_missing connection_id opcode
    read_multiple_request length_requested s attribute :
  let response := std_malloc (heap s) length_requested in
  let stream := p_handle_stream read_multiple_request in
  let r :=
    wiced_bt_gatt_put_read_multi_rsp_in_stream opcode (ram s) (response + 0)
      (length_requested - 0) (handle attribute) (cur_len attribute)
      (p_data attribute) in
  (2 <= Z.to_nat (num_handles read_multiple_request))%nat ->
  ble_gatt_db_find_by_handle
    (wiced_bt_gatt_get_handle_from_stream (ram s) stream 0)
    (app_gatt_db_ext_attr_tbl s) = Some attribute ->
  ble_gatt_db_find_by_handle
    (wiced_bt_gatt_get_handle_from_stream (snd r) stream 1)
    (app_gatt_db_ext_attr_tbl s) = None ->
  exists status error_handle s',
    ble_gatt_request_read_multi_handler connection_id opcode
      read_multiple_request length_requested s
    = Returned (status, error_handle) s' /\
    status <> WICED_BT_GATT_SUCCESS /\
    filter is_read_multiple_rsp (trace s')
      = filter is_read_multiple_rsp (trace s).
Proof.
  intros response stream r Hn Hfirst Hsecond.
  unfold ble_gatt_request_read_multi_handler, bind at 1.
  rewrite malloc_state. fold response.
  unfold bind at 1, get. cbn [ram]. fold stream.
  destruct (response =? nullptr) eqn:Hnz.
  - eexists _, _, _. split; [reflexivity|]. split; [discriminate|].
    cbn. rewrite filter_app. cbn. apply app_nil_r.
  - unfold bind at 1.
    destruct (Z.to_nat (num_handles read_multiple_request)) as [|[|n]];
      [lia | lia |].
    rewrite read_multi_loop_step. cbv zeta.
    cbn [ram app_gatt_db_ext_attr_tbl]. fold stream. rewrite Hfirst.
    fold r. destruct (fst r =? 0).
    + cbn. eexists _, _, _. split; [reflexivity|]. split; [discriminate|].
      cbn. rewrite filter_app. cbn. apply app_nil_r.
    + rewrite read_multi_loop_step. cbv zeta.
      cbn [ram app_gatt_db_ext_attr_tbl set_ram]. fold stream.
      rewrite Z.add_0_l, Hsecond.
      cbn. eexists _, _, _. split; [reflexivity|]. split; [discriminate|].
      cbn. rewrite !filter_app. cbn. rewrite !app_nil_r. reflexivity.
Qed.

End FurtherFacts.

(* ===================================================================== *)
(** ** More of the attribute store *)
(* ===================================================================== *)

Lemma ble_gatt_db_set_value_run attr_handle value length s :
  ble_gatt_db_set_value attr_handle value length s
  = if (length >? 0) && (value =? nullptr) then
      Returned WICED_BT_GATT_INVALID_PDU s
    else
      Returned
        (fst (fst (set_value_scan (app_gatt_db_ext_attr_tbl s) (ram s)
                                  attr_handle value length)))
        (set_ram
           (set_tbl s
              (snd (fst (set_value_scan (app_gatt_db_ext_attr_tbl s) (ram s)
                                        attr_handle value length))))
           (snd (set_value_scan (app_gatt_db_ext_attr_tbl s) (ram s)
                                attr_handle value length))).
Proof.
  unfold ble_gatt_db_set_value.
  destruct ((length >? 0) && (value =? nullptr)); [reflexivity|].
  unfold bind, get.
  destruct (set_value_scan _ _ _ _ _) as [[status tbl] m]. reflexivity.
Qed.

Lemma set_value_scan_status tbl : forall m attr_handle value length,
  fst (fst (set_value_scan tbl m attr_handle value length))
  = match ble_gatt_db_find_by_handle attr_handle tbl with
    | None => WICED_BT_GATT_INVALID_HANDLE
    | Some entry =>
        if max_len entry <? length then WICED_BT_GATT_INVALID_ATTR_LEN
        else if p_data entry =? nullptr then WICED_BT_GATT_ERROR
        else WICED_BT_GATT_SUCCESS
    end.
Proof.
  induction tbl as [|entry rest IH]; intros m attr_handle value length.
  - reflexivity.
  - unfold ble_gatt_db_find_by_handle in *. simpl.
    destruct (handle entry =? attr_handle); simpl.
    + destruct (max_len entry <? length); [reflexivity|].
      destruct (p_data entry =? nullptr); reflexivity.
    + rewrite <- IH with (m := m) (value := value).
      destruct (set_value_scan rest m attr_handle value length)
        as [[status rest'] m']. reflexivity.
Qed.

Lemma set_value_scan_layout tbl : forall m attr_handle value length,
  map layout (snd (fst (set_value_scan tbl m attr_handle value length)))
  = map layout tbl.
Proof.
  induction tbl as [|entry rest IH]; intros m attr_handle value length.
  - reflexivity.
  - simpl. destruct (handle entry =? attr_handle); simpl.
    + destruct (max_len entry <? length); [reflexivity|].
      destruct (p_data entry =? nullptr); reflexivity.
    + specialize (IH m attr_handle value length).
      destruct (set_value_scan rest m attr_handle value length)
        as [[status rest'] m'].
      simpl in *. rewrite IH. reflexivity.
Qed.

Lemma set_value_scan_other_handle tbl : forall m attr_handle value length other,
  other <> attr_handle ->
  ble_gatt_db_find_by_handle other
    (snd (fst (set_value_scan tbl m attr_handle value length)))
  = ble_gatt_db_find_by_handle other tbl.
Proof.
  unfold ble_gatt_db_find_by_handle.
  induction tbl as [|entry rest IH]; intros m attr_handle value length other Hne.
  - reflexivity.
  - simpl. destruct (Z.eqb_spec (handle entry) attr_handle) as [Heq|Hneq]; simpl.
    + destruct (max_len entry <? length); [reflexivity|].
      destruct (p_data entry =? nullptr); [reflexivity|].
      simpl. rewrite Heq.
      replace (attr_handle =? other) with false
        by (symmetry; apply Z.eqb_neq; congruence).
      reflexivity.
    + specialize (IH m attr_handle value length other Hne).
      destruct (set_value_scan rest m attr_handle value length)
        as [[status rest'] m'].
      simpl in *. rewrite IH. reflexivity.
Qed.

Lemma set_value_scan_lengths tbl : forall m attr_handle value length,
  Forall (fun entry => cur_len entry <= max_len entry) tbl ->
  Forall (fun entry => cur_len entry <= max_len entry)
         (snd (fst (set_value_scan tbl m attr_handle value length))).
Proof.
  induction tbl as [|entry rest IH]; intros m attr_handle value length Hall.
  - constructor.
  - inversion Hall as [|? ? Hentry Hrest]; subst.
    simpl. destruct (handle entry =? attr_handle); simpl.
    + destruct (Z.ltb_spec (max_len entry) length); [exact Hall|].
      destruct (p_data entry =? nullptr); [exact Hall|].
      simpl. constructor; [simpl; lia | exact Hrest].
    + specialize (IH m attr_handle value length Hrest).
      destruct (set_value_scan rest m attr_handle value length)
        as [[status rest'] m'].
      simpl in *. constructor; assumption.
Qed.

Lemma load_bytes_ext (m m' : memory) (n : nat) : forall p p',
  (forall k, 0 <= k < Z.of_nat n -> m (p + k) = m' (p' + k)) ->
  load_bytes m p n = load_bytes m' p' n.
Proof.
  induction n as [|n IH]; intros p p' H; [reflexivity|].
  simpl. f_equal.
  - specialize (H 0). rewrite !Z.add_0_r in H. apply H. lia.
  - apply IH. intros k Hk.
    replace (p + 1 + k) with (p + (1 + k)) by lia.
    replace (p' + 1 + k) with (p' + (1 + k)) by lia.
    apply H. lia.
Qed.

Lemma load_bytes_length (m : memory) (n : nat) : forall p,
  List.length (load_bytes m p n) = n.
Proof. induction n as [|n IH]; intros p; simpl; [|rewrite IH]; reflexivity. Qed.

(** X1.  The status of [ble_gatt_db_set_value] follows one order of checks:
    a null [value] with a positive [length] is [INVALID_PDU]; then a handle
    that is not in the table is [INVALID_HANDLE]; then a [length] above
    [max_len] is [INVALID_ATTR_LEN]; then a null [p_data] is [ERROR];
    anything else succeeds. *)
Theorem set_value_status_by_validation_order attr_handle value length s :
  exists s',
    ble_gatt_db_set_value attr_handle value length s
    = Returned
        (if (length >? 0) && (value =? nullptr) then
           WICED_BT_GATT_INVALID_PDU
         else
           match ble_gatt_db_find_by_handle attr_handle
                   (app_gatt_db_ext_attr_tbl s) with
           | None => WICED_BT_GATT_INVALID_HANDLE
           | Some entry =>
               if max_len entry <? length then WICED_BT_GATT_INVALID_ATTR_LEN
               else if p_data entry =? nullptr then WICED_BT_GATT_ERROR
               else WICED_BT_GATT_SUCCESS
           end) s'.
Proof.
  rewrite ble_gatt_db_set_value_run.
  destruct ((length >? 0) && (value =? nullptr)).
  - eexists. reflexivity.
  - rewrite set_value_scan_status. eexists. reflexivity.
Qed.

(** X2.  Whatever it returns, [ble_gatt_db_set_value] keeps the table's
    entries in place with their handles, maximum lengths and buffers; it
    allocates nothing, calls nothing and leaves the connection context
    alone. *)
Theorem set_value_keeps_table_layout attr_handle value length s :
  exists status s',
    ble_gatt_db_set_value attr_handle value length s = Returned status s' /\
    map layout (app_gatt_db_ext_attr_tbl s')
      = map layout (app_gatt_db_ext_attr_tbl s) /\
    heap s' = heap s /\
    ble_context_object s' = ble_context_object s /\
    trace s' = trace s.
Proof.
  rewrite ble_gatt_db_set_value_run.
  destruct ((length >? 0) && (value =? nullptr)).
  - eexists _, _. split; [reflexivity|]. auto.
  - eexists _, _. split; [reflexivity|]. cbn.
    rewrite set_value_scan_layout. auto.
Qed.

(** X3.  If every entry has its current length within its maximum length
    before a [ble_gatt_db_set_value], every entry has so afterwards. *)
Theorem set_value_keeps_lengths_within_maximum attr_handle value length s :
  Forall (fun entry => cur_len entry <= max_len entry)
         (app_gatt_db_ext_attr_tbl s) ->
  exists status s',
    ble_gatt_db_set_value attr_handle value length s = Returned status s' /\
    Forall (fun entry => cur_len entry <= max_len entry)
           (app_gatt_db_ext_attr_tbl s').
Proof.
  intros Hall. rewrite ble_gatt_db_set_value_run.
  destruct ((length >? 0) && (value =? nullptr)).
  - eexists _, _. split; [reflexivity | exact Hall].
  - eexists _, _. split; [reflexivity|]. cbn.
    apply set_value_scan_lengths. exact Hall.
Qed.

(** X4.  A successful [ble_gatt_db_set_value] of a non-negative [length]
    writes memory only inside the buffer of the entry it found: every byte
    before [p_data] or from [p_data + max_len] on is as it was. *)
Theorem set_value_writes_inside_buffer attr_handle value length s s' entry :
  ble_gatt_db_set_value attr_handle value length s
    = Returned WICED_BT_GATT_SUCCESS s' ->
  0 <= length ->
  ble_gatt_db_find_by_handle attr_handle (app_gatt_db_ext_attr_tbl s)
    = Some entry ->
  forall a,
    a < p_data entry \/ p_data entry + max_len entry <= a ->
    ram s' a = ram s a.
Proof.
  intros Hrun Hlen Hfind a Ha.
  rewrite ble_gatt_db_set_value_run in Hrun.
  destruct ((length >? 0) && (value =? nullptr)); [discriminate Hrun|].
  destruct (set_value_scan _ _ _ _ _) as [[status tbl] m] eqn:Hscan.
  cbn in Hrun. injection Hrun as -> <-.
  destruct (set_value_scan_success _ _ _ _ _ _ _ Hscan)
    as (e & Hf & _ & Hle & Hm).
  rewrite Hfind in Hf. injection Hf as <-. cbn. subst m.
  assert (Hcopy : memcpy (ram s) (p_data entry) value length a = ram s a).
  { unfold memcpy.
    replace ((p_data entry <=? a) && (a <? p_data entry + length)) with false;
      [reflexivity|].
    symmetry. apply andb_false_iff.
    destruct Ha; [left; apply Z.leb_gt | right; apply Z.ltb_ge]; lia. }
  destruct (max_len entry >? length); [|exact Hcopy].
  rewrite memset_outside by lia. exact Hcopy.
Qed.

(** X5.  A [ble_gatt_db_set_value] on one handle does not change what
    [ble_gatt_db_find_by_handle] finds under any other handle. *)
Theorem set_value_leaves_other_handles attr_handle value length s other :
  other <> attr_handle ->
  exists status s',
    ble_gatt_db_set_value attr_handle value length s = Returned status s' /\
    ble_gatt_db_find_by_handle other (app_gatt_db_ext_attr_tbl s')
      = ble_gatt_db_find_by_handle other (app_gatt_db_ext_attr_tbl s).
Proof.
  intros Hne. rewrite ble_gatt_db_set_value_run.
  destruct ((length >? 0) && (value =? nullptr)).
  - eexists _, _. split; reflexivity.
  - eexists _, _. split; [reflexivity|]. cbn.
    apply set_value_scan_other_handle. exact Hne.
Qed.

Lemma set_value_keeps_lengths_witness :
  Forall (fun entry => cur_len entry <= max_len entry)
         (app_gatt_db_ext_attr_tbl connected_state) /\
  exists status s',
    ble_gatt_db_set_value 0x0003 0x2000 5 connected_state
      = Returned status s' /\
    Forall (fun entry => cur_len entry <= max_len entry)
           (app_gatt_db_ext_attr_tbl s').
Proof.
  assert (H : Forall (fun entry => cur_len entry <= max_len entry)
                     (app_gatt_db_ext_attr_tbl connected_state)).
  { repeat constructor; cbn; lia. }
  split; [exact H|].
  exact (set_value_keeps_lengths_within_maximum 0x0003 0x2000 5
           connected_state H).
Defined.

(** Writing five bytes to the name attribute leaves the battery level, in
    the buffer at 0x1000, as it was. *)
Lemma set_value_writes_inside_buffer_witness :
  let s := connected_state in
  let s' := state_of (ble_gatt_db_set_value 0x0003 0x2000 5 s) s in
  ble_gatt_db_set_value 0x0003 0x2000 5 s = Returned WICED_BT_GATT_SUCCESS s' /\
  ram s' 0x1000 = ram s 0x1000.
Proof.
  intros s s'. split; [reflexivity|].
  apply (set_value_writes_inside_buffer 0x0003 0x2000 5 s s'
           {| handle := 0x0003; max_len := 6; cur_len := 3;
              p_data := 0x1010 |});
    [reflexivity | lia | reflexivity | left; cbn; lia].
Defined.

Lemma set_value_leaves_other_handles_witness :
  0x0009 <> 0x0003 /\
  exists status s',
    ble_gatt_db_set_value 0x0003 0x2000 5 connected_state
      = Returned status s' /\
    ble_gatt_db_find_by_handle 0x0009 (app_gatt_db_ext_attr_tbl s')
      = ble_gatt_db_find_by_handle 0x0009
          (app_gatt_db_ext_attr_tbl connected_state).
Proof.
  assert (H : 0x0009 <> 0x0003) by discriminate.
  split; [exact H|].
  exact (set_value_leaves_other_handles 0x0003 0x2000 5 connected_state
           0x0009 H).
Defined.

(* ===================================================================== *)
(** ** Writing and reading back *)
(* ===================================================================== *)

Section WriteThenRead.

Context {stack : BtStack}.

(** X6.  After a successful [ble_gatt_db_set_value] of [length] > 0 bytes, a
    read of the same handle at offset 0 with room for at least [length]
    bytes sends exactly the bytes that were written, and no more. *)
Theorem write_then_read_round_trip connection_id opcode attr_handle value
    length length_requested s s' :
  ble_gatt_db_set_value attr_handle value length s
    = Returned WICED_BT_GATT_SUCCESS s' ->
  0 < length ->
  length <= length_requested < 65536 ->
  exists entry,
    ble_gatt_db_find_by_handle attr_handle (app_gatt_db_ext_attr_tbl s)
      = Some entry /\
    ble_gatt_request_read_handler connection_id opcode
      {| read_handle := attr_handle; read_offset := 0 |} length_requested s'
    = Returned
        (wiced_bt_gatt_server_send_read_handle_rsp connection_id opcode
           length (p_data entry),
         attr_handle)
        (log s' (E_send_read_handle_rsp connection_id opcode length
                   (p_data entry)
                   (load_bytes (ram s) value (Z.to_nat length))
                   ctxt_nullptr)).
Proof.
  intros Hrun Hpos Hreq.
  rewrite ble_gatt_db_set_value_run in Hrun.
  destruct ((length >? 0) && (value =? nullptr)); [discriminate Hrun|].
  destruct (set_value_scan _ _ _ _ _) as [[status tbl] m] eqn:Hscan.
  cbn in Hrun. injection Hrun as -> <-.
  destruct (set_value_scan_success _ _ _ _ _ _ _ Hscan)
    as (entry & Hf & Hf' & Hle & Hm).
  exists entry. split; [exact Hf|].
  unfold ble_gatt_request_read_handler, bind, get, emit, ret.
  cbn [read_handle read_offset app_gatt_db_ext_attr_tbl set_ram set_tbl ram].
  rewrite Hf'. cbn [cur_len p_data set_cur_len].
  replace (0 >=? length) with false
    by (symmetry; rewrite Z.geb_leb; apply Z.leb_gt; lia).
  assert (Hn : to_uint16 (MIN length_requested (length - 0)) = length).
  { unfold to_uint16, MIN. rewrite Z.sub_0_r.
    destruct (Z.ltb_spec length_requested length); [lia|].
    apply Z.mod_small. lia. }
  rewrite Hn, Z.add_0_r.
  rewrite (load_bytes_ext m (ram s) (Z.to_nat length) (p_data entry) value).
  - reflexivity.
  - intros k Hk. rewrite Z2Nat.id in Hk by lia. subst m.
    destruct (max_len entry >? length).
    + rewrite memset_outside by lia. apply memcpy_inside; lia.
    + apply memcpy_inside; lia.
Qed.

(** X7.  Writing zero bytes, even from a null pointer, to an attribute that
    has a buffer succeeds and empties it: the whole buffer reads zero, and
    every later read of the attribute at a non-negative offset is refused
    with [INVALID_OFFSET] without anything being sent. *)
Theorem zero_length_write_empties_attribute attr_handle value s entry :
  ble_gatt_db_find_by_handle attr_handle (app_gatt_db_ext_attr_tbl s)
    = Some entry ->
  p_data entry <> nullptr ->
  0 <= max_len entry ->
  exists s',
    ble_gatt_db_set_value attr_handle value 0 s
      = Returned WICED_BT_GATT_SUCCESS s' /\
    (forall k, 0 <= k < max_len entry -> ram s' (p_data entry + k) = 0) /\
    (forall connection_id opcode offset length_requested,
       0 <= offset ->
       ble_gatt_request_read_handler connection_id opcode
         {| read_handle := attr_handle; read_offset := offset |}
         length_requested s'
       = Returned (WICED_BT_GATT_INVALID_OFFSET, attr_handle) s').
Proof.
  intros Hfind Hbuf Hmax.
  rewrite ble_gatt_db_set_value_run. cbn [Z.gtb Z.compare andb].
  pose proof (set_value_scan_status (app_gatt_db_ext_attr_tbl s) (ram s)
                attr_handle value 0) as Hstatus.
  rewrite Hfind in Hstatus.
  replace (max_len entry <? 0) with false in Hstatus
    by (symmetry; apply Z.ltb_ge; lia).
  replace (p_data entry =? nullptr) with false in Hstatus
    by (symmetry; apply Z.eqb_neq; exact Hbuf).
  destruct (set_value_scan _ _ _ _ _) as [[status tbl] m] eqn:Hscan.
  cbn in Hstatus. subst status.
  destruct (set_value_scan_success _ _ _ _ _ _ _ Hscan)
    as (e & Hf & Hf' & Hle & Hm).
  rewrite Hfind in Hf. injection Hf as <-.
  eexists. split; [reflexivity|]. cbn. split.
  - intros k Hk. subst m.
    destruct (Z.gtb_spec (max_len entry) 0); [|lia].
    apply memset_inside. lia.
  - intros connection_id opcode offset length_requested Hoff.
    unfold ble_gatt_request_read_handler, bind, get.
    cbn [read_handle read_offset app_gatt_db_ext_attr_tbl].
    unfold ble_gatt_db_find_by_handle in Hf'.
    rewrite Hf'. cbn [cur_len set_cur_len].
    replace (offset >=? 0) with true by (symmetry; apply Z.geb_le; lia).
    reflexivity.
Qed.

(** X8.  The read handler only reads: for a request with a non-negative
    offset and a 16-bit [length_requested] it returns with the table, memory,
    heap and context unchanged, and it either sends nothing or sends one
    response whose bytes number at most [length_requested] and end at or
    before the attribute's current length. *)
Theorem read_handler_reads_within_value connection_id opcode read_request
    length_requested s :
  0 <= read_offset read_request ->
  0 <= length_requested < 65536 ->
  exists status s',
    ble_gatt_request_read_handler connection_id opcode read_request
      length_requested s
    = Returned (status, read_handle read_request) s' /\
    app_gatt_db_ext_attr_tbl s' = app_gatt_db_ext_attr_tbl s /\
    ram s' = ram s /\ heap s' = heap s /\
    ble_context_object s' = ble_context_object s /\
    (trace s' = trace s \/
     exists entry n payload,
       ble_gatt_db_find_by_handle (read_handle read_request)
         (app_gatt_db_ext_attr_tbl s) = Some entry /\
       trace s' = trace s ++
         [E_send_read_handle_rsp connection_id opcode n
            (p_data entry + read_offset read_request) payload ctxt_nullptr] /\
       0 <= n <= length_requested /\
       read_offset read_request + n <= cur_len entry /\
       Z.of_nat (List.length payload) = n).
Proof.
  intros Hoff Hreq.
  unfold ble_gatt_request_read_handler, bind, get, emit, ret.
  destruct (ble_gatt_db_find_by_handle _ _) as [entry|] eqn:Hfind.
  - destruct (Z.geb_spec (read_offset read_request) (cur_len entry)).
    + eexists _, _. split; [reflexivity|]. auto 6.
    + eexists _, _. split; [reflexivity|]. cbn.
      repeat (split; [reflexivity|]). right.
      exists entry. eexists _, _. split; [reflexivity|].
      split; [reflexivity|].
      assert (Hn : to_uint16 (MIN length_requested
                   (cur_len entry - read_offset read_request))
                 = Z.min length_requested
                     (cur_len entry - read_offset read_request)).
      { unfold to_uint16, MIN.
        destruct (Z.ltb_spec length_requested
                    (cur_len entry - read_offset read_request)).
        - rewrite Z.min_l by lia. apply Z.mod_small. lia.
        - rewrite Z.min_r by lia. apply Z.mod_small. lia. }
      rewrite Hn, load_bytes_length. rewrite Z2Nat.id by lia. lia.
  - eexists _, _. split; [reflexivity|]. auto 6.
Qed.

End WriteThenRead.

Lemma write_then_read_witness :
  let stack := demo_stack [] WICED_BT_SUCCESS in
  let s := connected_state in
  let s' := state_of (ble_gatt_db_set_value 0x0003 0x2000 5 s) s in
  ble_gatt_db_set_value 0x0003 0x2000 5 s = Returned WICED_BT_GATT_SUCCESS s' /\
  exists entry,
    ble_gatt_db_find_by_handle 0x0003 (app_gatt_db_ext_attr_tbl s)
      = Some entry /\
    ble_gatt_request_read_handler 1 GATT_REQ_READ
      {| read_handle := 0x0003; read_offset := 0 |} 20 s'
    = Returned (WICED_BT_GATT_SUCCESS, 0x0003)
        (log s' (E_send_read_handle_rsp 1 GATT_REQ_READ 5 (p_data entry)
                   [11; 22; 33; 44; 55] ctxt_nullptr)).
Proof.
  intros stack s s'. split; [reflexivity|].
  apply (@write_then_read_round_trip stack 1 GATT_REQ_READ 0x0003 0x2000 5 20
           s s'); [reflexivity | lia | lia].
Defined.

Lemma zero_length_write_witness :
  let stack := demo_stack [] WICED_BT_SUCCESS in
  let s := connected_state in
  let entry :=
    {| handle := 0x0003; max_len := 6; cur_len := 3; p_data := 0x1010 |} in
  exists s',
    ble_gatt_db_set_value 0x0003 nullptr 0 s
      = Returned WICED_BT_GATT_SUCCESS s' /\
    (forall k, 0 <= k < 6 -> ram s' (0x1010 + k) = 0) /\
    (forall connection_id opcode offset length_requested,
       0 <= offset ->
       ble_gatt_request_read_handler connection_id opcode
         {| read_handle := 0x0003; read_offset := offset |}
         length_requested s'
       = Returned (WICED_BT_GATT_INVALID_OFFSET, 0x0003) s').
Proof.
  intros stack s entry.
  apply (@zero_length_write_empties_attribute stack 0x0003 nullptr s entry);
    [reflexivity | discriminate | cbn; lia].
Defined.

Lemma read_handler_reads_within_value_witness :
  let stack := demo_stack [] WICED_BT_SUCCESS in
  let s := connected_state in
  let rr := {| read_handle := 0x0003; read_offset := 1 |} in
  exists status s',
    ble_gatt_request_read_handler 1 GATT_REQ_READ_BLOB rr 20 s
    = Returned (status, 0x0003) s' /\
    app_gatt_db_ext_attr_tbl s' = app_gatt_db_ext_attr_tbl s /\
    ram s' = ram s /\ heap s' = heap s /\
    ble_context_object s' = ble_context_object s /\
    (trace s' = trace s \/
     exists entry n payload,
       ble_gatt_db_find_by_handle 0x0003 (app_gatt_db_ext_attr_tbl s)
         = Some entry /\
       trace s' = trace s ++
         [E_send_read_handle_rsp 1 GATT_REQ_READ_BLOB n (p_data entry + 1)
            payload ctxt_nullptr] /\
       0 <= n <= 20 /\
       1 + n <= cur_len entry /\
       Z.of_nat (List.length payload) = n).
Proof.
  intros stack s rr.
  apply (@read_handler_reads_within_value stack 1 GATT_REQ_READ_BLOB rr 20 s);
    cbn; lia.
Defined.

(* ===================================================================== *)
(** ** More of read-by-type and read-multiple *)
(* ===================================================================== *)

Section MultiAttributeReads.

Context {platform : Platform} {stack : BtStack}.

Lemma read_by_type_loop_step fuel read_request length_requested response
    attr_handle used pair_length s :
  read_by_type_loop (S fuel) read_request length_requested response
                    attr_handle used pair_length s
  = let found :=
      wiced_bt_gatt_find_handle_by_type attr_handle (e_handle read_request)
                                        (uuid read_request) in
    if found =? 0 then
      Returned {| rbt_exit := exit_break; rbt_error_handle := attr_handle;
                  rbt_used := used; rbt_pair_length := pair_length |} s
    else
      match ble_gatt_db_find_by_handle found (app_gatt_db_ext_attr_tbl s) with
      | None =>
          Returned {| rbt_exit := exit_return WICED_BT_GATT_INVALID_HANDLE;
                      rbt_error_handle := attr_handle; rbt_used := used;
                      rbt_pair_length := pair_length |}
                   (log (set_heap s (remove Z.eq_dec response (heap s)))
                        (E_free response))
      | Some attribute =>
          let r :=
            wiced_bt_gatt_put_read_by_type_rsp_in_stream
              (ram s) (response + used) (length_requested - used)
              pair_length found (cur_len attribute) (p_data attribute) in
          if fst (fst r) =? 0 then
            Returned {| rbt_exit := exit_break;
                        rbt_error_handle := attr_handle; rbt_used := used;
                        rbt_pair_length := snd (fst r) |}
                     (set_ram s (snd r))
          else
            read_by_type_loop fuel read_request length_requested response
              (to_uint16 (found + 1)) (used + fst (fst r)) (snd (fst r))
              (set_ram s (snd r))
      end.
Proof.
  cbn [read_by_type_loop]. cbv zeta.
  destruct (wiced_bt_gatt_find_handle_by_type _ _ _ =? 0); [reflexivity|].
  unfold bind, get.
  destruct (ble_gatt_db_find_by_handle _ _) as [attribute|]; [|reflexivity].
  destruct (wiced_bt_gatt_put_read_by_type_rsp_in_stream _ _ _ _ _ _ _)
    as [[filled pl] m].
  cbn. destruct (filled =? 0); reflexivity.
Qed.

(** The loop of read-by-type never lets [used] run past the length
    requested, and leaves the table and the context alone. *)
Lemma read_by_type_loop_bounds read_request length_requested response :
  put_read_by_type_within_room ->
  forall fuel attr_handle used pair_length s v s',
    0 <= used <= length_requested ->
    read_by_type_loop fuel read_request length_requested response
                      attr_handle used pair_length s = Returned v s' ->
    used <= rbt_used v <= length_requested.
Proof.
  intros Hput. induction fuel as [|fuel IH];
    intros attr_handle used pair_length s v s' Hused H; [discriminate H|].
  rewrite read_by_type_loop_step in H. cbv zeta in H.
  destruct (_ =? 0) in H; [injection H as <- _; cbn; lia|].
  destruct (ble_gatt_db_find_by_handle _ _) as [attribute|];
    [|injection H as <- _; cbn; lia].
  match type of H with
  | context [wiced_bt_gatt_put_read_by_type_rsp_in_stream
               ?m ?st ?room ?pl ?h ?len ?d] =>
      pose proof (Hput m st room pl h len d) as Hc; cbv zeta in Hc
  end.
  destruct (Z.eqb_spec (fst (fst (wiced_bt_gatt_put_read_by_type_rsp_in_stream
              (ram s) (response + used) (length_requested - used) pair_length
              (wiced_bt_gatt_find_handle_by_type attr_handle
                 (e_handle read_request) (uuid read_request))
              (cur_len attribute) (p_data attribute)))) 0) as [Hz|Hnz].
  - injection H as <- _. cbn. lia.
  - apply IH in H; lia.
Qed.

Lemma read_by_type_loop_frame read_request length_requested response :
  forall fuel attr_handle used pair_length s v s',
    read_by_type_loop fuel read_request length_requested response
                      attr_handle used pair_length s = Returned v s' ->
    app_gatt_db_ext_attr_tbl s' = app_gatt_db_ext_attr_tbl s /\
    ble_context_object s' = ble_context_object s.
Proof.
  induction fuel as [|fuel IH];
    intros attr_handle used pair_length s v s' H; [discriminate H|].
  rewrite read_by_type_loop_step in H. cbv zeta in H.
  destruct (_ =? 0) in H; [injection H as _ <-; auto|].
  destruct (ble_gatt_db_find_by_handle _ _) as [attribute|];
    [|injection H as _ <-; auto].
  destruct (_ =? 0) in H; [injection H as _ <-; auto|].
  apply IH in H. exact H.
Qed.

(** How the loop of read-multiple is left, whichever way. *)
Lemma read_multi_loop_exits opcode read_multiple_request length_requested
    response (n : nat) :
  forall i used error_handle s v s',
    read_multi_loop n i opcode read_multiple_request length_requested
                    response used error_handle s = Returned v s' ->
    app_gatt_db_ext_attr_tbl s' = app_gatt_db_ext_attr_tbl s /\
    ble_context_object s' = ble_context_object s /\
    ((rm_exit v = exit_return WICED_BT_GATT_ERR_UNLIKELY /\
      trace s' = trace s ++ [E_free response] /\
      heap s' = remove Z.eq_dec response (heap s)) \/
     ((rm_exit v = exit_done \/ rm_exit v = exit_break) /\
      trace s' = trace s /\ heap s' = heap s)).
Proof.
  induction n as [|n IH]; intros i used error_handle s v s' H.
  - injection H as <- <-. cbn. auto 8.
  - rewrite read_multi_loop_step in H. cbv zeta in H.
    destruct (ble_gatt_db_find_by_handle _ _) as [attribute|].
    + destruct (_ =? 0) in H.
      * injection H as <- <-. cbn. auto 8.
      * apply IH in H. exact H.
    + injection H as <- <-. cbn. auto 8.
Qed.

Lemma read_multi_loop_bounds opcode read_multiple_request length_requested
    response :
  put_read_multi_within_room ->
  forall (n : nat) i used error_handle s v s',
    0 <= used <= length_requested ->
    read_multi_loop n i opcode read_multiple_request length_requested
                    response used error_handle s = Returned v s' ->
    used <= rm_used v <= length_requested.
Proof.
  intros Hput. induction n as [|n IH];
    intros i used error_handle s v s' Hused H.
  - injection H as <- _. cbn. lia.
  - rewrite read_multi_loop_step in H. cbv zeta in H.
    destruct (ble_gatt_db_find_by_handle _ _) as [attribute|];
      [|injection H as <- _; cbn; lia].
    match type of H with
    | context [wiced_bt_gatt_put_read_multi_rsp_in_stream
                 ?op ?m ?st ?room ?h ?len ?d] =>
        pose proof (Hput op m st room h len d) as Hc; cbv zeta in Hc
    end.
    destruct (Z.eqb_spec (fst (wiced_bt_gatt_put_read_multi_rsp_in_stream
                opcode (ram s) (response + used) (length_requested - used)
                (handle attribute) (cur_len attribute) (p_data attribute))) 0)
      as [Hz|Hnz].
    + injection H as <- _. cbn. lia.
    + apply IH in H; lia.
Qed.



End MultiAttributeReads.

Section MultiAttributeReadFacts.

Context {platform : Platform} {stack : BtStack}.


(** X9.  With an encoder that keeps to the room it is given, a read-by-type
    that succeeds has sent one response of more than 0 and at most
    [length_requested] bytes. *)
Theorem read_by_type_response_fits fuel connection_id opcode read_request
    length_requested error_handle s error_handle' s' :
  put_read_by_type_within_room ->
  0 <= length_requested ->
  ble_gatt_request_read_by_type_handler fuel connection_id opcode
    read_request length_requested error_handle s
  = Returned (WICED_BT_GATT_SUCCESS, error_handle') s' ->
  exists pair_length used payload,
    trace s' = trace s ++
      [E_malloc length_requested (std_malloc (heap s) length_requested);
       E_send_read_by_type_rsp connection_id opcode pair_length used
         (std_malloc (heap s) length_requested) payload ctxt_std_free] /\
    0 < used <= length_requested /\
    Z.of_nat (List.length payload) = used.
Proof.
  intros Hput Hlen H.
  unfold ble_gatt_request_read_by_type_handler, bind in H.
  rewrite malloc_state in H.
  destruct (std_malloc (heap s) length_requested =? nullptr);
    [discriminate H|].
  destruct (read_by_type_loop fuel _ _ _ _ _ _ _) as [v s1| |] eqn:Hloop;
    try discriminate H.
  pose proof (read_by_type_loop_bounds _ _ _ Hput _ _ _ _ _ _ _
                (conj (Z.le_refl 0) Hlen) Hloop) as Hb.
  apply read_by_type_loop_exits in Hloop. cbn in Hloop.
  destruct Hloop as [(Hexit & Htr & _) | (Hexit & _)]; rewrite Hexit in H;
    [|discriminate H].
  destruct (Z.eqb_spec (rbt_used v) 0); [discriminate H|].
  cbn in H. injection H as _ <-. cbn.
  eexists _, _, _. rewrite Htr, <- app_assoc. split; [reflexivity|].
  split; [lia|]. rewrite load_bytes_length. apply Z2Nat.id. lia.
Qed.


End MultiAttributeReadFacts.

Section ResponseBuffers.

Context {platform : Platform} {stack : BtStack} {ota : OtaAgent}
        {cycfg : CycfgGattDb}.

(** X11.  A read-multiple that ends with [INVALID_HANDLE] after its buffer
    was allocated has sent nothing and has not freed the buffer: the block is
    still on the heap.  A request with no handles ends this way. *)
Theorem read_multi_invalid_handle_keeps_buffer connection_id opcode
    read_multiple_request length_requested s :
  let response := std_malloc (heap s) length_requested in
  response <> nullptr ->
  (num_handles read_multiple_request <= 0 ->
   ble_gatt_request_read_multi_handler connection_id opcode
     read_multiple_request length_requested s
   = Returned (WICED_BT_GATT_INVALID_HANDLE,
               wiced_bt_gatt_get_handle_from_stream (ram s)
                 (p_handle_stream read_multiple_request) 0)
       {| app_gatt_db_ext_attr_tbl := app_gatt_db_ext_attr_tbl s;
          ram := ram s;
          heap := response :: heap s;
          ble_context_object := ble_context_object s;
          trace := trace s ++ [E_malloc length_requested response] |})
  /\
  (forall error_handle s',
     ble_gatt_request_read_multi_handler connection_id opcode
       read_multiple_request length_requested s
     = Returned (WICED_BT_GATT_INVALID_HANDLE, error_handle) s' ->
     heap s' = response :: heap s /\
     trace s' = trace s ++ [E_malloc length_requested response]).
Proof.
  intros response Hresp.
  assert (Hnz : (response =? nullptr) = false)
    by (apply Z.eqb_neq; exact Hresp).
  split.
  - intros Hnone.
    unfold ble_gatt_request_read_multi_handler, bind at 1.
    rewrite malloc_state. fold response. rewrite Hnz.
    unfold bind at 1, get. unfold bind at 1.
    replace (Z.to_nat (num_handles read_multiple_request)) with 0%nat by lia.
    reflexivity.
  - intros error_handle s' H.
    unfold ble_gatt_request_read_multi_handler, bind at 1 in H.
    rewrite malloc_state in H. fold response in H. rewrite Hnz in H.
    unfold bind at 1, get in H. unfold bind at 1 in H.
    destruct (read_multi_loop _ _ _ _ _ _ _ _ _) as [v s1| |] eqn:Hloop;
      try discriminate H.
    apply read_multi_loop_exits in Hloop. cbn in Hloop.
    destruct Hloop as (_ & _ & [(Hexit & _) | (Hexit & Htr & Hheap)]).
    + rewrite Hexit in H. discriminate H.
    + assert (Hrest :
        (if rm_used v =? 0
         then ret (WICED_BT_GATT_INVALID_HANDLE, rm_error_handle v)
         else
           (s0 <- get ;;
            emit (E_send_read_multiple_rsp connection_id opcode (rm_used v)
                    response
                    (load_bytes (ram s0) response (Z.to_nat (rm_used v)))
                    ctxt_std_free) ;;;
            ret (WICED_BT_GATT_SUCCESS, rm_error_handle v))) s1
        = Returned (WICED_BT_GATT_INVALID_HANDLE, error_handle) s').
      { destruct Hexit as [Hexit|Hexit]; rewrite Hexit in H; exact H. }
      destruct (rm_used v =? 0); [|discriminate Hrest].
      injection Hrest as _ <-. auto.
Qed.

(** X12.  With an encoder that keeps to the room it is given, a
    read-multiple that succeeds has sent one response of more than 0 and at
    most [length_requested] bytes, with [std::free] to release it. *)
Theorem read_multi_response_fits connection_id opcode read_multiple_request
    length_requested s error_handle s' :
  put_read_multi_within_room ->
  0 <= length_requested ->
  ble_gatt_request_read_multi_handler connection_id opcode
    read_multiple_request length_requested s
  = Returned (WICED_BT_GATT_SUCCESS, error_handle) s' ->
  exists used payload,
    trace s' = trace s ++
      [E_malloc length_requested (std_malloc (heap s) length_requested);
       E_send_read_multiple_rsp connection_id opcode used
         (std_malloc (heap s) length_requested) payload ctxt_std_free] /\
    0 < used <= length_requested /\
    Z.of_nat (List.length payload) = used.
Proof.
  intros Hput Hlen H.
  unfold ble_gatt_request_read_multi_handler, bind at 1 in H.
  rewrite malloc_state in H.
  unfold bind at 1, get in H.
  destruct (std_malloc (heap s) length_requested =? nullptr);
    [discriminate H|].
  unfold bind at 1 in H.
  destruct (read_multi_loop _ _ _ _ _ _ _ _ _) as [v s1| |] eqn:Hloop;
    try discriminate H.
  pose proof (read_multi_loop_bounds _ _ _ _ Hput _ _ _ _ _ _ _
                (conj (Z.le_refl 0) Hlen) Hloop) as Hb.
  apply read_multi_loop_exits in Hloop. cbn in Hloop.
  destruct Hloop as (_ & _ & [(Hexit & _) | (Hexit & Htr & _)]).
  - rewrite Hexit in H. discriminate H.
  - assert (Hrest :
      (if rm_used v =? 0
       then ret (WICED_BT_GATT_INVALID_HANDLE, rm_error_handle v)
       else
         (s0 <- get ;;
          emit (E_send_read_multiple_rsp connection_id opcode (rm_used v)
                  (std_malloc (heap s) length_requested)
                  (load_bytes (ram s0) (std_malloc (heap s) length_requested)
                     (Z.to_nat (rm_used v)))
                  ctxt_std_free) ;;;
          ret (WICED_BT_GATT_SUCCESS, rm_error_handle v))) s1
      = Returned (WICED_BT_GATT_SUCCESS, error_handle) s').
    { destruct Hexit as [Hexit|Hexit]; rewrite Hexit in H; exact H. }
    destruct (Z.eqb_spec (rm_used v) 0); [discriminate Hrest|].
    cbn in Hrest. injection Hrest as _ <-. cbn.
    eexists _, _. rewrite Htr, <- app_assoc. split; [reflexivity|].
    split; [lia|]. rewrite load_bytes_length. apply Z2Nat.id. lia.
Qed.

(** X13.  The response buffer of a successful read-by-type is released by
    the transmitted event that carries the buffer and the context of the
    response: with a block that was not in use before, the heap is then as it
    was before the request. *)
Theorem transmitted_event_releases_response fuel fuel' connection_id opcode
    read_request length_requested error_handle s error_handle' s1 :
  let response := std_malloc (heap s) length_requested in
  ~ In response (heap s) ->
  ble_gatt_request_read_by_type_handler fuel connection_id opcode
    read_request length_requested error_handle s
  = Returned (WICED_BT_GATT_SUCCESS, error_handle') s1 ->
  exists s2,
    ble_gatt_event_callback fuel'
      (GATT_APP_BUFFER_TRANSMITTED_EVT ctxt_std_free response) s1
    = Returned WICED_BT_GATT_SUCCESS s2 /\
    heap s2 = heap s /\
    trace s2 = trace s1 ++ [E_free response].
Proof.
  intros response Hfresh H.
  unfold ble_gatt_request_read_by_type_handler, bind in H.
  rewrite malloc_state in H. fold response in H.
  destruct (response =? nullptr); [discriminate H|].
  destruct (read_by_type_loop fuel _ _ _ _ _ _ _) as [v s0| |] eqn:Hloop;
    try discriminate H.
  apply read_by_type_loop_exits in Hloop. cbn in Hloop.
  destruct Hloop as [(Hexit & _ & Hheap) | (Hexit & _)]; rewrite Hexit in H;
    [|discriminate H].
  destruct (rbt_used v =? 0); [discriminate H|].
  cbn in H. injection H as _ <-.
  eexists. split; [reflexivity|]. cbn. split; [|reflexivity].
  rewrite Hheap. cbn.
  destruct (Z.eq_dec response response) as [_|Hne]; [|contradiction].
  apply notin_remove. exact Hfresh.
Qed.

End ResponseBuffers.

Lemma demo_stack_put_multi_within_room types advertising :
  @put_read_multi_within_room (demo_stack types advertising).
Proof.
  intros opcode m stream room h len data. cbn.
  destruct opcode;
    try (destruct (Z.ltb_spec len 0); cbn; [lia|];
         destruct (Z.ltb_spec room len); cbn; lia).
  destruct (Z.ltb_spec len 0); cbn; [lia|].
  destruct (Z.ltb_spec room (len + 2)); cbn; lia.
Qed.

(** The battery level read by type, with room for 20 bytes. *)
Lemma read_by_type_response_fits_witness :
  let platform := demo_platform true 0x3000 in
  let stack := demo_stack [(0x0009, 0x2A19)] WICED_BT_SUCCESS in
  let rr := {| s_handle := 1; e_handle := 0xFFFF; uuid := 0x2A19 |} in
  let s := connected_state in
  exists pair_length used payload,
    trace (state_of (ble_gatt_request_read_by_type_handler 21 1
                       GATT_REQ_READ_BY_TYPE rr 20 0 s) s)
    = trace s ++
        [E_malloc 20 0x3000;
         E_send_read_by_type_rsp 1 GATT_REQ_READ_BY_TYPE pair_length used
           0x3000 payload ctxt_std_free] /\
    0 < used <= 20 /\
    Z.of_nat (List.length payload) = used.
Proof.
  intros platform stack rr s.
  assert (Hlen : 0 <= 20) by lia.
  exact (@read_by_type_response_fits platform stack 21 1
           GATT_REQ_READ_BY_TYPE rr 20 0 s 0x000A
           (state_of (ble_gatt_request_read_by_type_handler 21 1
                        GATT_REQ_READ_BY_TYPE rr 20 0 s) s)
           (demo_stack_put_within_room _ _) Hlen eq_refl).
Defined.




(** A read-multiple request without handles. *)
Lemma read_multi_invalid_handle_witness :
  let platform := demo_platform true 0x3000 in
  let stack := demo_stack [] WICED_BT_SUCCESS in
  let rm := {| num_handles := 0; p_handle_stream := 0x2100 |} in
  let s := connected_state in
  std_malloc (heap s) 20 <> nullptr /\
  ble_gatt_request_read_multi_handler 1 GATT_REQ_READ_MULTI rm 20 s
  = Returned (WICED_BT_GATT_INVALID_HANDLE, 0x0009)
      {| app_gatt_db_ext_attr_tbl := demo_tbl; ram := demo_ram;
         heap := [0x3000];
         ble_context_object :=
           demo_context BLE_CONTEXT_TAG_VALID 1 state_connected;
         trace := [E_malloc 20 0x3000] |}.
Proof.
  intros platform stack rm s.
  assert (H : std_malloc (heap s) 20 <> nullptr) by discriminate.
  split; [exact H|].
  assert (Hn : num_handles rm <= 0) by (cbn; lia).
  exact (proj1 (@read_multi_invalid_handle_keeps_buffer platform stack 1
                  GATT_REQ_READ_MULTI rm 20 s H) Hn).
Defined.

(** The request for 0x0009, 0x0003, 0x0077 with room for two bytes. *)
Lemma read_multi_response_fits_witness :
  let platform := demo_platform true 0x3000 in
  let stack := demo_stack [] WICED_BT_SUCCESS in
  let rm := {| num_handles := 3; p_handle_stream := 0x2100 |} in
  let s := connected_state in
  exists used payload,
    trace (state_of (ble_gatt_request_read_multi_handler 1
                       GATT_REQ_READ_MULTI rm 2 s) s)
    = trace s ++
        [E_malloc 2 0x3000;
         E_send_read_multiple_rsp 1 GATT_REQ_READ_MULTI used 0x3000 payload
           ctxt_std_free] /\
    0 < used <= 2 /\
    Z.of_nat (List.length payload) = used.
Proof.
  intros platform stack rm s.
  assert (Hlen : 0 <= 2) by lia.
  exact (@read_multi_response_fits platform stack 1 GATT_REQ_READ_MULTI rm 2
           s 0x0003
           (state_of (ble_gatt_request_read_multi_handler 1
                        GATT_REQ_READ_MULTI rm 2 s) s)
           (demo_stack_put_multi_within_room _ _) Hlen eq_refl).
Defined.

Lemma transmitted_event_releases_response_witness :
  let platform := demo_platform true 0x3000 in
  let stack := demo_stack [(0x0009, 0x2A19)] WICED_BT_SUCCESS in
  let rr := {| s_handle := 1; e_handle := 0xFFFF; uuid := 0x2A19 |} in
  let s := connected_state in
  let s1 := state_of (ble_gatt_request_read_by_type_handler 21 1
                        GATT_REQ_READ_BY_TYPE rr 20 0 s) s in
  ~ In 0x3000 (heap s) /\
  exists s2,
    @ble_gatt_event_callback platform stack demo_ota demo_cycfg 0
      (GATT_APP_BUFFER_TRANSMITTED_EVT ctxt_std_free 0x3000) s1
    = Returned WICED_BT_GATT_SUCCESS s2 /\
    heap s2 = heap s /\
    trace s2 = trace s1 ++ [E_free 0x3000].
Proof.
  intros platform stack rr s s1.
  assert (H : ~ In (std_malloc (heap s) 20) (heap s)) by (intros []).
  split; [exact H|].
  exact (@transmitted_event_releases_response platform stack demo_ota
           demo_cycfg 21 0 1 GATT_REQ_READ_BY_TYPE rr 20 0 s 0x000A s1 H
           eq_refl).
Defined.

(* ===================================================================== *)
(** ** More of the dispatcher and the callback *)
(* ===================================================================== *)

Section WriteDispatch.

Context {platform : Platform} {stack : BtStack} {ota : OtaAgent}
        {cycfg : CycfgGattDb}.

(** X14.  A write to a handle outside the OTA service goes to the attribute
    store with the status of [ble_gatt_db_set_value].  The peer gets a write
    response for a successful write request, nothing for a successful write
    command, and an error response with the handle and the status for any
    write that fails, write commands included. *)
Theorem write_is_answered_by_status fuel attr_request s status s1 :
  opcode attr_request = GATT_REQ_WRITE \/
  opcode attr_request = GATT_CMD_WRITE \/
  opcode attr_request = GATT_CMD_SIGNED_WRITE ->
  write_handle (write_req attr_request)
    <> HDLD_OTA_FW_UPGRADE_SERVICE_OTA_UPGRADE_CONTROL_POINT_CLIENT_CHAR_CONFIG ->
  write_handle (write_req attr_request)
    <> HDLC_OTA_FW_UPGRADE_SERVICE_OTA_UPGRADE_CONTROL_POINT_VALUE ->
  write_handle (write_req attr_request)
    <> HDLC_OTA_FW_UPGRADE_SERVICE_OTA_UPGRADE_DATA_VALUE ->
  ble_gatt_db_set_value (write_handle (write_req attr_request))
    (p_val (write_req attr_request)) (val_len (write_req attr_request)) s
  = Returned status s1 ->
  ble_gatt_event_callback fuel (GATT_ATTRIBUTE_REQUEST_EVT attr_request) s
  = Returned status
      (if status =? WICED_BT_GATT_SUCCESS then
         match opcode attr_request with
         | GATT_REQ_WRITE =>
             log s1 (E_send_write_rsp (conn_id attr_request) GATT_REQ_WRITE
                       (write_handle (write_req attr_request)))
         | _ => s1
         end
       else
         log s1 (E_send_error_rsp (conn_id attr_request)
                   (opcode attr_request)
                   (write_handle (write_req attr_request)) status)).
Proof.
  intros Hop H1 H2 H3 Hset.
  assert (Hw : ble_gatt_command_write_handler (write_req attr_request) s
               = Returned (status, write_handle (write_req attr_request)) s1).
  { unfold ble_gatt_command_write_handler.
    rewrite (proj2 (Z.eqb_neq _ _) H1), (proj2 (Z.eqb_neq _ _) H2),
      (proj2 (Z.eqb_neq _ _) H3).
    cbn [orb]. unfold bind. rewrite Hset. reflexivity. }
  unfold ble_gatt_event_callback, ble_gatt_event_handler.
  destruct Hop as [Hop|[Hop|Hop]]; rewrite Hop;
    unfold bind; rewrite Hw;
    destruct (status =? WICED_BT_GATT_SUCCESS) eqn:E;
    cbv beta iota delta [emit ret]; rewrite ?E; reflexivity.
Qed.

(** X15.  A prepare-write request is accepted and changes nothing; an
    execute-write request is acknowledged with one execute-write response
    and changes nothing else.  What a prepare-write carried is never
    written to the table. *)
Theorem queued_writes_are_not_applied fuel prepare execute s :
  opcode prepare = GATT_REQ_PREPARE_WRITE ->
  opcode execute = GATT_REQ_EXECUTE_WRITE ->
  ble_gatt_event_callback fuel (GATT_ATTRIBUTE_REQUEST_EVT prepare) s
    = Returned WICED_BT_GATT_SUCCESS s /\
  ble_gatt_event_callback fuel (GATT_ATTRIBUTE_REQUEST_EVT execute) s
    = Returned WICED_BT_GATT_SUCCESS
        (log s (E_send_execute_write_rsp (conn_id execute)
                  GATT_REQ_EXECUTE_WRITE)).
Proof.
  intros Hp He.
  unfold ble_gatt_event_callback, ble_gatt_event_handler.
  rewrite Hp, He. split; reflexivity.
Qed.

(** X16.  A handle value confirmation asks the OTA library for its state.
    If the update is complete and [m_reboot_at_end] is set, the handler waits
    a second and resets the system; in every other case it stops the agent
    and the callback returns success, with the table and memory as they
    were. *)
Theorem confirmation_reboots_or_stops fuel attr_request s :
  opcode attr_request = GATT_HANDLE_VALUE_CONF ->
  let c := ble_context_object s in
  match cy_ota_get_state (m_ota_context c), m_reboot_at_end c with
  | CY_OTA_STATE_OTA_COMPLETE, true =>
      ble_gatt_event_callback fuel (GATT_ATTRIBUTE_REQUEST_EVT attr_request) s
      = Halted system_reset
          (log (log (log s (E_cy_ota_get_state (m_ota_context c)))
                    (E_cy_rtos_delay_milliseconds 1000))
               E_NVIC_SystemReset)
  | _, _ =>
      exists s',
        ble_gatt_event_callback fuel (GATT_ATTRIBUTE_REQUEST_EVT attr_request) s
        = Returned WICED_BT_GATT_SUCCESS s' /\
        trace s' = trace s ++ [E_cy_ota_get_state (m_ota_context c);
                               E_cy_ota_agent_stop (m_ota_context c)] /\
        app_gatt_db_ext_attr_tbl s' = app_gatt_db_ext_attr_tbl s /\
        ram s' = ram s
  end.
Proof.
  intros Hop c.
  unfold ble_gatt_event_callback, ble_gatt_event_handler. rewrite Hop.
  unfold ota_agent_confirmation_handler, bind, get, emit. cbn.
  fold c.
  destruct (cy_ota_get_state (m_ota_context c)), (m_reboot_at_end c);
    try reflexivity;
    (eexists; split; [reflexivity|]; cbn;
     rewrite <- app_assoc; auto).
Qed.

End WriteDispatch.

(* ===================================================================== *)
(** ** More of the connection state machine *)
(* ===================================================================== *)

Section ConnectionFacts.

Context {platform : Platform} {stack : BtStack} {management : BtManagement}.

Lemma update_advertising_led_run s :
  update_advertising_led s
  = Returned cyhal_pwm_start
      {| app_gatt_db_ext_attr_tbl := app_gatt_db_ext_attr_tbl s;
         ram := ram s; heap := heap s;
         ble_context_object := ble_context_object s;
         trace := trace s ++
           [E_led_stop;
            E_led_set_duty_cycle
              (state_duty (m_connection_state (ble_context_object s))) 4;
            E_led_start] |}.
Proof.
  unfold update_advertising_led, bind, get, emit, ret, log. cbn.
  rewrite <- !app_assoc. cbn.
  destruct (m_connection_state (ble_context_object s)); reflexivity.
Qed.

Lemma connect_event_run connection_status s :
  connected connection_status = true ->
  connection_event_handler (Some connection_status) s
  = Returned WICED_BT_GATT_SUCCESS
      {| app_gatt_db_ext_attr_tbl := app_gatt_db_ext_attr_tbl s;
         ram := ram s; heap := heap s;
         ble_context_object :=
           with_connection (ble_context_object s)
             (cs_conn_id connection_status)
             (firstn BD_ADDR_LEN (bd_addr connection_status))
             state_connected;
         trace := trace s ++
           [E_led_stop; E_led_set_duty_cycle 100 4; E_led_start] |}.
Proof.
  intros Hcon. unfold connection_event_handler. rewrite Hcon.
  unfold bind at 1. unfold bind at 1. unfold update_ctx.
  rewrite update_advertising_led_run. reflexivity.
Qed.

Lemma disconnect_event_run connection_status s :
  connected connection_status = false ->
  wiced_bt_start_advertisements BTM_BLE_ADVERT_UNDIRECTED_HIGH
    = WICED_BT_SUCCESS ->
  connection_event_handler (Some connection_status) s
  = Returned WICED_BT_GATT_SUCCESS
      {| app_gatt_db_ext_attr_tbl := app_gatt_db_ext_attr_tbl s;
         ram := ram s; heap := heap s;
         ble_context_object :=
           with_connection (ble_context_object s) 0
             (m_peer_address (ble_context_object s))
             disconnected_and_advertising;
         trace := trace s ++
           [E_start_advertisements BTM_BLE_ADVERT_UNDIRECTED_HIGH;
            E_led_stop; E_led_set_duty_cycle 50 4; E_led_start] |}.
Proof.
  intros Hdis Hadv. unfold connection_event_handler. rewrite Hdis, Hadv.
  unfold CY_ASSERT, update_advertising_led, bind, update_ctx, emit, get, ret,
    halt, log, set_ctx.
  cbn. rewrite <- !app_assoc. reflexivity.
Qed.

(** X17.  Whenever [connection_event_handler] returns from a connection
    status, the last thing it did was to stop the LED, set it to the duty
    cycle of the state it has just entered (0 not advertising, 50
    advertising, 100 connected) and start it. *)
Theorem led_follows_connection_state connection_status s status s' :
  connection_event_handler (Some connection_status) s = Returned status s' ->
  exists before,
    trace s' = before ++
      [E_led_stop;
       E_led_set_duty_cycle
         (state_duty (m_connection_state (ble_context_object s'))) 4;
       E_led_start].
Proof.
  unfold connection_event_handler.
  destruct (connected connection_status).
  - unfold bind at 1. unfold bind at 1. unfold update_ctx.
    rewrite update_advertising_led_run. cbn.
    intros H. injection H as _ <-. eexists. reflexivity.
  - unfold bind at 1. unfold bind at 1. unfold bind at 1.
    unfold update_ctx at 1. unfold bind at 1. unfold emit at 1.
    unfold bind at 1.
    destruct (negb _).
    + unfold CY_ASSERT. destruct cy_assert_enabled; cbn [andb negb].
      * intros H. discriminate H.
      * unfold ret at 1. unfold update_ctx.
        rewrite update_advertising_led_run. cbn.
        intros H. injection H as _ <-. eexists. reflexivity.
    + unfold ret at 1. unfold update_ctx.
      rewrite update_advertising_led_run. cbn.
      intros H. injection H as _ <-. eexists. reflexivity.
Qed.

(** X18.  An advertising state change sets the connection state from the
    mode and the connection id alone: with advertising off the state is
    [connected] if a connection id is held and [disconnected_not_advertising]
    if not; with any other mode it is [disconnected_and_advertising], also
    while a connection id is held.  The LED is set to the duty cycle of the
    new state, the connection id stays, and no management call is made. *)
Theorem advert_state_change_sets_state mode ss :
  let s := application ss in
  let c := ble_context_object s in
  let new_state :=
    match mode with
    | BTM_BLE_ADVERT_OFF =>
        if m_connection_id c =? 0 then disconnected_not_advertising
        else state_connected
    | _ => disconnected_and_advertising
    end in
  stack_management_callback (BTM_BLE_ADVERT_STATE_CHANGED_EVT mode) ss
  = SReturned (WICED_BT_SUCCESS, None)
      {| application :=
           {| app_gatt_db_ext_attr_tbl := app_gatt_db_ext_attr_tbl s;
              ram := ram s; heap := heap s;
              ble_context_object :=
                with_connection c (m_connection_id c) (m_peer_address c)
                                new_state;
              trace := trace s ++
                [E_led_stop; E_led_set_duty_cycle (state_duty new_state) 4;
                 E_led_start] |};
         management_calls := management_calls ss |}.
Proof.
  intros s c new_state.
  unfold stack_management_callback, sbind, lift, update_ctx.
  rewrite update_advertising_led_run. reflexivity.
Qed.

(** X19.  Every management event other than the enabling of the stack and
    an advertising state change leaves the application state untouched:
    pairing, key and security events never change the connection state, the
    table or memory, and never call into the GATT side.  The two key request
    events are answered with [WICED_BT_ERROR]. *)
Theorem pairing_events_leave_application event ss :
  leaves_application_alone event = true ->
  exists r calls,
    stack_management_callback event ss
    = SReturned r {| application := application ss;
                     management_calls := management_calls ss ++ calls |} /\
    (event = BTM_LOCAL_IDENTITY_KEYS_REQUEST_EVT \/
     event = BTM_PAIRED_DEVICE_LINK_KEYS_REQUEST_EVT ->
     r = (WICED_BT_ERROR, None) /\ calls = []).
Proof.
  intros H. destruct ss as [app calls0].
  destruct event; try discriminate H; cbn;
    (eexists _, [];
     split; [rewrite app_nil_r; reflexivity
            | intros [E|E]; try discriminate E; auto]) ||
    (eexists _, [_];
     split; [reflexivity | intros [E|E]; discriminate E]).
Qed.

(** X20.  When the stack reports that it is enabled, the callback sets and
    reads the local address, allows pairing, sets the advertisement data,
    registers the GATT callback, initialises the GATT database and starts
    undirected high-duty advertising, in this order: the seven calls are the
    whole of what it adds to the log of management calls, the advertising
    start last, and that start is the one event it adds to the trace.  What
    [wiced_bt_gatt_register] returned is not looked at.  With assertions
    compiled in the program halts if the advertising start is refused or the
    database initialisation fails; otherwise the callback returns success.
    When the stack reports a failure to enable, nothing is called and
    [WICED_BT_ERROR] is returned. *)
Theorem enabled_event_starts_advertising status ss :
  let calls :=
    management_calls ss ++
      [M_wiced_bt_set_local_bdaddr; M_wiced_bt_dev_read_local_addr;
       M_wiced_bt_set_pairable_mode true;
       M_wiced_bt_ble_set_raw_advertisement_data;
       M_wiced_bt_gatt_register; M_wiced_bt_gatt_db_init;
       M_wiced_bt_start_advertisements BTM_BLE_ADVERT_UNDIRECTED_HIGH] in
  let after :=
    {| application :=
         log (application ss)
             (E_start_advertisements BTM_BLE_ADVERT_UNDIRECTED_HIGH);
       management_calls := calls |} in
  let accepted :=
    wiced_bt_start_advertisements BTM_BLE_ADVERT_UNDIRECTED_HIGH
      =? WICED_BT_SUCCESS in
  let initialised := wiced_bt_gatt_db_init =? WICED_BT_SUCCESS in
  stack_management_callback (BTM_ENABLED_EVT status) ss
  = if status =? WICED_BT_SUCCESS then
      if cy_assert_enabled && negb (accepted && initialised) then
        SHalted assertion_failed after
      else SReturned (WICED_BT_SUCCESS, None) after
    else SReturned (WICED_BT_ERROR, None) ss.
Proof.
  intros calls after accepted initialised.
  unfold stack_management_callback.
  destruct (status =? WICED_BT_SUCCESS); [|reflexivity].
  subst accepted initialised after calls.
  destruct (wiced_bt_start_advertisements BTM_BLE_ADVERT_UNDIRECTED_HIGH
              =? WICED_BT_SUCCESS) eqn:Hadv,
    (wiced_bt_gatt_db_init =? WICED_BT_SUCCESS) eqn:Hdb,
    cy_assert_enabled eqn:Hassert;
    cbv beta iota zeta delta
      [ble_start_advertising sbind call lift emit CY_ASSERT halt ret sret
       application management_calls];
    rewrite ?Hadv, ?Hassert; cbv beta iota delta [negb andb];
    rewrite ?Hdb, ?Hassert; cbv beta iota delta [negb andb];
    rewrite <- ?app_assoc; reflexivity.
Qed.

(** X21.  The life of a connection.  After [stack_initialize] the context
    holds the valid tag, no connection id and the state
    [disconnected_not_advertising].  A connect event then gives [connected]
    with the id of the event, and a disconnect event after it gives
    [disconnected_and_advertising] with the id cleared; over the two events
    the stack was asked once to start advertising. *)
Theorem connection_life_cycle ss connect disconnect :
  wiced_bt_stack_init = WICED_BT_SUCCESS ->
  wiced_bt_start_advertisements BTM_BLE_ADVERT_UNDIRECTED_HIGH
    = WICED_BT_SUCCESS ->
  connected connect = true ->
  connected disconnect = false ->
  exists ss1 s2 s3,
    stack_initialize ss = SReturned WICED_BT_SUCCESS ss1 /\
    m_tag (ble_context_object (application ss1)) = BLE_CONTEXT_TAG_VALID /\
    m_connection_id (ble_context_object (application ss1)) = 0 /\
    m_connection_state (ble_context_object (application ss1))
      = disconnected_not_advertising /\
    connection_event_handler (Some connect) (application ss1)
      = Returned WICED_BT_GATT_SUCCESS s2 /\
    m_connection_id (ble_context_object s2) = cs_conn_id connect /\
    m_connection_state (ble_context_object s2) = state_connected /\
    connection_event_handler (Some disconnect) s2
      = Returned WICED_BT_GATT_SUCCESS s3 /\
    m_connection_id (ble_context_object s3) = 0 /\
    m_connection_state (ble_context_object s3)
      = disconnected_and_advertising /\
    filter is_start_advertisements (trace s3)
      = filter is_start_advertisements (trace (application ss))
        ++ [E_start_advertisements BTM_BLE_ADVERT_UNDIRECTED_HIGH].
Proof.
  intros Hinit Hadv Hcon Hdis.
  unfold stack_initialize, sbind, lift, call, update_ctx, sret.
  rewrite Hinit. cbn [Z.eqb negb].
  eexists _, _, _. split; [reflexivity|]. cbn [application ble_context_object
    set_ctx default_value_initialize m_tag m_connection_id m_connection_state].
  repeat (split; [reflexivity|]).
  rewrite (connect_event_run connect _ Hcon).
  split; [reflexivity|].
  cbn [ble_context_object with_connection m_connection_id m_connection_state].
  repeat (split; [reflexivity|]).
  rewrite (disconnect_event_run disconnect _ Hdis Hadv).
  split; [reflexivity|].
  cbn [ble_context_object with_connection m_connection_id m_connection_state
       trace app_gatt_db_ext_attr_tbl ram heap set_ctx].
  repeat (split; [reflexivity|]).
  rewrite !filter_app. cbn. rewrite app_nil_r. reflexivity.
Qed.

End ConnectionFacts.

(* ===================================================================== *)
(** ** More of the OTA write handler *)
(* ===================================================================== *)

Section OtaWrites.

Context {ota : OtaAgent} {cycfg : CycfgGattDb}.

(** The write handler on the control point value, by the command byte. *)
Lemma control_point_write_run write_request s :
  write_handle write_request
    = HDLC_OTA_FW_UPGRADE_SERVICE_OTA_UPGRADE_CONTROL_POINT_VALUE ->
  HDLC_OTA_FW_UPGRADE_SERVICE_OTA_UPGRADE_CONTROL_POINT_VALUE
    <> HDLD_OTA_FW_UPGRADE_SERVICE_OTA_UPGRADE_CONTROL_POINT_CLIENT_CHAR_CONFIG ->
  forall command, ram s (p_val write_request) = command ->
  let c := ble_context_object s in
  let error_handle := write_handle write_request in
  ota_agent_write_handler write_request s
  = if command =? CY_OTA_UPGRADE_COMMAND_PREPARE_DOWNLOAD then
      match ota_agent_initialize s with
      | Returned result s1 =>
          if negb (result =? CY_RSLT_SUCCESS) then
            Returned (WICED_BT_GATT_ERROR, error_handle) s1
          else
            let c1 := ble_context_object s1 in
            Returned
              (if negb (cy_ota_ble_download_prepare (m_ota_context c1)
                          (m_connection_id c1) (m_ota_config_descriptor c1)
                        =? CY_RSLT_SUCCESS)
               then WICED_BT_GATT_ERROR else WICED_BT_GATT_SUCCESS,
               error_handle)
              (log s1 (E_cy_ota_ble_download_prepare (m_ota_context c1)
                         (m_connection_id c1) (m_ota_config_descriptor c1)))
      | Halted why s1 => Halted why s1
      | OutOfFuel => OutOfFuel
      end
    else if command =? CY_OTA_UPGRADE_COMMAND_DOWNLOAD then
      Returned
        (if negb (cy_ota_ble_download (m_ota_context c) write_request
                    (m_connection_id c) (m_ota_config_descriptor c)
                  =? CY_RSLT_SUCCESS)
         then WICED_BT_GATT_ERROR else WICED_BT_GATT_SUCCESS, error_handle)
        (log s (E_cy_ota_ble_download (m_ota_context c) (m_connection_id c)
                  (m_ota_config_descriptor c)))
    else if command =? CY_OTA_UPGRADE_COMMAND_VERIFY then
      Returned
        (if negb (cy_ota_ble_download_verify (m_ota_context c) write_request
                    (m_connection_id c) =? CY_RSLT_SUCCESS)
         then WICED_BT_GATT_ERROR else WICED_BT_GATT_SUCCESS, error_handle)
        (log s (E_cy_ota_ble_download_verify (m_ota_context c)
                  (m_connection_id c)))
    else if command =? CY_OTA_UPGRADE_COMMAND_ABORT then
      Returned (WICED_BT_GATT_SUCCESS, error_handle)
               (log s (E_cy_ota_ble_download_abort (m_ota_context c)))
    else Returned (WICED_BT_GATT_REQ_NOT_SUPPORTED, error_handle) s.
Proof.
  intros Hhandle Hdistinct command Hcommand c error_handle.
  subst c error_handle.
  destruct write_request as [h p l]. cbn [write_handle p_val] in *. subst h.
  unfold ota_agent_write_handler, bind at 1, get. cbn [write_handle p_val].
  rewrite (proj2 (Z.eqb_neq _ _) Hdistinct), Z.eqb_refl, Hcommand.
  destruct (command =? CY_OTA_UPGRADE_COMMAND_PREPARE_DOWNLOAD).
  - unfold bind at 1.
    destruct (ota_agent_initialize s) as [result s1| |]; try reflexivity.
    destruct (negb (result =? CY_RSLT_SUCCESS)); [reflexivity|].
    unfold bind, get, emit.
    destruct (negb _); reflexivity.
  - destruct (command =? CY_OTA_UPGRADE_COMMAND_DOWNLOAD).
    + unfold bind, emit. destruct (negb _); reflexivity.
    + destruct (command =? CY_OTA_UPGRADE_COMMAND_VERIFY).
      * unfold bind, emit. destruct (negb _); reflexivity.
      * destruct (command =? CY_OTA_UPGRADE_COMMAND_ABORT); reflexivity.
Qed.

(** X22.  A command byte on the control point other than prepare (1),
    download (2), verify (3) and abort (7) is answered with
    [WICED_BT_GATT_REQ_NOT_SUPPORTED]; the OTA library is not called and the
    state does not change. *)
Theorem unknown_command_is_not_supported write_request s :
  write_handle write_request
    = HDLC_OTA_FW_UPGRADE_SERVICE_OTA_UPGRADE_CONTROL_POINT_VALUE ->
  HDLC_OTA_FW_UPGRADE_SERVICE_OTA_UPGRADE_CONTROL_POINT_VALUE
    <> HDLD_OTA_FW_UPGRADE_SERVICE_OTA_UPGRADE_CONTROL_POINT_CLIENT_CHAR_CONFIG ->
  ~ In (ram s (p_val write_request))
       [CY_OTA_UPGRADE_COMMAND_PREPARE_DOWNLOAD;
        CY_OTA_UPGRADE_COMMAND_DOWNLOAD;
        CY_OTA_UPGRADE_COMMAND_VERIFY;
        CY_OTA_UPGRADE_COMMAND_ABORT] ->
  ota_agent_write_handler write_request s
  = Returned (WICED_BT_GATT_REQ_NOT_SUPPORTED, write_handle write_request) s.
Proof.
  intros Hhandle Hdistinct Hcommand.
  rewrite (control_point_write_run write_request s Hhandle Hdistinct _
             eq_refl).
  cbn in Hcommand.
  repeat match goal with
  | |- context [?a =? ?b] =>
      destruct (Z.eqb_spec a b) as [E|E];
      [exfalso; apply Hcommand; rewrite E; auto 6 | clear E]
  end.
  reflexivity.
Qed.

(** X23.  A download or verify command is passed to the OTA library once,
    with the context, the connection id and, for download, the stored
    configuration descriptor; the write is answered with success exactly when
    the library returns [CY_RSLT_SUCCESS] and with [WICED_BT_GATT_ERROR]
    otherwise.  An abort command is passed on once as well, but answered
    with success whatever the library returns.  None of the three changes
    the context record, the table or memory. *)
Theorem control_point_commands_and_the_engine write_request s :
  write_handle write_request
    = HDLC_OTA_FW_UPGRADE_SERVICE_OTA_UPGRADE_CONTROL_POINT_VALUE ->
  HDLC_OTA_FW_UPGRADE_SERVICE_OTA_UPGRADE_CONTROL_POINT_VALUE
    <> HDLD_OTA_FW_UPGRADE_SERVICE_OTA_UPGRADE_CONTROL_POINT_CLIENT_CHAR_CONFIG ->
  let c := ble_context_object s in
  (ram s (p_val write_request) = CY_OTA_UPGRADE_COMMAND_DOWNLOAD ->
   ota_agent_write_handler write_request s
   = Returned
       (if cy_ota_ble_download (m_ota_context c) write_request
             (m_connection_id c) (m_ota_config_descriptor c)
           =? CY_RSLT_SUCCESS
        then WICED_BT_GATT_SUCCESS else WICED_BT_GATT_ERROR,
        write_handle write_request)
       (log s (E_cy_ota_ble_download (m_ota_context c) (m_connection_id c)
                 (m_ota_config_descriptor c)))) /\
  (ram s (p_val write_request) = CY_OTA_UPGRADE_COMMAND_VERIFY ->
   ota_agent_write_handler write_request s
   = Returned
       (if cy_ota_ble_download_verify (m_ota_context c) write_request
             (m_connection_id c) =? CY_RSLT_SUCCESS
        then WICED_BT_GATT_SUCCESS else WICED_BT_GATT_ERROR,
        write_handle write_request)
       (log s (E_cy_ota_ble_download_verify (m_ota_context c)
                 (m_connection_id c)))) /\
  (ram s (p_val write_request) = CY_OTA_UPGRADE_COMMAND_ABORT ->
   ota_agent_write_handler write_request s
   = Returned (WICED_BT_GATT_SUCCESS, write_handle write_request)
       (log s (E_cy_ota_ble_download_abort (m_ota_context c)))).
Proof.
  intros Hhandle Hdistinct c. split; [|split]; intros Hcommand;
    rewrite (control_point_write_run write_request s Hhandle Hdistinct _
               Hcommand);
    cbn [Z.eqb Pos.eqb CY_OTA_UPGRADE_COMMAND_PREPARE_DOWNLOAD
         CY_OTA_UPGRADE_COMMAND_DOWNLOAD CY_OTA_UPGRADE_COMMAND_VERIFY
         CY_OTA_UPGRADE_COMMAND_ABORT];
    fold c; try destruct (_ =? CY_RSLT_SUCCESS); reflexivity.
Qed.

(** X24.  A prepare command with the valid tag resets the OTA members of
    the context and starts the agent.  If the agent does not start, the
    function never returns.  If it starts, the context pointer it gave is
    stored, [m_reboot_at_end] is set, and [cy_ota_ble_download_prepare] is
    called with that pointer, the connection id and the configuration
    descriptor 0: the descriptor written earlier is reset before it is
    passed on.  The write is answered with success exactly when that call
    returns [CY_RSLT_SUCCESS]. *)
Theorem prepare_with_valid_tag_starts_session write_request s :
  write_handle write_request
    = HDLC_OTA_FW_UPGRADE_SERVICE_OTA_UPGRADE_CONTROL_POINT_VALUE ->
  HDLC_OTA_FW_UPGRADE_SERVICE_OTA_UPGRADE_CONTROL_POINT_VALUE
    <> HDLD_OTA_FW_UPGRADE_SERVICE_OTA_UPGRADE_CONTROL_POINT_CLIENT_CHAR_CONFIG ->
  ram s (p_val write_request) = CY_OTA_UPGRADE_COMMAND_PREPARE_DOWNLOAD ->
  m_tag (ble_context_object s) = OTA_APP_TAG_VALID ->
  let c := ble_context_object s in
  let context := snd cy_ota_agent_start in
  let started := set_ctx s (with_ota c context true 0) in
  ota_agent_write_handler write_request s
  = if fst cy_ota_agent_start =? CY_RSLT_SUCCESS then
      Returned
        (if cy_ota_ble_download_prepare context (m_connection_id c) 0
            =? CY_RSLT_SUCCESS
         then WICED_BT_GATT_SUCCESS else WICED_BT_GATT_ERROR,
         write_handle write_request)
        (log (log started E_cy_ota_agent_start)
             (E_cy_ota_ble_download_prepare context (m_connection_id c) 0))
    else
      Halted spins_forever
        (log (log started E_cy_ota_agent_start)
             (E_cy_rtos_delay_milliseconds 10)).
Proof.
  intros Hhandle Hdistinct Hcommand Htag c context started.
  rewrite (control_point_write_run write_request s Hhandle Hdistinct _
             Hcommand).
  cbn [Z.eqb Pos.eqb CY_OTA_UPGRADE_COMMAND_PREPARE_DOWNLOAD].
  unfold ota_agent_initialize, bind, get, update_ctx, emit, halt, ret.
  rewrite Htag, Z.eqb_refl. cbn [negb].
  subst started context c.
  destruct cy_ota_agent_start as [result ctx]. cbn [fst snd].
  destruct (result =? CY_RSLT_SUCCESS) eqn:E; cbn [negb].
  - rewrite E. cbn.
    destruct (cy_ota_ble_download_prepare _ _ _ =? CY_RSLT_SUCCESS);
      destruct s; reflexivity.
  - destruct s; reflexivity.
Qed.

End OtaWrites.

(* ===================================================================== *)
(** ** More of the battery task *)
(* ===================================================================== *)

Section BatteryTask.

Context {cycfg : CycfgGattDb}.

(** X25.  One turn of the battery task always comes back, and touches
    nothing but the level byte and the trace: the table, the heap, the
    context and every other byte of memory are as before.  Without a
    connection, or with the notification bit of the client configuration
    clear, it changes nothing at all and sends nothing.  Otherwise the level
    byte holds the updated level and one notification for the battery level
    handle is sent to the connection. *)
Theorem battery_task_turn_frame s :
  let c := ble_context_object s in
  let subscribed :=
    Z.land (ram s app_bas_battery_level_client_char_config)
           GATT_CLIENT_CONFIG_NOTIFICATION in
  exists s',
    battery_service_task_iteration s = Returned tt s' /\
    app_gatt_db_ext_attr_tbl s' = app_gatt_db_ext_attr_tbl s /\
    heap s' = heap s /\
    ble_context_object s' = c /\
    (forall a, a <> app_bas_battery_level -> ram s' a = ram s a) /\
    (m_connection_id c = 0 \/ subscribed = 0 -> s' = s) /\
    (m_connection_id c <> 0 -> subscribed <> 0 ->
     ram s' app_bas_battery_level
       = battery_level_after BATTERY_LEVEL_CHANGE
           (ram s app_bas_battery_level) /\
     exists payload,
       trace s' = trace s ++
         [E_send_notification (m_connection_id c)
            HDLC_BAS_BATTERY_LEVEL_VALUE app_bas_battery_level_len
            app_bas_battery_level payload]).
Proof.
  intros c subscribed. subst c subscribed.
  unfold battery_service_task_iteration, bind at 1, get.
  destruct (Z.eqb_spec (m_connection_id (ble_context_object s)) 0)
    as [Hid|Hid].
  { exists s. do 6 (split; [reflexivity|]). intros H. contradiction. }
  destruct (Z.eqb_spec
              (Z.land (ram s app_bas_battery_level_client_char_config)
                      GATT_CLIENT_CONFIG_NOTIFICATION) 0) as [Hbit|Hbit].
  { exists s. do 6 (split; [reflexivity|]). intros _ H. contradiction. }
  eexists. split; [reflexivity|]. cbn.
  split; [reflexivity|]. split; [reflexivity|]. split; [reflexivity|].
  split.
  - intros a Ha. unfold store8.
    destruct (Z.eqb_spec a app_bas_battery_level); [contradiction|reflexivity].
  - split.
    + intros [H|H]; contradiction.
    + intros _ _. split.
      * unfold store8. rewrite Z.eqb_refl. reflexivity.
      * eexists. reflexivity.
Qed.

End BatteryTask.

Lemma even_levels_cycle :
  forallb (fun level =>
             Nat.iter 51 (battery_level_after BATTERY_LEVEL_CHANGE) level
             =? level) even_levels = true.
Proof. vm_compute. reflexivity. Qed.

(** X26.  From an even level between 0 and 100 the update comes back to the
    same level after 51 turns: the level runs down to 0 in steps of 2, is set
    to 100, and runs down again. *)
Theorem battery_level_cycle level :
  0 <= level <= 100 -> Z.even level = true ->
  Nat.iter 51 (battery_level_after BATTERY_LEVEL_CHANGE) level = level.
Proof.
  intros Hrange Heven.
  assert (Hin : In level even_levels).
  { unfold even_levels. apply in_map_iff.
    exists (Z.to_nat (level / 2)). split.
    - rewrite Z2Nat.id by (apply Z.div_pos; lia).
      apply Z.even_spec in Heven. destruct Heven as [k ->].
      rewrite (Z.mul_comm 2 k), Z.div_mul by lia. lia.
    - apply in_seq. split; [lia|].
      assert (level / 2 <= 50) by (apply Z.div_le_upper_bound; lia).
      lia. }
  pose proof even_levels_cycle as H.
  rewrite forallb_forall in H. specialize (H level Hin).
  apply Z.eqb_eq in H. exact H.
Qed.

Lemma battery_level_cycle_witness :
  0 <= 42 <= 100 /\ Z.even 42 = true /\
  Nat.iter 51 (battery_level_after BATTERY_LEVEL_CHANGE) 42 = 42.
Proof.
  assert (H : 0 <= 42 <= 100) by lia.
  split; [exact H|]. split; [reflexivity|].
  exact (battery_level_cycle 42 H eq_refl).
Defined.

Lemma battery_level_after_even_witness :
  0 <= 42 <= 100 /\ Z.even 42 = true /\
  0 <= battery_level_after BATTERY_LEVEL_CHANGE 42 <= 100 /\
  Z.even (battery_level_after BATTERY_LEVEL_CHANGE 42) = true.
Proof.
  assert (H : 0 <= 42 <= 100) by lia.
  split; [exact H|]. split; [reflexivity|].
  exact (battery_level_after_even 42 H eq_refl).
Defined.

(* ===================================================================== *)
(** ** The PWM signal behind the LED *)
(* ===================================================================== *)

Section PwmSignal.

Context {platform : Platform} {hal : CyhalPwm}.

Import cyhal_pwm_signal.

Lemma clamp_pct_range p : 0 <= p -> 0 <= clamp_pct p <= 100.
Proof.
  intros Hp. unfold clamp_pct. destruct (Z.gtb_spec p 100); lia.
Qed.

Lemma hardware_duty_cycle_range self p :
  0 <= p <= 100 -> 0 <= hardware_duty_cycle self p <= 100.
Proof.
  intros Hp. unfold hardware_duty_cycle, to_uint8.
  destruct (m_active_low self); [|lia].
  rewrite Z.mod_small; lia.
Qed.

(** An integer below 2^24 is a [float]. *)
Lemma static_cast_float_exact n :
  n < 16777216 -> static_cast_float n = n.
Proof.
  intros Hn. unfold static_cast_float.
  destruct (Z.ltb_spec n 16777216); [reflexivity | lia].
Qed.

(** The hardware duty is a [uint8_t] or a clamped duty, so its conversion
    to [float] is exact. *)
Lemma hardware_duty_is_exact self p :
  static_cast_float (hardware_duty_cycle self (clamp_pct p))
  = hardware_duty_cycle self (clamp_pct p).
Proof.
  apply static_cast_float_exact. unfold hardware_duty_cycle, to_uint8.
  destruct (m_active_low self).
  - pose proof (Z.mod_pos_bound (100 - clamp_pct p) 256). lia.
  - unfold clamp_pct. destruct (Z.gtb_spec p 100); lia.
Qed.

(** The first integer that is not a [float] goes to its even neighbour. *)
Example static_cast_float_rounds :
  static_cast_float 16777217 = 16777216 /\
  static_cast_float 16777219 = 16777220 /\
  static_cast_float 4294967295 = 4294967296.
Proof. repeat split. Qed.

(** X27.  Whatever 8-bit duty cycle is asked for, [set_duty_cycle] hands the
    HAL a duty between 0 and 100 in one call, and the logical duty the object
    remembers stays between 0 and 100 if it was so before. *)
Theorem pwm_duty_stays_in_range self duty_cycle_pct frequency_hz :
  0 <= duty_cycle_pct < 256 ->
  0 <= m_last_duty self <= 100 ->
  exists result self' hw_duty,
    set_duty_cycle self duty_cycle_pct frequency_hz
    = (result, self',
       [P_cyhal_pwm_set_duty_cycle hw_duty
          (static_cast_float frequency_hz)]) /\
    0 <= hw_duty <= 100 /\
    0 <= m_last_duty self' <= 100.
Proof.
  intros Hp Hinv. unfold set_duty_cycle. rewrite hardware_duty_is_exact.
  eexists _, _, _. split; [reflexivity|]. split.
  - apply hardware_duty_cycle_range, clamp_pct_range. lia.
  - destruct (_ =? CY_RSLT_SUCCESS); [cbn; apply clamp_pct_range; lia|exact Hinv].
Qed.

(** X28.  [set_duty_cycle] changes the object only when the HAL accepts the
    setting: on any other result the remembered duty, frequency and polarity
    are as before; on success the object remembers the clamped duty and the
    frequency, and keeps its polarity. *)
Theorem pwm_settings_follow_the_hal self duty_cycle_pct frequency_hz :
  let hw_duty := hardware_duty_cycle self (clamp_pct duty_cycle_pct) in
  let result :=
    cyhal_pwm_set_duty_cycle hw_duty (static_cast_float frequency_hz) in
  let self' := snd (fst (set_duty_cycle self duty_cycle_pct frequency_hz)) in
  fst (fst (set_duty_cycle self duty_cycle_pct frequency_hz)) = result /\
  (result <> CY_RSLT_SUCCESS -> self' = self) /\
  (result = CY_RSLT_SUCCESS ->
   duty self' = clamp_pct duty_cycle_pct /\
   frequency self' = frequency_hz /\
   active_low self' = active_low self).
Proof.
  cbv zeta. unfold set_duty_cycle. rewrite hardware_duty_is_exact.
  cbn [fst snd]. split; [reflexivity|].
  split.
  - intros Hne. rewrite (proj2 (Z.eqb_neq _ _) Hne). reflexivity.
  - intros ->. cbn. auto.
Qed.

(** X29.  [set_frequency] keeps the duty: with a remembered duty between 0
    and 100 it hands the HAL the hardware duty of that same logical duty,
    with the new frequency as a [float], which is the new frequency itself
    when that is below 2^24.  After success the object remembers the same
    duty and the new frequency as the integer that was asked for. *)
Theorem pwm_set_frequency_keeps_duty self frequency_hz :
  0 <= m_last_duty self <= 100 ->
  let hw_duty := hardware_duty_cycle self (m_last_duty self) in
  let run := set_frequency self frequency_hz in
  snd run
    = [P_cyhal_pwm_set_duty_cycle hw_duty
         (static_cast_float frequency_hz)] /\
  (frequency_hz < 16777216 ->
   snd run = [P_cyhal_pwm_set_duty_cycle hw_duty frequency_hz]) /\
  (fst (fst run) = CY_RSLT_SUCCESS ->
   duty (snd (fst run)) = duty self /\
   frequency (snd (fst run)) = frequency_hz).
Proof.
  intros Hinv. cbv zeta. unfold set_frequency, set_duty_cycle.
  rewrite hardware_duty_is_exact.
  assert (Hclamp : clamp_pct (m_last_duty self) = m_last_duty self).
  { unfold clamp_pct. destruct (Z.gtb_spec (m_last_duty self) 100); lia. }
  rewrite Hclamp. cbn [fst snd]. split; [reflexivity|]. split.
  - intros Hsmall. rewrite static_cast_float_exact by exact Hsmall.
    reflexivity.
  - intros ->. cbn. auto.
Qed.

(** X30.  Polarity.  For every 8-bit duty asked for, the duty an active-low
    signal hands the HAL and the duty an active-high signal hands it add up
    to 100; the active-high one is the logical duty clamped to 100.  So an
    active-low LED that is set fully on is programmed with 0, and one that is
    set off with 100. *)
Theorem pwm_active_low_is_the_complement self duty_cycle_pct frequency_hz :
  0 <= duty_cycle_pct < 256 ->
  exists low high,
    snd (set_duty_cycle (set_active_low self true) duty_cycle_pct
                        frequency_hz)
      = [P_cyhal_pwm_set_duty_cycle low (static_cast_float frequency_hz)] /\
    snd (set_duty_cycle (set_active_low self false) duty_cycle_pct
                        frequency_hz)
      = [P_cyhal_pwm_set_duty_cycle high (static_cast_float frequency_hz)] /\
    high = Z.min duty_cycle_pct 100 /\
    low + high = 100.
Proof.
  intros Hp. unfold set_duty_cycle. rewrite !hardware_duty_is_exact.
  unfold hardware_duty_cycle, set_active_low.
  cbn [m_active_low snd].
  eexists _, _. split; [reflexivity|]. split; [reflexivity|].
  unfold clamp_pct, to_uint8.
  destruct (Z.gtb_spec duty_cycle_pct 100).
  - rewrite Z.min_r by lia. split; reflexivity.
  - rewrite Z.min_l by lia. split; [reflexivity|].
    rewrite Z.mod_small; lia.
Qed.

End PwmSignal.

(* ===================================================================== *)
(** ** Runs of the further properties *)
(* ===================================================================== *)

(** A write request of the five bytes at 0x2000 to the name attribute. *)
Lemma write_is_answered_witness :
  let platform := demo_platform true 0x3000 in
  let stack := demo_stack [] WICED_BT_SUCCESS in
  let req := demo_request GATT_REQ_WRITE
               {| write_handle := 0x0003; p_val := 0x2000; val_len := 5 |} in
  let s := connected_state in
  let s1 := state_of (ble_gatt_db_set_value 0x0003 0x2000 5 s) s in
  @ble_gatt_event_callback platform stack demo_ota demo_cycfg 0
    (GATT_ATTRIBUTE_REQUEST_EVT req) s
  = Returned WICED_BT_GATT_SUCCESS
      (log s1 (E_send_write_rsp 1 GATT_REQ_WRITE 0x0003)).
Proof.
  intros platform stack req s s1.
  apply (@write_is_answered_by_status platform stack demo_ota demo_cycfg 0
           req s WICED_BT_GATT_SUCCESS s1);
    [left; reflexivity | discriminate | discriminate | discriminate
    | reflexivity].
Defined.

Lemma queued_writes_witness :
  let platform := demo_platform true 0x3000 in
  let stack := demo_stack [] WICED_BT_SUCCESS in
  let wr := {| write_handle := 0x0003; p_val := 0x2000; val_len := 5 |} in
  let s := connected_state in
  @ble_gatt_event_callback platform stack demo_ota demo_cycfg 0
    (GATT_ATTRIBUTE_REQUEST_EVT (demo_request GATT_REQ_PREPARE_WRITE wr)) s
    = Returned WICED_BT_GATT_SUCCESS s /\
  @ble_gatt_event_callback platform stack demo_ota demo_cycfg 0
    (GATT_ATTRIBUTE_REQUEST_EVT (demo_request GATT_REQ_EXECUTE_WRITE wr)) s
    = Returned WICED_BT_GATT_SUCCESS
        (log s (E_send_execute_write_rsp 1 GATT_REQ_EXECUTE_WRITE)).
Proof.
  intros platform stack wr s.
  exact (@queued_writes_are_not_applied platform stack demo_ota demo_cycfg 0
           (demo_request GATT_REQ_PREPARE_WRITE wr)
           (demo_request GATT_REQ_EXECUTE_WRITE wr) s eq_refl eq_refl).
Defined.

Lemma confirmation_witness :
  let platform := demo_platform true 0x3000 in
  let stack := demo_stack [] WICED_BT_SUCCESS in
  let wr := {| write_handle := 0; p_val := nullptr; val_len := 0 |} in
  let s := connected_state in
  exists s',
    @ble_gatt_event_callback platform stack demo_ota demo_cycfg 0
      (GATT_ATTRIBUTE_REQUEST_EVT (demo_request GATT_HANDLE_VALUE_CONF wr)) s
    = Returned WICED_BT_GATT_SUCCESS s' /\
    trace s' = trace s ++ [E_cy_ota_get_state nullptr;
                           E_cy_ota_agent_stop nullptr] /\
    app_gatt_db_ext_attr_tbl s' = app_gatt_db_ext_attr_tbl s /\
    ram s' = ram s.
Proof.
  intros platform stack wr s.
  exact (@confirmation_reboots_or_stops platform stack demo_ota demo_cycfg 0
           (demo_request GATT_HANDLE_VALUE_CONF wr) s eq_refl).
Defined.

Lemma led_follows_connection_state_witness :
  let platform := demo_platform true 0x3000 in
  let stack := demo_stack [] WICED_BT_SUCCESS in
  let cs := {| bd_addr := [1; 2; 3; 4; 5; 6]; cs_conn_id := 1;
               connected := false |} in
  let s := connected_state in
  let s' := state_of (@connection_event_handler platform stack (Some cs) s)
                     s in
  exists before,
    trace s' = before ++
      [E_led_stop;
       E_led_set_duty_cycle
         (state_duty (m_connection_state (ble_context_object s'))) 4;
       E_led_start].
Proof.
  intros platform stack cs s s'.
  exact (@led_follows_connection_state platform stack cs s
           WICED_BT_GATT_SUCCESS s' eq_refl).
Defined.

Lemma pairing_events_witness :
  let platform := demo_platform true 0x3000 in
  let stack := demo_stack [] WICED_BT_SUCCESS in
  let ss := {| application := connected_state; management_calls := [] |} in
  exists r calls,
    @stack_management_callback platform stack demo_management
      (BTM_SECURITY_REQUEST_EVT [1; 2; 3; 4; 5; 6]) ss
    = SReturned r {| application := application ss;
                     management_calls := management_calls ss ++ calls |} /\
    (BTM_SECURITY_REQUEST_EVT [1; 2; 3; 4; 5; 6]
       = BTM_LOCAL_IDENTITY_KEYS_REQUEST_EVT \/
     BTM_SECURITY_REQUEST_EVT [1; 2; 3; 4; 5; 6]
       = BTM_PAIRED_DEVICE_LINK_KEYS_REQUEST_EVT ->
     r = (WICED_BT_ERROR, None) /\ calls = []).
Proof.
  intros platform stack ss.
  exact (@pairing_events_leave_application platform stack demo_management
           (BTM_SECURITY_REQUEST_EVT [1; 2; 3; 4; 5; 6]) ss eq_refl).
Defined.

Lemma connection_life_cycle_witness :
  let platform := demo_platform true 0x3000 in
  let stack := demo_stack [] WICED_BT_SUCCESS in
  let ss := {| application :=
                 demo_state (demo_context BLE_CONTEXT_TAG_INVALID 7
                               state_connected);
               management_calls := [] |} in
  let connect := {| bd_addr := [1; 2; 3; 4; 5; 6]; cs_conn_id := 5;
                    connected := true |} in
  let disconnect := {| bd_addr := [1; 2; 3; 4; 5; 6]; cs_conn_id := 5;
                       connected := false |} in
  exists ss1 s2 s3,
    @stack_initialize platform demo_management ss
      = SReturned WICED_BT_SUCCESS ss1 /\
    m_tag (ble_context_object (application ss1)) = BLE_CONTEXT_TAG_VALID /\
    m_connection_id (ble_context_object (application ss1)) = 0 /\
    m_connection_state (ble_context_object (application ss1))
      = disconnected_not_advertising /\
    @connection_event_handler platform stack (Some connect)
      (application ss1)
      = Returned WICED_BT_GATT_SUCCESS s2 /\
    m_connection_id (ble_context_object s2) = 5 /\
    m_connection_state (ble_context_object s2) = state_connected /\
    @connection_event_handler platform stack (Some disconnect) s2
      = Returned WICED_BT_GATT_SUCCESS s3 /\
    m_connection_id (ble_context_object s3) = 0 /\
    m_connection_state (ble_context_object s3)
      = disconnected_and_advertising /\
    filter is_start_advertisements (trace s3)
      = [E_start_advertisements BTM_BLE_ADVERT_UNDIRECTED_HIGH].
Proof.
  intros platform stack ss connect disconnect.
  exact (@connection_life_cycle platform stack demo_management ss connect
           disconnect eq_refl eq_refl eq_refl eq_refl).
Defined.

(** The command byte 7 lies at 0x2201, the byte 9 at 0x2202 and the byte 2
    at 0x2203 of [ota_ram]. *)
Lemma unknown_command_witness :
  let wr := {| write_handle := 0x000D; p_val := 0x2202; val_len := 1 |} in
  let s := ota_state in
  @ota_agent_write_handler demo_ota demo_cycfg wr s
  = Returned (WICED_BT_GATT_REQ_NOT_SUPPORTED, 0x000D) s.
Proof.
  intros wr s.
  apply (@unknown_command_is_not_supported demo_ota demo_cycfg wr s);
    [reflexivity | discriminate |].
  cbn. intros [H|[H|[H|[H|[]]]]]; discriminate H.
Defined.

Lemma control_point_commands_witness :
  let s := ota_state in
  let download := {| write_handle := 0x000D; p_val := 0x2203; val_len := 1 |} in
  let abort := {| write_handle := 0x000D; p_val := 0x2201; val_len := 1 |} in
  @ota_agent_write_handler demo_ota demo_cycfg download s
    = Returned (WICED_BT_GATT_SUCCESS, 0x000D)
        (log s (E_cy_ota_ble_download nullptr 1 0)) /\
  @ota_agent_write_handler demo_ota demo_cycfg abort s
    = Returned (WICED_BT_GATT_SUCCESS, 0x000D)
        (log s (E_cy_ota_ble_download_abort nullptr)).
Proof.
  intros s download abort.
  assert (Hdistinct :
    @HDLC_OTA_FW_UPGRADE_SERVICE_OTA_UPGRADE_CONTROL_POINT_VALUE demo_cycfg
    <> @HDLD_OTA_FW_UPGRADE_SERVICE_OTA_UPGRADE_CONTROL_POINT_CLIENT_CHAR_CONFIG
         demo_cycfg) by discriminate.
  split.
  - exact (proj1 (@control_point_commands_and_the_engine demo_ota demo_cycfg
                    download s eq_refl Hdistinct) eq_refl).
  - exact (proj2 (proj2 (@control_point_commands_and_the_engine demo_ota
                           demo_cycfg abort s eq_refl Hdistinct)) eq_refl).
Defined.

Lemma prepare_with_valid_tag_witness :
  let wr := {| write_handle := 0x000D; p_val := 0x2200; val_len := 1 |} in
  let s := ota_state in
  @ota_agent_write_handler demo_ota demo_cycfg wr s
  = Returned (WICED_BT_GATT_SUCCESS, 0x000D)
      (log (log (set_ctx s (with_ota (ble_context_object s) 0x4000 true 0))
                E_cy_ota_agent_start)
           (E_cy_ota_ble_download_prepare 0x4000 1 0)).
Proof.
  intros wr s.
  apply (@prepare_with_valid_tag_starts_session demo_ota demo_cycfg wr s);
    [reflexivity | discriminate | reflexivity | reflexivity].
Defined.

Lemma pwm_duty_witness :
  let self := cyhal_pwm_signal.make true in
  0 <= 250 < 256 /\
  0 <= cyhal_pwm_signal.m_last_duty self <= 100 /\
  exists result self' hw_duty,
    @cyhal_pwm_signal.set_duty_cycle demo_hal self 250 4
    = (result, self', [P_cyhal_pwm_set_duty_cycle hw_duty 4]) /\
    0 <= hw_duty <= 100 /\
    0 <= cyhal_pwm_signal.m_last_duty self' <= 100.
Proof.
  intros self.
  assert (H1 : 0 <= 250 < 256) by lia.
  assert (H2 : 0 <= cyhal_pwm_signal.m_last_duty self <= 100) by (cbn; lia).
  split; [exact H1|]. split; [exact H2|].
  exact (@pwm_duty_stays_in_range demo_hal self 250 4 H1 H2).
Defined.

Lemma pwm_settings_witness :
  let self := cyhal_pwm_signal.make true in
  let self' :=
    snd (fst (@cyhal_pwm_signal.set_duty_cycle demo_hal self 250 4)) in
  cyhal_pwm_signal.duty self' = 100 /\
  cyhal_pwm_signal.frequency self' = 4 /\
  cyhal_pwm_signal.active_low self' = true.
Proof.
  intros self self'.
  exact (proj2 (proj2 (@pwm_settings_follow_the_hal demo_hal self 250 4))
               eq_refl).
Defined.

Lemma pwm_set_frequency_witness :
  let self := cyhal_pwm_signal.make true in
  let run := @cyhal_pwm_signal.set_frequency demo_hal self 16777217 in
  snd run = [P_cyhal_pwm_set_duty_cycle 100 16777216] /\
  (16777217 < 16777216 ->
   snd run = [P_cyhal_pwm_set_duty_cycle 100 16777217]) /\
  (fst (fst run) = CY_RSLT_SUCCESS ->
   cyhal_pwm_signal.duty (snd (fst run)) = 0 /\
   cyhal_pwm_signal.frequency (snd (fst run)) = 16777217).
Proof.
  intros self run.
  assert (H : 0 <= cyhal_pwm_signal.m_last_duty self <= 100) by (cbn; lia).
  exact (@pwm_set_frequency_keeps_duty demo_hal self 16777217 H).
Defined.

Lemma pwm_active_low_witness :
  let self := cyhal_pwm_signal.make true in
  exists low high,
    snd (@cyhal_pwm_signal.set_duty_cycle demo_hal
           (cyhal_pwm_signal.set_active_low self true) 100 4)
      = [P_cyhal_pwm_set_duty_cycle low 4] /\
    snd (@cyhal_pwm_signal.set_duty_cycle demo_hal
           (cyhal_pwm_signal.set_active_low self false) 100 4)
      = [P_cyhal_pwm_set_duty_cycle high 4] /\
    high = Z.min 100 100 /\
    low + high = 100.
Proof.
  intros self.
  assert (H : 0 <= 100 < 256) by lia.
  exact (@pwm_active_low_is_the_complement demo_hal self 100 4 H).
Defined.
